(** * scraper.py: the acquisition loop, the snapshot store and the atomic writer

    A shallow embedding of [src/scraper.py].  The program keeps the last
    snapshot in the global [latest_data], guarded by [latest_data_lock],
    mirrors it on disk through [save_json_atomic] and serves it through
    [get_latest].  The collaborators the program only calls (Selenium,
    BeautifulSoup, [json.dump], the operating system) appear as oracles:
    their answers are inputs of the model, the program's reaction to
    every answer is what the theorems are about. *)

From stdpp Require Import gmap strings list fin_maps.
From Stdlib Require Import ZArith NArith Lia Sorted.

Local Open Scope Z_scope.

(** ** Python values *)

(** A Python [str] is a sequence of code points. *)
Definition pychar := N.
Definition pystr := list pychar.

(** An ASCII literal as a Python [str]. *)
Definition py (s : string) : pystr :=
  map Ascii.N_of_ascii (String.list_ascii_of_string s).

(** [str.isspace] on one code point: the Unicode white space table of
    CPython. *)
Definition py_isspace (c : pychar) : bool :=
  ((9 <=? c) && (c <=? 13) || (28 <=? c) && (c <=? 32)
   || (c =? 133) || (c =? 160) || (c =? 5760)
   || (8192 <=? c) && (c <=? 8202)
   || (c =? 8232) || (c =? 8233) || (c =? 8239) || (c =? 8287)
   || (c =? 12288))%N.

Fixpoint py_lstrip (s : pystr) : pystr :=
  match s with
  | [] => []
  | c :: s' => if py_isspace c then py_lstrip s' else s
  end.

Definition py_rstrip (s : pystr) : pystr := rev (py_lstrip (rev s)).

(** [s.strip()] *)
Definition py_strip (s : pystr) : pystr := py_rstrip (py_lstrip s).

(** [s.split(sep)] for a one-character separator: never an empty list. *)
Fixpoint py_split (sep : pychar) (s : pystr) : list pystr :=
  match s with
  | [] => [[]]
  | c :: s' =>
      if (c =? sep)%N then [] :: py_split sep s'
      else match py_split sep s' with
           | [] => [[c]]
           | w :: ws => (c :: w) :: ws
           end
  end.

Definition newline : pychar := 10%N.

(** The exceptions the program meets.  Every handler of the program is
    [except Exception], so the class only matters for reading traces;
    [UnicodeEncodeError] stands for whatever a [print] raises (a
    standard output that cannot encode the text, or one that is closed). *)
Inductive exn :=
| IndexError
| OSError
| SameFileError
| WebDriverException
| ParserRejectedMarkup
| UnicodeEncodeError.

(** The result of a Python computation: a value or a raised exception. *)
Inductive res (A : Type) :=
| Ret (a : A)
| Raise (e : exn).
Arguments Ret {A} a.
Arguments Raise {A} e.

Definition is_ret {A} (r : res A) : bool :=
  match r with Ret _ => true | Raise _ => false end.

(** [l[i]] for a non-negative index. *)
Definition py_getitem {A} (l : list A) (i : nat) : res A :=
  match l !! i with
  | Some x => Ret x
  | None => Raise IndexError
  end.

(** ** Records and snapshots *)

(** One row of the market table: [{"pair": .., "price": .., "change_24h": ..}]. *)
Record Record_ := mkRecord {
  pair : pystr;
  price : pystr;
  change_24h : pystr
}.

(** The dict that [update_data_loop] builds; [sim_price] counts
    hundredths, the source rounds to two decimals. *)
Record SimData := mkSimData {
  sim_timestamp : pystr;
  sim_price : Z;
  sim_volume : Z
}.

(** What the global [latest_data] can be bound to: the list built by
    [parse_market_from_html], or the dict assigned by [update_data_loop]. *)
Inductive pydata :=
| DList (rows : list Record_)
| DDict (d : SimData).

(** [bool(data)]: a list is true when it has an element, the dict of
    [update_data_loop] always has its three keys. *)
Definition truthy (d : pydata) : bool :=
  match d with
  | DList [] => false
  | DList (_ :: _) => true
  | DDict _ => true
  end.

(** [len(data)] *)
Definition py_len (d : pydata) : Z :=
  match d with
  | DList rows => Z.of_nat (length rows)
  | DDict _ => 3
  end.

(** [data.copy()]: a new object with the same contents; values of the
    model are immutable, so the copy is the value. *)
Definition py_copy (d : pydata) : pydata := d.

(** ** Configuration *)

Definition JSON_FILE : string := "crypto_data.json".
Definition BACKUP_FILE : string := "crypto_data_backup.json".
Definition MAX_ROWS : option Z := None.
(** [int(POLL_INTERVAL * 10)] with [POLL_INTERVAL = 2.0] *)
Definition POLL_TICKS : nat := 20.

(** ** The Extractor *)

Section Extractor.
(** BeautifulSoup: [BeautifulSoup(html, "html.parser").select(ROW_SELECTOR)]
    gives the matching tags in document order, or raises when the
    parser rejects the markup ([ParserRejectedMarkup]);
    [row.get_text(separator="\n")] is the text of one tag. *)
Context {Tag : Type}.
Variable soup_select : pystr -> res (list Tag).
Variable get_text : Tag -> pystr.

(** [[p.strip() for p in text.split("\n") if p.strip() != ""]] *)
Definition row_parts (row : Tag) : list pystr :=
  let text := py_strip (get_text row) in
  map py_strip
      (filter (fun p => py_strip p <> []) (py_split newline text)).

(** [MAX_ROWS and len(results) >= MAX_ROWS] *)
Definition cap_reached (max_rows : option Z) (results : list Record_) : bool :=
  match max_rows with
  | None => false
  | Some n => negb (n =? 0) && (n <=? Z.of_nat (length results))
  end.

(** The body of the [for] up to the [break] test. *)
Definition parse_row (row : Tag) (results : list Record_) : res (list Record_) :=
  let parts := row_parts row in
  if (3 <=? length parts)%nat then
    match py_getitem parts 0, py_getitem parts 1, py_getitem parts 2 with
    | Ret a, Ret b, Ret c => Ret (results ++ [mkRecord a b c])
    | Raise e, _, _ | _, Raise e, _ | _, _, Raise e => Raise e
    end
  else Ret results.

(** The [for row in rows] loop with its [break]. *)
Fixpoint parse_rows (max_rows : option Z) (rows : list Tag)
    (results : list Record_) : res (list Record_) :=
  match rows with
  | [] => Ret results
  | row :: rest =>
      match parse_row row results with
      | Raise e => Raise e
      | Ret results' =>
          if cap_reached max_rows results' then Ret results'
          else parse_rows max_rows rest results'
      end
  end.

(** Lines 104-123.  Nothing guards the two calls into BeautifulSoup:
    what the parser raises leaves the function. *)
Definition parse_market_from_html_with (max_rows : option Z) (html : pystr)
    : res (list Record_) :=
  match soup_select html with
  | Raise e => Raise e
  | Ret rows => parse_rows max_rows rows []
  end.

Definition parse_market_from_html (html : pystr) : res (list Record_) :=
  parse_market_from_html_with MAX_ROWS html.
End Extractor.

(** ** The world: disk, snapshot store, stop flag and what happened *)

(** How a [shutil.copy2] ends: done, or raised after leaving the
    destination as it was ([None]) or with some partial contents. *)
Inductive copy_result :=
| CopyOk
| CopyFail (left_behind : option pystr).

(** The system calls of the Durable Writer, each with its outcome. *)
Inductive fsop :=
| Mkstemp (tmp : string)
| MkstempFail
| WriteTmp (p : string) (c : pystr) (ok : bool)
| Copy2 (src dst : string) (r : copy_result)
| Replace (src dst : string) (ok : bool)
| Remove (p : string) (ok : bool).

(** What one system call does to the files (path -> contents). *)
Definition apply_op (op : fsop) (fs : gmap string pystr) : gmap string pystr :=
  match op with
  | Mkstemp tmp => <[tmp := []]> fs
  | MkstempFail => fs
  | WriteTmp p c _ => <[p := c]> fs
  | Copy2 src dst CopyOk =>
      match fs !! src with
      | Some c => <[dst := c]> fs
      | None => fs
      end
  | Copy2 _ dst (CopyFail (Some c)) => <[dst := c]> fs
  | Copy2 _ _ (CopyFail None) => fs
  | Replace src dst true =>
      match fs !! src with
      | Some c => <[dst := c]> (delete src fs)
      | None => fs
      end
  | Replace _ _ false => fs
  | Remove p true => delete p fs
  | Remove _ false => fs
  end.

(** The files after a sequence of system calls; a crash after [k] calls
    leaves [replay (take k ops) fs]. *)
Definition replay (ops : list fsop) (fs : gmap string pystr) : gmap string pystr :=
  foldl (fun acc op => apply_op op acc) fs ops.

Inductive sleep :=
| InitialLoad            (* time.sleep(INITIAL_LOAD_DELAY) *)
| Tick                   (* time.sleep(0.1) *)
| Poll                   (* time.sleep(POLL_INTERVAL) *)
| Backoff (d : Z).       (* time.sleep(min(backoff, 30)) *)

Inductive event :=
| EvAcquire              (* latest_data_lock taken *)
| EvRelease              (* latest_data_lock given back *)
| EvIO (op : fsop)       (* a system call of the writer *)
| EvSleep (s : sleep)
| EvAssign (d : pydata)  (* latest_data = d *)
| EvStop.                (* stop_event.set() *)

Record world := mkWorld {
  w_fs : gmap string pystr;
  latest_data : pydata;
  stop_event : bool;
  w_trace : list event
}.

(** What an event does to the world; every event is recorded. *)
Definition effect (e : event) (w : world) : world :=
  let tr := w_trace w ++ [e] in
  match e with
  | EvIO op => mkWorld (apply_op op (w_fs w)) (latest_data w) (stop_event w) tr
  | EvAssign d => mkWorld (w_fs w) d (stop_event w) tr
  | EvStop => mkWorld (w_fs w) (latest_data w) true tr
  | EvAcquire | EvRelease | EvSleep _ =>
      mkWorld (w_fs w) (latest_data w) (stop_event w) tr
  end.

(** The world after a sequence of events. *)
Definition advance (w : world) (evs : list event) : world :=
  foldl (fun acc e => effect e acc) w evs.

(** ** A state and exception monad over the world *)

Definition M (A : Type) : Type := world -> res A * world.

Definition ret {A} (a : A) : M A := fun w => (Ret a, w).
Definition raise {A} (e : exn) : M A := fun w => (Raise e, w).
Definition bind {A B} (m : M A) (k : A -> M B) : M B :=
  fun w =>
    match m w with
    | (Ret a, w') => k a w'
    | (Raise e, w') => (Raise e, w')
    end.

Declare Scope py_scope.
Delimit Scope py_scope with py.
Notation "x <- m ;; k" := (bind m (fun x => k))
  (at level 100, m at next level, k at level 200, right associativity) : py_scope.
Notation "m ;;; k" := (bind m (fun _ => k))
  (at level 100, k at level 200, right associativity) : py_scope.
Local Open Scope py_scope.

(** [try: body  except Exception as e: handler] *)
Definition try_except {A} (body : M A) (handler : exn -> M A) : M A :=
  fun w =>
    match body w with
    | (Ret a, w') => (Ret a, w')
    | (Raise e, w') => handler e w'
    end.

Definition lift {A} (r : res A) : M A := fun w => (r, w).

(** [print(...)].  Standard output is not part of the world; whether
    the call returns or raises is an answer of the outside world. *)
Definition py_print (ok : bool) : M unit :=
  if ok then ret tt else raise UnicodeEncodeError.

(** Every change of the world goes through [emit]. *)
Definition emit (e : event) : M unit := fun w => (Ret tt, effect e w).

Definition io (op : fsop) : M unit := emit (EvIO op).

(** [with latest_data_lock: body]; the lock is given back on every exit. *)
Definition with_lock {A} (body : M A) : M A :=
  fun w =>
    match body (effect EvAcquire w) with
    | (r, w') => (r, effect EvRelease w')
    end.

Definition read_latest_data : M pydata := fun w => (Ret (latest_data w), w).
Definition assign_latest_data (d : pydata) : M unit := emit (EvAssign d).

Definition is_set : M bool := fun w => (Ret (stop_event w), w).
Definition set_stop : M unit := emit EvStop.

(** [m] started in [w] ends with [r] after the events [evs]. *)
Definition runs {A} (m : M A) (w : world) (r : res A) (evs : list event) : Prop :=
  m w = (r, advance w evs).

(** The system calls of a trace, in order. *)
Definition io_ops (tr : list event) : list fsop :=
  omap (fun e => match e with EvIO op => Some op | _ => None end) tr.

(** The values assigned to [latest_data] along a trace, in order. *)
Definition assigns (tr : list event) : list pydata :=
  omap (fun e => match e with EvAssign d => Some d | _ => None end) tr.

(** The back-off sleeps of a trace, in order. *)
Definition backoff_delays (tr : list event) : list Z :=
  omap (fun e => match e with EvSleep (Backoff d) => Some d | _ => None end) tr.

(** [true] when no system call of the writer happens between an
    [EvAcquire] and the matching [EvRelease]. *)
Fixpoint lock_free_io_from (held : bool) (tr : list event) : bool :=
  match tr with
  | [] => true
  | EvAcquire :: tr' => lock_free_io_from true tr'
  | EvRelease :: tr' => lock_free_io_from false tr'
  | EvIO _ :: tr' => negb held && lock_free_io_from held tr'
  | (EvSleep _ | EvAssign _ | EvStop) :: tr' => lock_free_io_from held tr'
  end.
Definition lock_free_io (tr : list event) : bool := lock_free_io_from false tr.

(** ** The Durable Writer *)

(** The answers of the operating system during one call of
    [save_json_atomic]. *)
Record writer_oracle := mkWriterOracle {
  mkstemp_result : option string;   (* the new temporary file; None: mkstemp raises *)
  write_result : option pystr;      (* None: dump, flush and fsync succeed;
                                       Some c: one of them raises, c is left in the file *)
  copy_outcome : copy_result;
  replace_ok : bool;
  remove_ok : bool;
  abspath_ok : bool;                (* false: os.path.abspath raises (os.getcwd()
                                       fails, the working directory is gone) *)
  print_warning_ok : bool;          (* the print of line 74 returns *)
  print_error_ok : bool             (* the print of line 77 returns *)
}.

(** [os.path.abspath(path)], line 63: it asks for the working directory
    and makes no change. *)
Definition os_path_abspath (o : writer_oracle) : M unit :=
  if abspath_ok o then ret tt else raise OSError.

Definition tempfile_mkstemp (o : writer_oracle) : M string :=
  match mkstemp_result o with
  | Some tmp => io (Mkstemp tmp) ;;; ret tmp
  | None => io MkstempFail ;;; raise OSError
  end.

(** [with os.fdopen(fd, "w") as f: json.dump(..); f.flush(); os.fsync(..)] *)
Definition dump_flush_fsync (o : writer_oracle) (tmp : string) (text : pystr) : M unit :=
  match write_result o with
  | None => io (WriteTmp tmp text true)
  | Some partial => io (WriteTmp tmp partial false) ;;; raise OSError
  end.

Definition os_path_exists (p : string) : M bool :=
  fun w => (Ret (bool_decide (is_Some (w_fs w !! p))), w).

Definition shutil_copy2 (o : writer_oracle) (src dst : string) : M unit :=
  if decide (src = dst) then raise SameFileError
  else match copy_outcome o with
       | CopyOk => io (Copy2 src dst CopyOk)
       | CopyFail l => io (Copy2 src dst (CopyFail l)) ;;; raise OSError
       end.

Definition os_replace (o : writer_oracle) (src dst : string) : M unit :=
  if replace_ok o then io (Replace src dst true)
  else io (Replace src dst false) ;;; raise OSError.

Definition os_remove (o : writer_oracle) (p : string) : M unit :=
  if remove_ok o then io (Remove p true)
  else io (Remove p false) ;;; raise OSError.

(** [bool(backup_path)]: [None] and the empty string are false. *)
Definition path_given (backup_path : option string) : option string :=
  match backup_path with
  | Some b => if decide (b = "") then None else Some b
  | None => None
  end.

Section Writer.
(** [json.dump(data, f, indent=4, ensure_ascii=False)]: the text written. *)
Variable json_dumps : pydata -> pystr.

(** Lines 55-82.  [os.path.abspath] and [mkstemp] come before the
    [try]; the temporary file is made in the directory of [path] and its
    name is the oracle's.  The two handlers start with a [print] that
    nothing guards: when the warning of line 74 raises, the exception
    goes on to the outer handler and the rename is not made; when the
    message of line 77 raises, the exception leaves the function and
    the clean-up is not made. *)
Definition save_json_atomic (o : writer_oracle) (path : string) (data : pydata)
    (backup_path : option string) : M unit :=
  if negb (truthy data) then ret tt
  else
    os_path_abspath o ;;;
    tmp_path <- tempfile_mkstemp o ;;
    try_except
      (dump_flush_fsync o tmp_path (json_dumps data) ;;;
       match path_given backup_path with
       | Some b =>
           there <- os_path_exists path ;;
           if there
           then try_except (shutil_copy2 o path b)
                           (fun _ => py_print (print_warning_ok o))
           else ret tt
       | None => ret tt
       end ;;;
       os_replace o tmp_path path)
      (fun _ =>
         py_print (print_error_ok o) ;;;
         try_except
           (there <- os_path_exists tmp_path ;;
            if there then os_remove o tmp_path else ret tt)
           (fun _ => ret tt)).
End Writer.

(** ** The acquisition loop *)

(** The values [backoff] takes.  It starts at [1.0] and is only ever
    doubled: doubling a binary float is exact until it overflows to
    [inf], so an integer (with the overflow written out) is the float. *)
Inductive pyfloat :=
| FFin (z : Z)
| FInf.

(** [backoff *= 2.0] *)
Definition py_double (b : pyfloat) : pyfloat :=
  match b with
  | FFin z => if 2 * z <? 2 ^ 1024 then FFin (2 * z) else FInf
  | FInf => FInf
  end.

(** [min(backoff, 30)]: the first argument unless the second is smaller. *)
Definition py_min_30 (b : pyfloat) : Z :=
  match b with
  | FFin z => if 30 <? z then 30 else z
  | FInf => 30
  end.

(** The local variables of [scrape_loop]; [driver] is [true] when a
    webdriver is bound, [false] for [None]. *)
Record locals := mkLocals {
  driver : bool;
  backoff : pyfloat
}.

Inductive create_result :=
| CreateRaises           (* create_driver() raises: driver stays None *)
| GetRaises              (* driver.get(TARGET_URL) raises *)
| Created.

(** The [print] statements of one turn of the [while], by line. *)
Inductive print_site :=
| PrintStarting          (* 140: "Starting webdriver..." *)
| PrintSaved             (* 157: "Saved n items to ..." *)
| PrintResaved           (* 165: parsed empty, re-saved the last snapshot *)
| PrintNoSnapshot        (* 167: parsed empty, no snapshot yet *)
| PrintCaught            (* 176: "Scraper loop caught exception:", repr(e) *)
| PrintAfterError.       (* 192: "Saved last valid snapshot after error." *)

(** The answers of the outside world during one turn of the [while]. *)
Record iter_oracle := mkIterOracle {
  o_create : create_result;
  o_page_source : option pystr;     (* driver.page_source; None: raises *)
  o_save : writer_oracle;           (* for the save in the try body *)
  o_resave : writer_oracle;         (* for the save in the except handler *)
  o_signal : option nat;            (* SIGINT/SIGTERM during this turn, seen
                                       from the n-th poll check on *)
  o_print : print_site -> bool      (* true: that print returns *)
}.

(** The [for _ in range(int(POLL_INTERVAL * 10))] loop; [k] counts the
    checks already made. *)
Fixpoint poll_wait (signal : option nat) (ticks k : nat) : M unit :=
  match ticks with
  | O => ret tt
  | S ticks' =>
      match signal with
      | Some n => if (n <=? k)%nat then set_stop else ret tt
      | None => ret tt
      end ;;;
      stop <- is_set ;;
      if stop then ret tt
      else emit (EvSleep Tick) ;;; poll_wait signal ticks' (S k)
  end.

(** The signal handler has run by the end of the turn it arrives in. *)
Definition deliver_signal (signal : option nat) : M unit :=
  match signal with
  | Some _ => set_stop
  | None => ret tt
  end.

Section Loop.
Context {Tag : Type}.
Variable soup_select : pystr -> res (list Tag).
Variable get_text : Tag -> pystr.
Variable json_dumps : pydata -> pystr.

(** Lines 139-173, the [try] body.  The [execute_script] call of the
    [else] branch swallows its own exception and changes nothing here.
    Every statement that can raise is here with its outcome: the
    prints, the webdriver, the Extractor and the writer. *)
Definition loop_body (o : iter_oracle) (st : locals) : M locals :=
  (if driver st then ret tt
   else py_print (o_print o PrintStarting) ;;;
        match o_create o with
        | CreateRaises | GetRaises => raise WebDriverException
        | Created => emit (EvSleep InitialLoad)
        end) ;;;
  html <- match o_page_source o with
          | Some h => ret h
          | None => raise WebDriverException
          end ;;
  parsed <- lift (parse_market_from_html soup_select get_text html) ;;
  backoff' <-
    match parsed with
    | _ :: _ =>
        with_lock (assign_latest_data (DList parsed)) ;;;
        data <- read_latest_data ;;
        save_json_atomic json_dumps (o_save o) JSON_FILE data (Some BACKUP_FILE) ;;;
        py_print (o_print o PrintSaved) ;;;
        ret (FFin 1)
    | [] =>
        to_save <- with_lock (data <- read_latest_data ;; ret (py_copy data)) ;;
        (if truthy to_save
         then save_json_atomic json_dumps (o_save o) JSON_FILE to_save
                (Some BACKUP_FILE) ;;;
              py_print (o_print o PrintResaved)
         else py_print (o_print o PrintNoSnapshot)) ;;;
        ret (backoff st)
    end ;;
  poll_wait (o_signal o) POLL_TICKS 0 ;;;
  ret (mkLocals true backoff').

(** Lines 175-195, the [except Exception] handler.  Its first statement
    is a [print] that nothing guards, and so are the save and the print
    under the lock: what they raise leaves [scrape_loop].
    [driver.quit()] is wrapped in its own [try]; whatever the body did
    to [driver], the handler leaves it [None], and the body assigns
    [backoff] only after its last statement that can raise, so the
    handler sees the value the turn started with. *)
Definition loop_handler (o : iter_oracle) (st : locals) : M locals :=
  py_print (o_print o PrintCaught) ;;;
  with_lock
    (data <- read_latest_data ;;
     if truthy data
     then save_json_atomic json_dumps (o_resave o) JSON_FILE data
            (Some BACKUP_FILE) ;;;
          py_print (o_print o PrintAfterError)
     else ret tt) ;;;
  emit (EvSleep (Backoff (py_min_30 (backoff st)))) ;;;
  ret (mkLocals false (py_double (backoff st))).

(** One turn of [while not stop_event.is_set()]. *)
Definition scrape_iteration (o : iter_oracle) (st : locals) : M locals :=
  st' <- try_except (loop_body o st) (fun _ => loop_handler o st) ;;
  deliver_signal (o_signal o) ;;;
  ret st'.

(** How a run of the loop over a finite supply of answers ends. *)
Inductive loop_end :=
| Stopped                       (* stop_event seen: the loop left normally *)
| Running (st : locals).        (* answers used up, the loop goes on *)

Fixpoint scrape_loop_from (os : list iter_oracle) (st : locals) : M loop_end :=
  stop <- is_set ;;
  if stop then ret Stopped
  else match os with
       | [] => ret (Running st)
       | o :: os' =>
           st' <- scrape_iteration o st ;;
           scrape_loop_from os' st'
       end.

Definition initial_locals : locals := mkLocals false (FFin 1).

(** [scrape_loop], lines 128-203: the [while] from the initial locals
    and, once [stop_event] has been seen, [driver.quit()] in its own
    [try] and a last print. *)
Definition scrape_loop (os : list iter_oracle) (print_stopped_ok : bool)
    : M loop_end :=
  r <- scrape_loop_from os initial_locals ;;
  match r with
  | Stopped => py_print print_stopped_ok ;;; ret Stopped
  | Running st => ret (Running st)
  end.

(** One turn of [update_data_loop], lines 212-220; the print comes
    after the assignment and nothing guards it. *)
Definition update_data_iteration (new_data : SimData) (print_ok : bool) : M unit :=
  with_lock (assign_latest_data (DDict new_data)) ;;;
  py_print print_ok ;;;
  emit (EvSleep Poll).

(** A step of either update loop. *)
Inductive step :=
| ScrapeStep (o : iter_oracle)
| UpdateStep (new_data : SimData) (print_ok : bool).

(** The two loops interleaved turn by turn; both test [stop_event]
    before a turn, and the locals of [scrape_loop] are [None] once an
    exception has left it.  The store changes only where a loop assigns
    it, so a finer interleaving assigns the same values.  A turn of
    [update_data_loop] whose print raises ends that loop; the sequences
    with further update steps after it cover more than the program
    does. *)
Definition run_step (s : step) (st : option locals) (w : world)
    : option locals * world :=
  if stop_event w then (st, w)
  else match s with
       | UpdateStep d ok => (st, snd (update_data_iteration d ok w))
       | ScrapeStep o =>
           match st with
           | None => (None, w)
           | Some l =>
               match scrape_iteration o l w with
               | (Ret l', w') => (Some l', w')
               | (Raise _, w') => (None, w')
               end
           end
       end.

Fixpoint run_steps (steps : list step) (st : option locals) (w : world)
    : option locals * world :=
  match steps with
  | [] => (st, w)
  | s :: rest =>
      match run_step s st w with
      | (st', w') => run_steps rest st' w'
      end
  end.
End Loop.

(** ** The query interface *)

Inductive json_body :=
| ErrorBody (msg : pystr)                                   (* {"error": msg} *)
| LatestBody (timestamp : pystr) (count : Z) (data : pydata).

(** [GET /latest]; [now] is what [time.strftime] returns. *)
Definition get_latest (now : pystr) : M (Z * json_body) :=
  with_lock
    (data <- read_latest_data ;;
     if negb (truthy data) then ret (503, ErrorBody (py "No data yet"))
     else ret (200, LatestBody now (py_len data) data)).

(** The events a computation adds to the trace when started in [w]. *)
Definition events_of {A} (m : M A) (w : world) : list event :=
  drop (length (w_trace w)) (w_trace (snd (m w))).

(** The system calls a computation makes when started in [w]. *)
Definition calls_of {A} (m : M A) (w : world) : list fsop :=
  io_ops (events_of m w).

(** [true] when [ops] contains the completed [os.replace] onto [path]. *)
Definition rename_done (path : string) (ops : list fsop) : bool :=
  existsb (fun op => match op with
                     | Replace _ dst true => bool_decide (dst = path)
                     | _ => false
                     end) ops.

(** [true] when [ops] contains a [shutil.copy2] towards [dst]. *)
Definition copy_attempted (dst : string) (ops : list fsop) : bool :=
  existsb (fun op => match op with
                     | Copy2 _ d _ => bool_decide (d = dst)
                     | _ => false
                     end) ops.

(** The oracle of a call in which every system call succeeds and every
    print returns. *)
Definition writer_ok (tmp : string) : writer_oracle :=
  mkWriterOracle (Some tmp) None CopyOk true true true true true.

(** The temporary name handed out by [mkstemp] is not one of the two
    target paths. *)
Definition fresh_tmp (o : writer_oracle) (path : string) (backup_path : option string)
    : bool :=
  match mkstemp_result o with
  | Some tmp =>
      bool_decide (tmp <> path) && bool_decide (path_given backup_path <> Some tmp)
  | None => true
  end.

(** The oracle says that no step of the call raises up to and including
    the rename, the backup copy apart: that one is allowed to fail, with
    its warning printed. *)
Definition writer_succeeds (o : writer_oracle) : bool :=
  abspath_ok o
  && match mkstemp_result o, write_result o with
     | Some _, None => print_warning_ok o && replace_ok o
     | _, _ => false
     end.

(** The oracle says that the call returns, whatever else happens in it:
    the two calls before the [try] succeed and the message of the outer
    handler can be printed. *)
Definition writer_returns (o : writer_oracle) : bool :=
  abspath_ok o && bool_decide (is_Some (mkstemp_result o)) && print_error_ok o.

(** The calls of the backup step, given the files it finds. *)
Definition backup_calls (o : writer_oracle) (path : string)
    (backup_path : option string) (fs : gmap string pystr) : list fsop :=
  match path_given backup_path with
  | Some b =>
      if bool_decide (is_Some (fs !! path)) then
        if decide (path = b) then [] else [Copy2 path b (copy_outcome o)]
      else []
  | None => []
  end.

(** The backup step raises: the copy is attempted, it raises, and so
    does the print of the warning. *)
Definition backup_raises (o : writer_oracle) (path : string)
    (backup_path : option string) (fs : gmap string pystr) : bool :=
  match path_given backup_path with
  | Some b =>
      bool_decide (is_Some (fs !! path))
      && (bool_decide (path = b)
          || match copy_outcome o with CopyOk => false | CopyFail _ => true end)
      && negb (print_warning_ok o)
  | None => false
  end.

(** The outer handler: the message, then the removal of the temporary
    file. *)
Definition cleanup_calls (o : writer_oracle) (tmp : string) : list fsop :=
  if print_error_ok o then [Remove tmp (remove_ok o)] else [].

Definition cleanup_result (o : writer_oracle) : res unit :=
  if print_error_ok o then Ret tt else Raise UnicodeEncodeError.

(** A summary of [save_json_atomic] on a non-empty snapshot, by cases on
    the oracle: the system calls it makes and how it ends.  Lemma
    [save_json_atomic_run] proves that the function does exactly this. *)
Definition writer_calls (json_dumps : pydata -> pystr) (o : writer_oracle)
    (path : string) (data : pydata) (backup_path : option string)
    (fs : gmap string pystr) : list fsop :=
  if abspath_ok o then
    match mkstemp_result o with
    | None => [MkstempFail]
    | Some tmp =>
        match write_result o with
        | Some c => [Mkstemp tmp; WriteTmp tmp c false] ++ cleanup_calls o tmp
        | None =>
            let fs1 := <[tmp := json_dumps data]> (<[tmp := []]> fs) in
            [Mkstemp tmp; WriteTmp tmp (json_dumps data) true]
            ++ backup_calls o path backup_path fs1
            ++ (if backup_raises o path backup_path fs1 then cleanup_calls o tmp
                else if replace_ok o then [Replace tmp path true]
                else Replace tmp path false :: cleanup_calls o tmp)
        end
    end
  else [].

(** [true] when the call gets as far as the rename and the rename is
    made. *)
Definition writer_completes (json_dumps : pydata -> pystr) (o : writer_oracle)
    (path : string) (data : pydata) (backup_path : option string)
    (fs : gmap string pystr) : bool :=
  abspath_ok o
  && match mkstemp_result o, write_result o with
     | Some tmp, None =>
         negb (backup_raises o path backup_path
                 (<[tmp := json_dumps data]> (<[tmp := []]> fs)))
         && replace_ok o
     | _, _ => false
     end.

Definition writer_result (json_dumps : pydata -> pystr) (o : writer_oracle)
    (path : string) (data : pydata) (backup_path : option string)
    (fs : gmap string pystr) : res unit :=
  if abspath_ok o then
    match mkstemp_result o with
    | None => Raise OSError
    | Some tmp =>
        match write_result o with
        | Some _ => cleanup_result o
        | None =>
            let fs1 := <[tmp := json_dumps data]> (<[tmp := []]> fs) in
            if backup_raises o path backup_path fs1 then cleanup_result o
            else if replace_ok o then Ret tt
            else cleanup_result o
        end
    end
  else Raise OSError.

(** [true] when the call may change what is stored under [p]. *)
Definition touches (p : string) (op : fsop) : bool :=
  match op with
  | Mkstemp q | WriteTmp q _ _ | Remove q true => bool_decide (q = p)
  | Copy2 _ dst _ => bool_decide (dst = p)
  | Replace src dst true => bool_decide (src = p) || bool_decide (dst = p)
  | MkstempFail | Replace _ _ false | Remove _ false => false
  end.

(** A sequence of calls of the writer; each write comes with the
    answers of the operating system during it. *)
Fixpoint save_all (json_dumps : pydata -> pystr) (path : string)
    (backup_path : option string) (writes : list (writer_oracle * pydata))
    (w : world) : world :=
  match writes with
  | [] => w
  | (o, data) :: rest =>
      save_all json_dumps path backup_path rest
        (snd (save_json_atomic json_dumps o path data backup_path w))
  end.

(** The record a row gives, if it has at least three parts. *)
Definition row_record {Tag} (get_text : Tag -> pystr) (row : Tag) : option Record_ :=
  match row_parts get_text row with
  | a :: b :: c :: _ => Some (mkRecord a b c)
  | _ => None
  end.

(** What the Extractor makes of the page the oracle holds: [None] when
    [driver.page_source] or the Extractor raises. *)
Definition page_extraction {Tag} (soup_select : pystr -> res (list Tag))
    (get_text : Tag -> pystr) (o : iter_oracle) : option (list Record_) :=
  match o_page_source o with
  | Some html =>
      match parse_market_from_html soup_select get_text html with
      | Ret records => Some records
      | Raise _ => None
      end
  | None => None
  end.

(** What the Extractor returned in a turn of [scrape_loop]: [None] when
    the turn raised before the Extractor was through. *)
Definition extraction {Tag} (soup_select : pystr -> res (list Tag))
    (get_text : Tag -> pystr) (o : iter_oracle) (st : locals)
    : option (list Record_) :=
  if driver st
     || o_print o PrintStarting
        && match o_create o with Created => true | _ => false end
  then page_extraction soup_select get_text o
  else None.

(** The oracle says that the [except] handler of the turn returns. *)
Definition handler_returns (o : iter_oracle) : bool :=
  o_print o PrintCaught && writer_returns (o_resave o)
  && o_print o PrintAfterError.

(** The values a turn assigns to the store, and the [backoff] a turn
    that completes its body leaves, given what the Extractor returned. *)
Definition turn_assigns (ext : option (list Record_)) : list pydata :=
  match ext with
  | Some (x :: xs) => [DList (x :: xs)]
  | _ => []
  end.

Definition turn_backoff (ext : option (list Record_)) (b : pyfloat) : pyfloat :=
  match ext with
  | Some (_ :: _) => FFin 1
  | _ => b
  end.

(** Events that neither assign the store, nor back off, nor touch the disk. *)
Definition silent (evs : list event) : Prop :=
  assigns evs = [] /\ backoff_delays evs = [] /\ io_ops evs = [].

(** The delay of the [k]-th consecutive failure counted from the floor. *)
Definition nth_delay (k : nat) : Z := Z.min (2 ^ Z.of_nat k) 30.

(** The float [2.0 ** k]. *)
Definition float_pow2 (k : nat) : pyfloat :=
  if Z.of_nat k <? 1024 then FFin (2 ^ Z.of_nat k) else FInf.

(** ** Worked instances

    A small stand-in for the two libraries, used to run the model on
    concrete inputs: a page is a sequence of rows separated by [|], the
    text of a row is the row, and a snapshot is written one record per
    line.  Like [html.parser], the stand-in rejects markup that opens a
    marked section it does not know, as [<![n<div>] does. *)
Module Toy.
Definition bar : pychar := 124%N.

Definition soup_select (html : pystr) : res (list pystr) :=
  match html with
  | 60%N :: 33%N :: 91%N :: _ => Raise ParserRejectedMarkup
  | _ => Ret (filter (fun p => p <> []) (py_split bar html))
  end.

Definition rejected_page : pystr := py "<![n<div>".

Definition get_text (row : pystr) : pystr := row.

Definition json_dumps (d : pydata) : pystr :=
  match d with
  | DList rows =>
      concat (map (fun r => pair r ++ [bar] ++ price r ++ [bar]
                            ++ change_24h r ++ [newline]) rows)
  | DDict s => sim_timestamp s
  end.

Definition btc : Record_ := mkRecord (py "BTC") (py "50000") (py "+1%").
Definition eth : Record_ := mkRecord (py "ETH") (py "3000") (py "-2%").

Definition btc_row : pystr := [66; 84; 67; 10; 53; 48; 48; 48; 48; 10; 43; 49; 37]%N.
Definition eth_row : pystr := [69; 84; 72; 10; 32; 10; 51; 48; 48; 48; 10; 45; 50; 37]%N.
Definition page1 : pystr := btc_row.
Definition page2 : pystr := btc_row ++ [bar] ++ eth_row.
Definition page3 : pystr := btc_row ++ [bar] ++ eth_row ++ [bar] ++ btc_row.

Definition tmp1 : string := "tmpk3v9x2qa".
Definition tmp2 : string := "tmpw81yd_0c".

Definition empty_world : world := mkWorld ∅ (DList []) false [].
(** A world whose store and primary file hold one record. *)
Definition warm_world : world :=
  mkWorld {[ JSON_FILE := json_dumps (DList [btc]) ]} (DList [btc]) false [].

(** [mkstemp] raises: the directory cannot be written to. *)
Definition writer_down : writer_oracle :=
  mkWriterOracle None None CopyOk true true true true true.
(** The dump raises half way and the clean-up cannot remove the file. *)
Definition writer_stuck : writer_oracle :=
  mkWriterOracle (Some tmp1) (Some (py "[")) CopyOk true false true true true.
(** The copy to the backup raises and leaves nothing; the warning is
    printed and the write goes on. *)
Definition writer_copy_fails (tmp : string) : writer_oracle :=
  mkWriterOracle (Some tmp) None (CopyFail None) true true true true true.

(** A standard output that takes every text, and one that cannot
    encode the warning sign of lines 165 and 167 (nor the [repr] of the
    exception that then reaches line 176). *)
Definition stdout_utf8 (site : print_site) : bool := true.
Definition stdout_ascii (site : print_site) : bool :=
  match site with
  | PrintResaved | PrintNoSnapshot | PrintCaught => false
  | PrintStarting | PrintSaved | PrintAfterError => true
  end.

(** Turns of the loop: the page shows one record; the page shows no
    row; fetching the page raises; the page shows one record and the
    disk is down for the first save only, or for both saves. *)
Definition turn_one_record : iter_oracle :=
  mkIterOracle Created (Some page1) (writer_ok tmp1) (writer_ok tmp2) None
               stdout_utf8.
Definition turn_no_row : iter_oracle :=
  mkIterOracle Created (Some []) (writer_ok tmp1) (writer_ok tmp2) None
               stdout_utf8.
Definition turn_fetch_raises : iter_oracle :=
  mkIterOracle Created None (writer_ok tmp1) (writer_ok tmp2) None stdout_utf8.
Definition turn_save_raises : iter_oracle :=
  mkIterOracle Created (Some page1) writer_down (writer_ok tmp2) None stdout_utf8.
Definition turn_disk_down : iter_oracle :=
  mkIterOracle Created (Some page1) writer_down writer_down None stdout_utf8.
(** The page shows no row and standard output is ASCII. *)
Definition turn_no_row_ascii : iter_oracle :=
  mkIterOracle Created (Some []) (writer_ok tmp1) (writer_ok tmp2) None
               stdout_ascii.

Definition sim : SimData := mkSimData (py "2024-01-01 00:00:00") 5512345 1234.
End Toy.

(** ** The rest of the program *)

(** [handle_signal], installed for SIGINT and SIGTERM: the print comes
    before [stop_event.set()]. *)
Definition handle_signal (print_ok : bool) : M unit :=
  py_print print_ok ;;; set_stop.

(** [update_data_loop] over a finite supply of turns, each with the
    value generated and the outcome of its print; the loop goes on when
    the supply is used up. *)
Fixpoint update_data_loop (supply : list (SimData * bool)) : M unit :=
  stop <- is_set ;;
  if stop then ret tt
  else match supply with
       | [] => ret tt
       | (new_data, print_ok) :: rest =>
           update_data_iteration new_data print_ok ;;; update_data_loop rest
       end.

(** How a view function of the Flask application ends: with a JSON
    response and its status, with a page (status 200), or by raising
    [TypeError]. *)
Inductive view_result :=
| ViewJson (status : Z) (body : json_body)
| ViewHtml (text : pystr)
| ViewTypeError.

Definition quote : pychar := 34%N.
Definition indent (n : nat) : pystr := repeat 32%N n.

(** The template of [get_html_page], cut at [{timestamp}] and [{rows}]. *)
Definition html_head : pystr :=
  [newline] ++ indent 8 ++ py "<meta http-equiv=" ++ [quote] ++ py "refresh"
  ++ [quote] ++ py " content=" ++ [quote] ++ py "1" ++ [quote] ++ py ">"
  ++ [newline] ++ indent 8 ++ py "<h2>Crypto Market Data</h2>"
  ++ [newline] ++ indent 8 ++ py "<p>Last updated: ".

Definition html_middle : pystr :=
  py "</p>"
  ++ [newline] ++ indent 8 ++ py "<table border=" ++ [quote] ++ py "1" ++ [quote]
  ++ py " cellpadding=" ++ [quote] ++ py "5" ++ [quote]
  ++ py " cellspacing=" ++ [quote] ++ py "0" ++ [quote] ++ py ">"
  ++ [newline] ++ indent 12 ++ py "<tr>"
  ++ [newline] ++ indent 16 ++ py "<th>Pair</th>"
  ++ [newline] ++ indent 16 ++ py "<th>Price</th>"
  ++ [newline] ++ indent 16 ++ py "<th>Change (24h)</th>"
  ++ [newline] ++ indent 12 ++ py "</tr>"
  ++ [newline] ++ indent 12.

Definition html_tail : pystr :=
  [newline] ++ indent 8 ++ py "</table>" ++ [newline] ++ indent 8.

(** One row of the table: the literal
    ["<tr><td>{pair}</td><td>{price}</td><td>{change_24h}</td></tr>"]
    formatted with the fields of [item]. *)
Definition html_row (item : Record_) : pystr :=
  py "<tr><td>" ++ pair item ++ py "</td><td>" ++ price item
  ++ py "</td><td>" ++ change_24h item ++ py "</td></tr>".

(** [GET /htmlpage].  Over a list the rows are joined in order; over the
    dict of [update_data_loop] the items are its keys, strings, and
    [format( **item)] raises [TypeError]. *)
Definition get_html_page (now : pystr) : M view_result :=
  with_lock
    (data <- read_latest_data ;;
     if negb (truthy data)
     then ret (ViewJson 503 (ErrorBody (py "No data yet")))
     else match data with
          | DList rows =>
              ret (ViewHtml (html_head ++ now ++ html_middle
                             ++ concat (map html_row rows) ++ html_tail))
          | DDict _ => ret ViewTypeError
          end).

(** The values that [update_data_loop] generates before it ends or its
    supply is used up: a turn whose print raises is the last one. *)
Fixpoint turns_made (supply : list (SimData * bool)) : list SimData :=
  match supply with
  | [] => []
  | (d, ok) :: rest => d :: (if ok then turns_made rest else [])
  end.

(** A string as the Extractor leaves it in a field: not empty, no white
    space at either end, no newline character (U+000A) inside. *)
Definition clean_field (s : pystr) : Prop :=
  s <> [] /\ py_strip s = s /\ newline ∉ s.

(** The state of [latest_data_lock] after a trace, started held or not;
    [None] when the trace takes the lock while it is held (the lock is
    not reentrant: the thread would block for ever) or gives back a lock
    that is not held. *)
Fixpoint lock_trace (held : bool) (tr : list event) : option bool :=
  match tr with
  | [] => Some held
  | EvAcquire :: tr' => if held then None else lock_trace true tr'
  | EvRelease :: tr' => if held then lock_trace false tr' else None
  | (EvIO _ | EvSleep _ | EvAssign _ | EvStop) :: tr' => lock_trace held tr'
  end.

(** The number of [time.sleep(0.1)] calls in a trace. *)
Fixpoint ticks_slept (tr : list event) : nat :=
  match tr with
  | [] => 0
  | EvSleep Tick :: tr' => S (ticks_slept tr')
  | _ :: tr' => ticks_slept tr'
  end.

(** [true] when [stop_event.set()] occurs in the trace. *)
Definition stop_set (tr : list event) : bool :=
  existsb (fun e => match e with EvStop => true | _ => false end) tr.

(** Every run of [m] adds events that satisfy [P]. *)
Definition emits {A} (P : list event -> Prop) (m : M A) : Prop :=
  forall w, exists r evs, runs m w r evs /\ P evs.

(** A property of traces that holds of the empty trace and of the
    concatenation of two traces that have it. *)
Definition trace_closed (P : list event -> Prop) : Prop :=
  P [] /\ forall evs1 evs2, P evs1 -> P evs2 -> P (evs1 ++ evs2).

(** A Hoare triple over the world: from a world that satisfies [P], [m]
    ends with a result and a world that satisfy [Q]. *)
Definition hoare {A} (P : world -> Prop) (m : M A) (Q : res A -> world -> Prop)
    : Prop :=
  forall w, P w -> Q (fst (m w)) (snd (m w)).

(** The store is empty and the system calls made so far are [T]. *)
Definition cold_after (T : list fsop) (w : world) : Prop :=
  truthy (latest_data w) = false /\ io_ops (w_trace w) = T.

(** The primary file holds the serialized store, when the store holds
    data. *)
Definition mirrored (json_dumps : pydata -> pystr) (w : world) : Prop :=
  truthy (latest_data w) = true ->
  w_fs w !! JSON_FILE = Some (json_dumps (latest_data w)).

(** The store holds [L] and the primary file mirrors it; with
    [with_backup], the backup file holds the same text. *)
Definition settled (json_dumps : pydata -> pystr) (L : pydata)
    (with_backup : bool) (w : world) : Prop :=
  latest_data w = L
  /\ w_fs w !! JSON_FILE = Some (json_dumps L)
  /\ (with_backup = true -> w_fs w !! BACKUP_FILE = Some (json_dumps L)).

(** More worked instances: a directory with a third file, a writer
    whose rename fails, and a turn during which the signal arrives. *)
Module ToyMore.
Definition notes : string := "notes.txt".

Definition busy_world : world :=
  mkWorld (<[notes := py "keep"]> (w_fs Toy.warm_world)) (DList [Toy.btc]) false [].

Definition writer_rename_fails : writer_oracle :=
  mkWriterOracle (Some Toy.tmp1) None CopyOk false true true true true.

(** The dump raises and standard output is closed: the message of the
    handler cannot be printed. *)
Definition writer_silenced : writer_oracle :=
  mkWriterOracle (Some Toy.tmp1) (Some (py "[")) CopyOk true true true true false.

Definition turn_signalled : iter_oracle :=
  mkIterOracle Created (Some Toy.page2) (writer_ok Toy.tmp1) (writer_ok Toy.tmp2)
               (Some 3%nat) Toy.stdout_utf8.

Definition sim2 : SimData := mkSimData (py "2024-01-01 00:00:02") 5890011 4321.

Definition dict_world : world := mkWorld ∅ (DDict Toy.sim) false [].
End ToyMore.

(** * Properties *)

(** ** The Extractor *)

Section ExtractorFacts.
Context {Tag : Type}.
Variable soup_select : pystr -> res (list Tag).
Variable get_text : Tag -> pystr.

Lemma parse_row_spec row results :
  parse_row get_text row results
  = Ret (results ++ option_list (row_record get_text row)).
Proof.
  unfold parse_row, row_record.
  destruct (row_parts get_text row) as [|a [|b [|c l]]]; simpl;
    rewrite ?app_nil_r; reflexivity.
Qed.

Lemma parse_rows_prefix max_rows rows results :
  exists l, parse_rows get_text max_rows rows results = Ret (results ++ l)
            /\ l `prefix_of` omap (row_record get_text) rows.
Proof.
  revert results. induction rows as [|row rest IH]; intros results; simpl.
  - exists []. rewrite app_nil_r. split; [reflexivity | apply prefix_nil].
  - rewrite parse_row_spec.
    destruct (cap_reached max_rows _).
    + exists (option_list (row_record get_text row)). split; [reflexivity|].
      destruct (row_record get_text row); simpl;
        [apply prefix_cons, prefix_nil | apply prefix_nil].
    + destruct (IH (results ++ option_list (row_record get_text row)))
        as (l & Hl & Hpre).
      exists (option_list (row_record get_text row) ++ l).
      rewrite Hl, <- app_assoc. split; [reflexivity|].
      destruct (row_record get_text row); simpl; [apply prefix_cons|]; exact Hpre.
Qed.

Lemma parse_rows_uncapped max_rows rows results :
  (forall r, cap_reached max_rows r = false) ->
  parse_rows get_text max_rows rows results
  = Ret (results ++ omap (row_record get_text) rows).
Proof.
  intros Hcap. revert results.
  induction rows as [|row rest IH]; intros results; simpl.
  - rewrite app_nil_r. reflexivity.
  - rewrite parse_row_spec, Hcap, IH, <- app_assoc.
    destruct (row_record get_text row); reflexivity.
Qed.

Lemma parse_rows_capped n rows results l :
  0 < n -> (length results < Z.to_nat n)%nat ->
  parse_rows get_text (Some n) rows results = Ret l ->
  (length l <= Z.to_nat n)%nat.
Proof.
  intros Hn. revert results.
  induction rows as [|row rest IH]; intros results Hlen; cbn [parse_rows].
  - intros [= <-]. lia.
  - rewrite parse_row_spec.
    assert (length (results ++ option_list (row_record get_text row))
            <= Z.to_nat n)%nat as Hle.
    { rewrite length_app. destruct (row_record get_text row); simpl; lia. }
    destruct (cap_reached (Some n) _) eqn:Hcap.
    + intros [= <-]. exact Hle.
    + apply IH. unfold cap_reached in Hcap.
      apply andb_false_iff in Hcap as [Hcap|Hcap].
      * apply negb_false_iff, Z.eqb_eq in Hcap. lia.
      * apply Z.leb_gt in Hcap. lia.
Qed.

Lemma parse_market_accepted max_rows html rows :
  soup_select html = Ret rows ->
  parse_market_from_html_with soup_select get_text max_rows html
  = parse_rows get_text max_rows rows [].
Proof. unfold parse_market_from_html_with. intros ->. reflexivity. Qed.

Lemma parse_market_rejected max_rows html e :
  soup_select html = Raise e ->
  parse_market_from_html_with soup_select get_text max_rows html = Raise e.
Proof. unfold parse_market_from_html_with. intros ->. reflexivity. Qed.

(** The Extractor raises exactly when the parser does. *)
Lemma parse_market_cases max_rows html :
  (exists rows records,
      soup_select html = Ret rows
      /\ parse_market_from_html_with soup_select get_text max_rows html = Ret records)
  \/ (exists e,
        soup_select html = Raise e
        /\ parse_market_from_html_with soup_select get_text max_rows html = Raise e).
Proof.
  destruct (soup_select html) as [rows|e] eqn:Hsoup.
  - left. destruct (parse_rows_prefix max_rows rows []) as (l & Hl & _).
    exists rows, l. split; [reflexivity|].
    rewrite (parse_market_accepted max_rows html rows Hsoup). exact Hl.
  - right. exists e. split; [reflexivity|].
    apply parse_market_rejected, Hsoup.
Qed.

(** C9 (as amended).  For every page that the parser accepts the
    Extractor returns, without raising, a list of records taken in
    document order from the rows that have three parts; the list is
    empty when no row matches; a cap set to a positive integer bounds
    its length, and with no cap, or a cap of 0, every row with three
    parts gives its record.  When the parser rejects the page, what it
    raises leaves the Extractor. *)
Theorem parse_market_total_and_capped (max_rows : option Z) (html : pystr) :
  (forall rows, soup_select html = Ret rows ->
     exists records,
       parse_market_from_html_with soup_select get_text max_rows html = Ret records
       /\ records `prefix_of` omap (row_record get_text) rows
       /\ (rows = [] -> records = [])
       /\ (forall n, max_rows = Some n -> 0 < n -> Z.of_nat (length records) <= n)
       /\ (max_rows = None \/ max_rows = Some 0 ->
           records = omap (row_record get_text) rows))
  /\ (forall e, soup_select html = Raise e ->
        parse_market_from_html_with soup_select get_text max_rows html = Raise e).
Proof.
  split; [|intros e He; apply parse_market_rejected, He].
  intros rows Hsoup. rewrite (parse_market_accepted max_rows html rows Hsoup).
  destruct (parse_rows_prefix max_rows rows []) as (l & Hl & Hpre).
  simpl in Hl. exists l. split; [exact Hl|]. split; [exact Hpre|].
  split; [|split].
  - intros ->. simpl in Hpre. apply prefix_nil_inv in Hpre. exact Hpre.
  - intros n -> Hn.
    pose proof (parse_rows_capped n rows [] l Hn) as Hb.
    simpl in Hb. specialize (Hb ltac:(lia) Hl). lia.
  - intros Hcap.
    rewrite parse_rows_uncapped in Hl.
    + simpl in Hl. congruence.
    + intros r. destruct Hcap as [-> | ->]; reflexivity.
Qed.
End ExtractorFacts.
(** ** Running computations *)

Lemma advance_nil w : advance w [] = w.
Proof. reflexivity. Qed.

Lemma advance_app w evs1 evs2 :
  advance (advance w evs1) evs2 = advance w (evs1 ++ evs2).
Proof. unfold advance. rewrite foldl_app. reflexivity. Qed.

Lemma advance_snoc w evs e : advance w (evs ++ [e]) = effect e (advance w evs).
Proof. rewrite <- advance_app. reflexivity. Qed.

Lemma trace_effect e w : w_trace (effect e w) = w_trace w ++ [e].
Proof. destruct e; reflexivity. Qed.

Lemma trace_advance w evs : w_trace (advance w evs) = w_trace w ++ evs.
Proof.
  induction evs as [|e evs IH] using rev_ind.
  - rewrite app_nil_r. reflexivity.
  - rewrite advance_snoc, trace_effect, IH, app_assoc. reflexivity.
Qed.

Lemma io_ops_app tr1 tr2 : io_ops (tr1 ++ tr2) = io_ops tr1 ++ io_ops tr2.
Proof. apply omap_app. Qed.

Lemma assigns_app tr1 tr2 : assigns (tr1 ++ tr2) = assigns tr1 ++ assigns tr2.
Proof. apply omap_app. Qed.

Lemma backoff_delays_app tr1 tr2 :
  backoff_delays (tr1 ++ tr2) = backoff_delays tr1 ++ backoff_delays tr2.
Proof. apply omap_app. Qed.

Lemma io_ops_map_io ops : io_ops (map EvIO ops) = ops.
Proof. induction ops as [|op ops IH]; simpl; [|rewrite IH]; reflexivity. Qed.

Lemma assigns_map_io ops : assigns (map EvIO ops) = [].
Proof. induction ops as [|op ops IH]; simpl; [reflexivity | exact IH]. Qed.

Lemma backoff_delays_map_io ops : backoff_delays (map EvIO ops) = [].
Proof. induction ops as [|op ops IH]; simpl; [reflexivity | exact IH]. Qed.

Lemma replay_app ops1 ops2 fs : replay (ops1 ++ ops2) fs = replay ops2 (replay ops1 fs).
Proof. unfold replay. apply foldl_app. Qed.

Lemma fs_effect e w :
  w_fs (effect e w) = replay (io_ops [e]) (w_fs w).
Proof. destruct e; reflexivity. Qed.

Lemma fs_advance w evs : w_fs (advance w evs) = replay (io_ops evs) (w_fs w).
Proof.
  induction evs as [|e evs IH] using rev_ind; [reflexivity|].
  rewrite advance_snoc, fs_effect, IH, io_ops_app, replay_app. reflexivity.
Qed.

Lemma latest_effect e w :
  latest_data (effect e w) = default (latest_data w) (last (assigns [e])).
Proof. destruct e; reflexivity. Qed.

Lemma latest_advance w evs :
  latest_data (advance w evs) = default (latest_data w) (last (assigns evs)).
Proof.
  induction evs as [|e evs IH] using rev_ind; [reflexivity|].
  rewrite advance_snoc, latest_effect, IH, assigns_app.
  destruct e; simpl; rewrite ?app_nil_r; try reflexivity.
  rewrite last_snoc. reflexivity.
Qed.

Lemma runs_fst {A} (m : M A) w r evs : runs m w r evs -> fst (m w) = r.
Proof. unfold runs. intros ->. reflexivity. Qed.

Lemma runs_snd {A} (m : M A) w r evs : runs m w r evs -> snd (m w) = advance w evs.
Proof. unfold runs. intros ->. reflexivity. Qed.

Lemma runs_events_of {A} (m : M A) w r evs :
  runs m w r evs -> events_of m w = evs.
Proof.
  intros H. unfold events_of. rewrite (runs_snd _ _ _ _ H), trace_advance.
  apply drop_app_length.
Qed.

Lemma runs_calls {A} (m : M A) w r evs :
  runs m w r evs -> calls_of m w = io_ops evs.
Proof.
  intros H. unfold calls_of. rewrite (runs_events_of _ _ _ _ H). reflexivity.
Qed.

Lemma runs_events {A} (m : M A) w r evs evs' :
  runs m w r evs -> evs = evs' -> runs m w r evs'.
Proof. intros H <-. exact H. Qed.

Lemma runs_ret {A} (a : A) w : runs (ret a) w (Ret a) [].
Proof. reflexivity. Qed.

Lemma runs_raise {A} e w : runs (@raise A e) w (Raise e) [].
Proof. reflexivity. Qed.

Lemma runs_lift {A} (r : res A) w : runs (lift r) w r [].
Proof. reflexivity. Qed.

Lemma runs_print ok w :
  runs (py_print ok) w (if ok then Ret tt else Raise UnicodeEncodeError) [].
Proof. destruct ok; reflexivity. Qed.

Lemma runs_emit e w : runs (emit e) w (Ret tt) [e].
Proof. reflexivity. Qed.

Lemma runs_io op w : runs (io op) w (Ret tt) (map EvIO [op]).
Proof. reflexivity. Qed.

Lemma runs_bind {A B} (m : M A) (k : A -> M B) w a evs1 r evs2 :
  runs m w (Ret a) evs1 -> runs (k a) (advance w evs1) r evs2 ->
  runs (bind m k) w r (evs1 ++ evs2).
Proof. unfold runs, bind. intros -> ->. rewrite advance_app. reflexivity. Qed.

Lemma runs_bind_nil {A B} (m : M A) (k : A -> M B) w a r evs :
  runs m w (Ret a) [] -> runs (k a) w r evs -> runs (bind m k) w r evs.
Proof. intros H1 H2. apply (runs_bind m k w a [] r evs H1). exact H2. Qed.

Lemma runs_bind_raise {A B} (m : M A) (k : A -> M B) w e evs :
  runs m w (Raise e) evs -> runs (bind m k) w (Raise e) evs.
Proof. unfold runs, bind. intros ->. reflexivity. Qed.

Lemma runs_try {A} (body : M A) h w a evs :
  runs body w (Ret a) evs -> runs (try_except body h) w (Ret a) evs.
Proof. unfold runs, try_except. intros ->. reflexivity. Qed.

Lemma runs_try_raise {A} (body : M A) h w e evs1 r evs2 :
  runs body w (Raise e) evs1 -> runs (h e) (advance w evs1) r evs2 ->
  runs (try_except body h) w r (evs1 ++ evs2).
Proof. unfold runs, try_except. intros -> ->. rewrite advance_app. reflexivity. Qed.

Lemma runs_with_lock {A} (body : M A) w r evs :
  runs body (advance w [EvAcquire]) r evs ->
  runs (with_lock body) w r (EvAcquire :: evs ++ [EvRelease]).
Proof.
  unfold runs, with_lock. intros H.
  change (effect EvAcquire w) with (advance w [EvAcquire]). rewrite H.
  rewrite advance_app, <- advance_snoc. reflexivity.
Qed.

Lemma runs_exists p w :
  runs (os_path_exists p) w (Ret (bool_decide (is_Some (w_fs w !! p)))) [].
Proof. reflexivity. Qed.

Lemma runs_read w : runs read_latest_data w (Ret (latest_data w)) [].
Proof. reflexivity. Qed.

Lemma runs_is_set w : runs is_set w (Ret (stop_event w)) [].
Proof. reflexivity. Qed.

(** ** The Durable Writer *)

Lemma runs_mkstemp o w :
  runs (tempfile_mkstemp o) w
       (match mkstemp_result o with Some tmp => Ret tmp | None => Raise OSError end)
       (map EvIO [match mkstemp_result o with
                  | Some tmp => Mkstemp tmp
                  | None => MkstempFail
                  end]).
Proof.
  unfold tempfile_mkstemp. destruct (mkstemp_result o).
  - eapply (runs_bind _ _ _ _ [_] _ []); [apply runs_io | apply runs_ret].
  - eapply (runs_bind _ _ _ _ [_] _ []); [apply runs_io | apply runs_raise].
Qed.

Lemma runs_dump o tmp text w :
  runs (dump_flush_fsync o tmp text) w
       (match write_result o with None => Ret tt | Some _ => Raise OSError end)
       (map EvIO [match write_result o with
                  | None => WriteTmp tmp text true
                  | Some c => WriteTmp tmp c false
                  end]).
Proof.
  unfold dump_flush_fsync. destruct (write_result o).
  - eapply (runs_bind _ _ _ _ [_] _ []); [apply runs_io | apply runs_raise].
  - apply runs_io.
Qed.

Lemma runs_replace o src dst w :
  runs (os_replace o src dst) w
       (if replace_ok o then Ret tt else Raise OSError)
       (map EvIO [Replace src dst (replace_ok o)]).
Proof.
  unfold os_replace. destruct (replace_ok o).
  - apply runs_io.
  - eapply (runs_bind _ _ _ _ [_] _ []); [apply runs_io | apply runs_raise].
Qed.

Lemma runs_remove o p w :
  runs (os_remove o p) w
       (if remove_ok o then Ret tt else Raise OSError)
       (map EvIO [Remove p (remove_ok o)]).
Proof.
  unfold os_remove. destruct (remove_ok o).
  - apply runs_io.
  - eapply (runs_bind _ _ _ _ [_] _ []); [apply runs_io | apply runs_raise].
Qed.

Lemma runs_abspath o w :
  runs (os_path_abspath o) w (if abspath_ok o then Ret tt else Raise OSError) [].
Proof. unfold os_path_abspath. destruct (abspath_ok o); reflexivity. Qed.

(** The best-effort backup: it raises only when the copy raises and
    the warning cannot be printed. *)
Lemma runs_backup o path bp w :
  runs (match path_given bp with
        | Some b =>
            there <- os_path_exists path ;;
            if there
            then try_except (shutil_copy2 o path b)
                            (fun _ => py_print (print_warning_ok o))
            else ret tt
        | None => ret tt
        end) w
       (if backup_raises o path bp (w_fs w) then Raise UnicodeEncodeError
        else Ret tt)
       (map EvIO (backup_calls o path bp (w_fs w))).
Proof.
  unfold backup_calls, backup_raises.
  destruct (path_given bp) as [b|]; [|apply runs_ret].
  eapply (runs_bind _ _ _ _ [] _ _); [apply runs_exists|].
  rewrite advance_nil.
  destruct (bool_decide (is_Some (w_fs w !! path))); [|apply runs_ret].
  cbn [andb]. unfold shutil_copy2. destruct (decide (path = b)) as [Heq|Hne].
  - rewrite (bool_decide_eq_true_2 _ Heq). cbn [orb].
    eapply (runs_try_raise _ _ _ _ [] _ []); [apply runs_raise|].
    destruct (print_warning_ok o); reflexivity.
  - rewrite (bool_decide_eq_false_2 _ Hne). cbn [orb].
    destruct (copy_outcome o).
    + apply runs_try, runs_io.
    + eapply (runs_try_raise _ _ _ _ [_] _ []).
      * eapply (runs_bind _ _ _ _ [_] _ []); [apply runs_io | apply runs_raise].
      * destruct (print_warning_ok o); reflexivity.
Qed.

Lemma copy2_keeps src dst r (fs : gmap string pystr) p :
  is_Some (fs !! p) -> is_Some (apply_op (Copy2 src dst r) fs !! p).
Proof.
  intros Hp. destruct r as [|[c|]]; simpl; [destruct (fs !! src)| |]; try exact Hp;
    (destruct (decide (dst = p)) as [->|Hne];
     [rewrite lookup_insert_eq; eauto | rewrite lookup_insert_ne by exact Hne; exact Hp]).
Qed.

Lemma backup_keeps o path bp (fs : gmap string pystr) p :
  is_Some (fs !! p) ->
  is_Some (replay (backup_calls o path bp fs) fs !! p).
Proof.
  intros Hp. unfold backup_calls.
  destruct (path_given bp) as [b|]; [|exact Hp].
  destruct (bool_decide _); [|exact Hp].
  destruct (decide (path = b)); [exact Hp|].
  apply copy2_keeps, Hp.
Qed.

(** The outer handler, run with the temporary file in place: the
    message is printed, then the removal is attempted and its failure
    swallowed; when the print raises nothing is removed. *)
Lemma runs_cleanup o tmp w :
  is_Some (w_fs w !! tmp) ->
  runs (py_print (print_error_ok o) ;;;
        try_except
          (there <- os_path_exists tmp ;;
           if there then os_remove o tmp else ret tt)
          (fun _ => ret tt)) w (cleanup_result o) (map EvIO (cleanup_calls o tmp)).
Proof.
  intros Htmp. unfold cleanup_result, cleanup_calls.
  destruct (print_error_ok o); [|apply runs_bind_raise, runs_raise].
  eapply (runs_bind _ _ _ _ [] _ _); [apply runs_ret|]. rewrite advance_nil.
  assert (runs (there <- os_path_exists tmp ;;
                if there then os_remove o tmp else ret tt) w
            (if remove_ok o then Ret tt else Raise OSError)
            (map EvIO [Remove tmp (remove_ok o)])) as Hrm.
  { eapply (runs_bind _ _ _ _ [] _ _); [apply runs_exists|].
    rewrite advance_nil, (bool_decide_eq_true_2 _ Htmp). apply runs_remove. }
  destruct (remove_ok o).
  - apply runs_try, Hrm.
  - eapply (runs_try_raise _ _ _ _ [_] _ []); [exact Hrm | apply runs_ret].
Qed.

Section WriterFacts.
Variable json_dumps : pydata -> pystr.

(** On a non-empty snapshot the writer makes exactly the calls of
    [writer_calls] and ends as [writer_result] says. *)
Lemma save_json_atomic_run o path data bp w :
  truthy data = true ->
  runs (save_json_atomic json_dumps o path data bp) w
       (writer_result json_dumps o path data bp (w_fs w))
       (map EvIO (writer_calls json_dumps o path data bp (w_fs w))).
Proof.
  intros Ht. unfold save_json_atomic, writer_result, writer_calls.
  rewrite Ht. change (negb true) with false. cbv iota.
  pose proof (runs_abspath o w) as Habs.
  destruct (abspath_ok o); [|apply runs_bind_raise, Habs].
  eapply runs_bind_nil; [exact Habs|].
  pose proof (runs_mkstemp o w) as Hmk.
  destruct (mkstemp_result o) as [tmp|]; [|apply runs_bind_raise, Hmk].
  set (w1 := advance w (map EvIO [Mkstemp tmp])).
  pose proof (runs_dump o tmp (json_dumps data) w1) as Hdump.
  destruct (write_result o) as [c|].
  - eapply runs_events.
    + eapply runs_bind; [exact Hmk|].
      eapply runs_try_raise; [apply runs_bind_raise, Hdump|].
      apply runs_cleanup. simpl. rewrite lookup_insert_eq. eauto.
    + simpl. reflexivity.
  - set (w2 := advance w1 (map EvIO [WriteTmp tmp (json_dumps data) true])).
    assert (is_Some (w_fs w2 !! tmp)) as Htmp.
    { simpl. rewrite lookup_insert_eq. eauto. }
    pose proof (runs_backup o path bp w2) as Hbk.
    set (w3 := advance w2 (map EvIO (backup_calls o path bp (w_fs w2)))) in *.
    assert (is_Some (w_fs w3 !! tmp)) as Htmp3.
    { subst w3. rewrite fs_advance, io_ops_map_io.
      apply (backup_keeps o path bp (w_fs w2) tmp Htmp). }
    pose proof (runs_replace o tmp path w3) as Hrep.
    change (<[tmp:=json_dumps data]> (<[tmp:=[]]> (w_fs w))) with (w_fs w2).
    lazy zeta.
    destruct (backup_raises o path bp (w_fs w2)).
    + eapply runs_events.
      * eapply runs_bind; [exact Hmk|].
        eapply runs_try_raise.
        -- eapply runs_bind; [exact Hdump|].
           apply runs_bind_raise. exact Hbk.
        -- apply runs_cleanup. rewrite <- !advance_app. exact Htmp3.
      * simpl. rewrite ?map_app. simpl. rewrite <- ?app_assoc. reflexivity.
    + destruct (replace_ok o).
      * eapply runs_events.
        -- eapply runs_bind; [exact Hmk|].
           apply runs_try. eapply runs_bind; [exact Hdump|].
           eapply runs_bind; [exact Hbk | exact Hrep].
        -- simpl. rewrite ?map_app. simpl. rewrite <- ?app_assoc. reflexivity.
      * eapply runs_events.
        -- eapply runs_bind; [exact Hmk|].
           eapply runs_try_raise.
           ++ eapply runs_bind; [exact Hdump|].
              eapply runs_bind; [exact Hbk | exact Hrep].
           ++ apply runs_cleanup. rewrite <- !advance_app. fold w1. fold w2. fold w3.
              rewrite fs_advance, io_ops_map_io. simpl.
              destruct Htmp3 as [c Hc]. exists c. exact Hc.
        -- simpl. rewrite ?map_app. simpl. rewrite <- ?app_assoc. reflexivity.
Qed.

(** Whatever the snapshot, the writer only makes system calls. *)
Lemma save_json_atomic_io o path data bp w :
  exists r ops,
    runs (save_json_atomic json_dumps o path data bp) w r (map EvIO ops)
    /\ (truthy data = false -> r = Ret tt /\ ops = [])
    /\ (truthy data = true ->
        r = writer_result json_dumps o path data bp (w_fs w)
        /\ ops = writer_calls json_dumps o path data bp (w_fs w)).
Proof.
  destruct (truthy data) eqn:Ht.
  - eexists _, _. split; [apply save_json_atomic_run, Ht|].
    split; [discriminate | intros _; split; reflexivity].
  - exists (Ret tt), []. split.
    + unfold save_json_atomic. rewrite Ht. apply runs_ret.
    + split; [intros _; split; reflexivity | discriminate].
Qed.

(** When the oracle says so, the call returns. *)
Lemma writer_returns_result o path data bp fs :
  writer_returns o = true ->
  writer_result json_dumps o path data bp fs = Ret tt.
Proof.
  unfold writer_returns, writer_result, cleanup_result. intros H.
  apply andb_true_iff in H as [H Hp]. apply andb_true_iff in H as [Ha Hm].
  apply bool_decide_eq_true in Hm as [tmp Hm]. rewrite Ha, Hm, Hp.
  destruct (write_result o); [reflexivity|]. cbv zeta.
  destruct (backup_raises _ _ _ _); [reflexivity|].
  destruct (replace_ok o); reflexivity.
Qed.

Lemma writer_succeeds_result o path data bp fs :
  writer_succeeds o = true ->
  writer_result json_dumps o path data bp fs = Ret tt.
Proof.
  unfold writer_succeeds, writer_result, backup_raises. intros H.
  apply andb_true_iff in H as [Ha H]. rewrite Ha.
  destruct (mkstemp_result o) as [tmp|]; [|discriminate].
  destruct (write_result o); [discriminate|].
  apply andb_true_iff in H as [Hw Hr]. rewrite Hw, Hr. cbv zeta.
  destruct (path_given bp); [|reflexivity].
  rewrite andb_false_r. reflexivity.
Qed.

(** A call raises only before the [try], or in the outer handler's
    print. *)
Lemma writer_result_raises o path data bp fs e :
  writer_result json_dumps o path data bp fs = Raise e ->
  writer_returns o = false.
Proof.
  intros Hr. destruct (writer_returns o) eqn:Hw; [|reflexivity].
  rewrite (writer_returns_result o path data bp fs Hw) in Hr. discriminate.
Qed.
End WriterFacts.
(** *** Which files a call can change *)

Lemma apply_op_untouched op (fs : gmap string pystr) p :
  touches p op = false -> apply_op op fs !! p = fs !! p.
Proof.
  destruct op as [q| |q c ok|src dst r|src dst ok|q ok]; simpl; intros Ht;
    try reflexivity.
  - apply bool_decide_eq_false in Ht. apply lookup_insert_ne, Ht.
  - apply bool_decide_eq_false in Ht. apply lookup_insert_ne, Ht.
  - apply bool_decide_eq_false in Ht.
    destruct r as [|[c|]]; [destruct (fs !! src)| |]; try reflexivity;
      apply lookup_insert_ne, Ht.
  - destruct ok; [|reflexivity].
    apply orb_false_iff in Ht as [Hs Hd].
    apply bool_decide_eq_false in Hs, Hd.
    destruct (fs !! src); [|reflexivity].
    rewrite lookup_insert_ne by exact Hd. apply lookup_delete_ne, Hs.
  - destruct ok; [|reflexivity].
    apply bool_decide_eq_false in Ht. apply lookup_delete_ne, Ht.
Qed.

Lemma replay_untouched ops (fs : gmap string pystr) p :
  (forall op, op ∈ ops -> touches p op = false) ->
  replay ops fs !! p = fs !! p.
Proof.
  revert fs. induction ops as [|op ops IH]; intros fs Hall; [reflexivity|].
  change (replay (op :: ops) fs) with (replay ops (apply_op op fs)).
  rewrite IH.
  - apply apply_op_untouched, Hall. left.
  - intros op' Hin. apply Hall. right. exact Hin.
Qed.

Lemma rename_done_app path ops1 ops2 :
  rename_done path (ops1 ++ ops2) = rename_done path ops1 || rename_done path ops2.
Proof. apply existsb_app. Qed.

Lemma rename_done_elem path ops op :
  op ∈ ops -> rename_done path [op] = true -> rename_done path ops = true.
Proof.
  intros Hin Hop. apply existsb_exists. exists op. split.
  - apply list_elem_of_In, Hin.
  - simpl in Hop. rewrite orb_false_r in Hop. exact Hop.
Qed.

Lemma backup_calls_elem o path bp fs op :
  op ∈ backup_calls o path bp fs ->
  exists b, path_given bp = Some b /\ path <> b
            /\ is_Some (fs !! path) /\ op = Copy2 path b (copy_outcome o).
Proof.
  unfold backup_calls. destruct (path_given bp) as [b|]; [|intros H; inversion H].
  destruct (bool_decide (is_Some (fs !! path))) eqn:Hex; [|intros H; inversion H].
  apply bool_decide_eq_true in Hex.
  destruct (decide (path = b)) as [|Hne]; [intros H; inversion H|].
  intros Hin. apply list_elem_of_singleton in Hin. eauto.
Qed.

Lemma backup_calls_untouched o path bp fs (fs' : gmap string pystr) p :
  path_given bp <> Some p ->
  replay (backup_calls o path bp fs) fs' !! p = fs' !! p.
Proof.
  intros Hp. apply replay_untouched. intros op Hin.
  apply backup_calls_elem in Hin as (b & Hb & _ & _ & ->). simpl.
  apply bool_decide_eq_false. congruence.
Qed.

Lemma rename_done_backup o path bp fs p :
  rename_done p (backup_calls o path bp fs) = false.
Proof.
  unfold backup_calls. destruct (path_given bp); [|reflexivity].
  destruct (bool_decide _); [|reflexivity].
  destruct (decide _); reflexivity.
Qed.

Lemma fresh_tmp_spec o path bp tmp :
  fresh_tmp o path bp = true -> mkstemp_result o = Some tmp ->
  tmp <> path /\ path_given bp <> Some tmp.
Proof.
  unfold fresh_tmp. intros Hf Hm. rewrite Hm in Hf.
  apply andb_true_iff in Hf as [H1 H2].
  apply bool_decide_eq_true in H1, H2. split; assumption.
Qed.

Section WriterCalls.
Variable json_dumps : pydata -> pystr.

Lemma cleanup_calls_elem o tmp op :
  op ∈ cleanup_calls o tmp -> op = Remove tmp (remove_ok o).
Proof.
  unfold cleanup_calls. destruct (print_error_ok o); intros Hin.
  - apply list_elem_of_singleton in Hin. exact Hin.
  - inversion Hin.
Qed.

(** The system calls a call of the writer can make. *)
Lemma writer_calls_elem o path data bp fs op :
  op ∈ writer_calls json_dumps o path data bp fs ->
  op = MkstempFail
  \/ exists tmp,
       mkstemp_result o = Some tmp
       /\ (op = Mkstemp tmp
           \/ (exists c ok, op = WriteTmp tmp c ok)
           \/ op ∈ backup_calls o path bp
                     (<[tmp := json_dumps data]> (<[tmp := []]> fs))
           \/ (exists ok, op = Replace tmp path ok)
           \/ op = Remove tmp (remove_ok o)).
Proof.
  unfold writer_calls.
  destruct (abspath_ok o); [|intros Hin; inversion Hin].
  destruct (mkstemp_result o) as [tmp|].
  2:{ intros Hin. apply list_elem_of_singleton in Hin. left. exact Hin. }
  intros Hin. right. exists tmp. split; [reflexivity|].
  destruct (write_result o) as [c|].
  - apply elem_of_app in Hin as [Hin|Hin].
    + apply elem_of_cons in Hin as [->|Hin]; [left; reflexivity|].
      apply list_elem_of_singleton in Hin. right. left. eauto.
    + apply cleanup_calls_elem in Hin. do 4 right. exact Hin.
  - cbv zeta in Hin. apply elem_of_app in Hin as [Hin|Hin].
    { apply elem_of_cons in Hin as [->|Hin]; [left; reflexivity|].
      apply list_elem_of_singleton in Hin. right. left. eauto. }
    apply elem_of_app in Hin as [Hin|Hin]; [right; right; left; exact Hin|].
    destruct (backup_raises _ _ _ _).
    { apply cleanup_calls_elem in Hin. do 4 right. exact Hin. }
    destruct (replace_ok o).
    + apply list_elem_of_singleton in Hin. do 3 right. left. eauto.
    + apply elem_of_cons in Hin as [->|Hin]; [do 3 right; left; eauto|].
      apply cleanup_calls_elem in Hin. do 4 right. exact Hin.
Qed.

(** Before the rename completes, no call of the writer changes the
    primary file. *)
Lemma writer_calls_touch_primary o path data bp fs op :
  fresh_tmp o path bp = true ->
  op ∈ writer_calls json_dumps o path data bp fs ->
  touches path op = true -> rename_done path [op] = true.
Proof.
  intros Hfresh Hin.
  apply writer_calls_elem in Hin as [-> | (tmp & Hm & Hin)]; [discriminate|].
  destruct (fresh_tmp_spec o path bp tmp Hfresh Hm) as [Hne _].
  assert (bool_decide (tmp = path) = false) as Hbd
    by (apply bool_decide_eq_false; exact Hne).
  destruct Hin as [-> | [(c & ok & ->) | [Hin | [(ok & ->) | ->]]]]; simpl;
    try congruence.
  - apply backup_calls_elem in Hin as (b & _ & Hb & _ & ->). simpl.
    intros Ht. apply bool_decide_eq_true in Ht. congruence.
  - destruct ok; [|discriminate]. intros _.
    rewrite bool_decide_eq_true_2; reflexivity.
  - destruct (remove_ok o); congruence.
Qed.

Lemma writer_calls_crash_primary o path data bp (fs : gmap string pystr) k :
  fresh_tmp o path bp = true ->
  rename_done path (take k (writer_calls json_dumps o path data bp fs)) = false ->
  replay (take k (writer_calls json_dumps o path data bp fs)) fs !! path
  = fs !! path.
Proof.
  intros Hfresh Hno. apply replay_untouched. intros op Hin.
  destruct (touches path op) eqn:Ht; [|reflexivity].
  rewrite (rename_done_elem path _ op Hin) in Hno; [discriminate|].
  eapply writer_calls_touch_primary; eauto.
  apply (subseteq_take k _ op Hin).
Qed.

Lemma rename_done_cleanup o tmp path :
  rename_done path (cleanup_calls o tmp) = false.
Proof. unfold cleanup_calls. destruct (print_error_ok o); reflexivity. Qed.

(** The rename is among the calls exactly when the call gets to it and
    it succeeds. *)
Lemma writer_calls_rename_done o path data bp fs :
  rename_done path (writer_calls json_dumps o path data bp fs)
  = writer_completes json_dumps o path data bp fs.
Proof.
  unfold writer_calls, writer_completes.
  destruct (abspath_ok o); [|reflexivity].
  destruct (mkstemp_result o) as [tmp|]; [|reflexivity].
  destruct (write_result o) as [c|].
  { rewrite rename_done_app, rename_done_cleanup. reflexivity. }
  cbv zeta. rewrite !rename_done_app, rename_done_backup.
  destruct (backup_raises _ _ _ _); [apply rename_done_cleanup|].
  destruct (replace_ok o); simpl.
  - rewrite bool_decide_eq_true_2; reflexivity.
  - apply rename_done_cleanup.
Qed.

Lemma writer_succeeds_completes o path data bp fs :
  writer_succeeds o = true -> writer_completes json_dumps o path data bp fs = true.
Proof.
  unfold writer_succeeds, writer_completes, backup_raises. intros H.
  apply andb_true_iff in H as [Ha H]. rewrite Ha.
  destruct (mkstemp_result o) as [tmp|]; [|discriminate].
  destruct (write_result o); [discriminate|].
  apply andb_true_iff in H as [Hw Hr]. rewrite Hw, Hr.
  destruct (path_given bp); [|reflexivity].
  rewrite andb_false_r. reflexivity.
Qed.

Lemma writer_completes_result o path data bp fs :
  writer_completes json_dumps o path data bp fs = true ->
  writer_result json_dumps o path data bp fs = Ret tt.
Proof.
  unfold writer_completes, writer_result. intros H.
  apply andb_true_iff in H as [Ha H]. rewrite Ha.
  destruct (mkstemp_result o) as [tmp|]; [|discriminate].
  destruct (write_result o); [discriminate|].
  apply andb_true_iff in H as [Hb Hr]. apply negb_true_iff in Hb.
  cbv zeta. rewrite Hb, Hr. reflexivity.
Qed.

(** A call that does not get through the rename removes its temporary
    file when the message of the handler is printed and [os.remove]
    works. *)
Lemma writer_calls_failed_tmp o path data bp (fs : gmap string pystr) tmp :
  writer_completes json_dumps o path data bp fs = false ->
  abspath_ok o = true -> mkstemp_result o = Some tmp ->
  print_error_ok o = true -> remove_ok o = true ->
  replay (writer_calls json_dumps o path data bp fs) fs !! tmp = None.
Proof.
  unfold writer_calls, writer_completes, cleanup_calls.
  intros Hfail Ha Hm Hp Hrm. rewrite Ha, Hm in Hfail |- *. rewrite Hp, Hrm.
  destruct (write_result o) as [c|].
  - simpl. apply lookup_delete_eq.
  - cbv zeta. simpl in Hfail.
    destruct (backup_raises _ _ _ _).
    + rewrite !replay_app. simpl. apply lookup_delete_eq.
    + simpl in Hfail. rewrite Hfail, !replay_app. simpl. apply lookup_delete_eq.
Qed.

(** A call that gets through the rename leaves the serialized snapshot
    in the primary file. *)
Lemma writer_calls_completed_primary o path data bp (fs : gmap string pystr) :
  fresh_tmp o path bp = true ->
  writer_completes json_dumps o path data bp fs = true ->
  replay (writer_calls json_dumps o path data bp fs) fs !! path
  = Some (json_dumps data).
Proof.
  unfold writer_calls, writer_completes. intros Hfresh Hok.
  pose proof (fresh_tmp_spec o path bp) as Hf.
  apply andb_true_iff in Hok as [Ha Hok]. rewrite Ha.
  destruct (mkstemp_result o) as [tmp|]; [|discriminate].
  destruct (Hf tmp Hfresh eq_refl) as [_ Hb].
  destruct (write_result o) as [c|]; [discriminate|].
  apply andb_true_iff in Hok as [Hbk Hr]. apply negb_true_iff in Hbk.
  cbv zeta. rewrite Hbk, Hr, !replay_app.
  set (fs1 := replay [Mkstemp tmp; WriteTmp tmp (json_dumps data) true] fs).
  change (<[tmp:=json_dumps data]> (<[tmp:=[]]> fs)) with fs1.
  assert (replay (backup_calls o path bp fs1) fs1 !! tmp = Some (json_dumps data))
    as Htmp.
  { rewrite backup_calls_untouched by exact Hb. apply lookup_insert_eq. }
  simpl. rewrite Htmp. apply lookup_insert_eq.
Qed.

Lemma writer_calls_succeeded_primary o path data bp (fs : gmap string pystr) :
  fresh_tmp o path bp = true -> writer_succeeds o = true ->
  replay (writer_calls json_dumps o path data bp fs) fs !! path
  = Some (json_dumps data).
Proof.
  intros Hfresh Hok. apply writer_calls_completed_primary; [exact Hfresh|].
  apply writer_succeeds_completes, Hok.
Qed.
End WriterCalls.

Section WriterClaims.
Variable json_dumps : pydata -> pystr.

Lemma save_json_atomic_calls o path data bp w :
  truthy data = true ->
  calls_of (save_json_atomic json_dumps o path data bp) w
  = writer_calls json_dumps o path data bp (w_fs w)
  /\ w_fs (snd (save_json_atomic json_dumps o path data bp w))
     = replay (writer_calls json_dumps o path data bp (w_fs w)) (w_fs w).
Proof.
  intros Ht. pose proof (save_json_atomic_run json_dumps o path data bp w Ht) as Hrun.
  split.
  - rewrite (runs_calls _ _ _ _ Hrun). apply io_ops_map_io.
  - rewrite (runs_snd _ _ _ _ Hrun), fs_advance, io_ops_map_io. reflexivity.
Qed.

Lemma save_json_atomic_skip o path data bp w :
  truthy data = false ->
  save_json_atomic json_dumps o path data bp w = (Ret tt, w).
Proof. intros Ht. unfold save_json_atomic. rewrite Ht. reflexivity. Qed.

Lemma save_json_atomic_skip_calls o path data bp w :
  truthy data = false ->
  calls_of (save_json_atomic json_dumps o path data bp) w = [].
Proof.
  intros Ht. unfold calls_of, events_of. rewrite save_json_atomic_skip by exact Ht.
  simpl. rewrite drop_all. reflexivity.
Qed.

(** C3.  Called with an empty snapshot the writer returns at once: the
    world (files, store, trace) is the one it was called in, and it has
    made no system call at all, whatever the operating system would
    have answered. *)
Theorem save_json_atomic_empty_noop o path data bp w :
  truthy data = false ->
  save_json_atomic json_dumps o path data bp w = (Ret tt, w)
  /\ calls_of (save_json_atomic json_dumps o path data bp) w = [].
Proof.
  intros Ht. split; [apply save_json_atomic_skip, Ht|].
  apply save_json_atomic_skip_calls, Ht.
Qed.

(** C2 (as amended).  For a non-empty snapshot and a temporary name
    distinct from the target paths: the files after the call are the
    result of its system calls; a crash after any number of those
    calls, as long as the rename is not among them, leaves the primary
    path as it was (absent or with its old contents); when the call
    ends without the rename (a step up to it raised), the primary path
    is as it was, and the temporary file that [mkstemp] made is gone
    provided the message of the handler was printed and [os.remove]
    worked; when the rename has been made, the primary file holds
    exactly the serialized snapshot and the call returns; and the
    rename is made whenever no step up to it raises. *)
Theorem save_json_atomic_atomicity o path data bp w :
  truthy data = true -> fresh_tmp o path bp = true ->
  let ops := calls_of (save_json_atomic json_dumps o path data bp) w in
  let w' := snd (save_json_atomic json_dumps o path data bp w) in
  w_fs w' = replay ops (w_fs w)
  /\ (forall k, rename_done path (take k ops) = false ->
        replay (take k ops) (w_fs w) !! path = w_fs w !! path)
  /\ (rename_done path ops = false ->
        w_fs w' !! path = w_fs w !! path
        /\ forall tmp, abspath_ok o = true -> mkstemp_result o = Some tmp ->
                       print_error_ok o = true -> remove_ok o = true ->
                       w_fs w' !! tmp = None)
  /\ (rename_done path ops = true ->
        w_fs w' !! path = Some (json_dumps data)
        /\ fst (save_json_atomic json_dumps o path data bp w) = Ret tt)
  /\ (writer_succeeds o = true -> rename_done path ops = true).
Proof.
  intros Ht Hfresh ops w'. subst ops w'.
  pose proof (save_json_atomic_run json_dumps o path data bp w Ht) as Hrun.
  destruct (save_json_atomic_calls o path data bp w Ht) as [-> ->].
  rewrite writer_calls_rename_done.
  split; [reflexivity|]. split; [|split; [|split]].
  - intros k Hk. apply writer_calls_crash_primary; assumption.
  - intros Hfail.
    assert (rename_done path (writer_calls json_dumps o path data bp (w_fs w))
            = false) as Hno
      by (rewrite writer_calls_rename_done; exact Hfail).
    split.
    + pose proof (writer_calls_crash_primary json_dumps o path data bp (w_fs w)
                    (length (writer_calls json_dumps o path data bp (w_fs w)))
                    Hfresh) as Hall.
      rewrite firstn_all in Hall. apply Hall, Hno.
    + intros tmp Ha Hm Hp Hrm. apply writer_calls_failed_tmp; assumption.
  - intros Hok. split.
    + apply writer_calls_completed_primary; assumption.
    + rewrite (runs_fst _ _ _ _ Hrun). apply writer_completes_result, Hok.
  - apply writer_succeeds_completes.
Qed.

(** *** The backup *)

Lemma fresh_tmp_ok tmp path bp b :
  path_given bp = Some b -> tmp <> path -> tmp <> b ->
  fresh_tmp (writer_ok tmp) path bp = true.
Proof.
  intros Hb H1 H2. unfold fresh_tmp. simpl. rewrite Hb.
  apply andb_true_iff. split; apply bool_decide_eq_true; congruence.
Qed.

Lemma backup_calls_none o path bp (fs : gmap string pystr) :
  fs !! path = None -> backup_calls o path bp fs = [].
Proof.
  intros Hnone. unfold backup_calls. destruct (path_given bp); [|reflexivity].
  rewrite bool_decide_eq_false_2; [reflexivity|].
  rewrite Hnone. intros [? [=]].
Qed.

Lemma backup_calls_some o path bp b (fs : gmap string pystr) old :
  path_given bp = Some b -> path <> b -> fs !! path = Some old ->
  backup_calls o path bp fs = [Copy2 path b (copy_outcome o)].
Proof.
  intros Hb Hne Hold. unfold backup_calls. rewrite Hb.
  rewrite bool_decide_eq_true_2 by (rewrite Hold; eauto).
  destruct (decide (path = b)); [contradiction | reflexivity].
Qed.

(** Without a primary file the writer leaves the backup path alone. *)
Lemma writer_calls_first_write o path data bp b (fs : gmap string pystr) op :
  path_given bp = Some b -> path <> b -> fresh_tmp o path bp = true ->
  fs !! path = None ->
  op ∈ writer_calls json_dumps o path data bp fs ->
  touches b op = false /\ copy_attempted b [op] = false.
Proof.
  intros Hb Hne Hfresh Hnone Hin.
  apply writer_calls_elem in Hin as [-> | (tmp & Hm & Hin)];
    [split; reflexivity|].
  destruct (fresh_tmp_spec o path bp tmp Hfresh Hm) as [Hp Hbt].
  rewrite Hb in Hbt.
  assert (bool_decide (tmp = b) = false) as Htb
    by (apply bool_decide_eq_false; congruence).
  assert (bool_decide (path = b) = false) as Hpb
    by (apply bool_decide_eq_false; exact Hne).
  destruct Hin as [-> | [(c & ok & ->) | [Hin | [(ok & ->) | ->]]]]; simpl;
    rewrite ?Htb, ?Hpb; try (split; reflexivity).
  - rewrite backup_calls_none in Hin
      by (rewrite !lookup_insert_ne by exact Hp; exact Hnone).
    inversion Hin.
  - destruct ok; split; reflexivity.
  - destruct (remove_ok o); split; (assumption || reflexivity).
Qed.

Lemma copy_attempted_elems b ops :
  (forall op, op ∈ ops -> copy_attempted b [op] = false) ->
  copy_attempted b ops = false.
Proof.
  induction ops as [|op ops IH]; intros Hall; [reflexivity|].
  pose proof (Hall op ltac:(left)) as Hop.
  unfold copy_attempted in Hop |- *. cbn [existsb] in Hop |- *.
  rewrite orb_false_r in Hop. rewrite Hop. apply IH.
  intros op' Hin. apply Hall. right. exact Hin.
Qed.
(** C10.  With a backup path distinct from the primary path and a
    temporary name distinct from both: when no primary file exists at
    the start of the call, the writer attempts no copy towards the
    backup path and every state the files pass through, the final one
    included, has the backup path as it was; and whenever the writer
    does attempt the copy, a primary file existed at the start. *)
Theorem first_write_leaves_backup o path data bp b w :
  path_given bp = Some b -> path <> b -> fresh_tmp o path bp = true ->
  let ops := calls_of (save_json_atomic json_dumps o path data bp) w in
  let w' := snd (save_json_atomic json_dumps o path data bp w) in
  (w_fs w !! path = None ->
     copy_attempted b ops = false
     /\ (forall k, replay (take k ops) (w_fs w) !! b = w_fs w !! b)
     /\ w_fs w' !! b = w_fs w !! b)
  /\ (copy_attempted b ops = true -> is_Some (w_fs w !! path)).
Proof.
  intros Hb Hne Hfresh ops w'.
  assert (w_fs w !! path = None ->
     copy_attempted b ops = false
     /\ (forall k, replay (take k ops) (w_fs w) !! b = w_fs w !! b)
     /\ w_fs w' !! b = w_fs w !! b) as Hfirst.
  { intros Hnone. subst ops w'. destruct (truthy data) eqn:Ht.
    - destruct (save_json_atomic_calls o path data bp w Ht) as [-> ->].
      pose proof (fun op => writer_calls_first_write o path data bp b (w_fs w) op
                              Hb Hne Hfresh Hnone) as Hops.
      split; [|split].
      + apply copy_attempted_elems. intros op Hin. apply Hops, Hin.
      + intros k. apply replay_untouched. intros op Hin.
        apply Hops, (subseteq_take k _ op Hin).
      + apply replay_untouched. intros op Hin. apply Hops, Hin.
    - rewrite (save_json_atomic_skip_calls o path data bp w Ht).
      rewrite (save_json_atomic_skip o path data bp w Ht).
      split; [reflexivity|]. split; [|reflexivity].
      intros k. rewrite take_nil. reflexivity. }
  split; [exact Hfirst|].
  intros Hcopy. destruct (w_fs w !! path) eqn:Hp; [eauto|].
  destruct (Hfirst eq_refl) as [Hno _]. congruence.
Qed.
End WriterClaims.

Section BackupClaims.
Variable json_dumps : pydata -> pystr.

Lemma save_all_app path bp ws1 ws2 w :
  save_all json_dumps path bp (ws1 ++ ws2) w
  = save_all json_dumps path bp ws2 (save_all json_dumps path bp ws1 w).
Proof.
  revert w. induction ws1 as [|[o data] ws1 IH]; intros w; simpl;
    [reflexivity | apply IH].
Qed.

(** The calls of a write in which no step up to the rename raises, over
    an existing primary file. *)
Lemma writer_succeeds_calls o tmp path data bp b (fs : gmap string pystr) old :
  writer_succeeds o = true -> mkstemp_result o = Some tmp ->
  path_given bp = Some b -> path <> b -> tmp <> path ->
  fs !! path = Some old ->
  writer_calls json_dumps o path data bp fs
  = [Mkstemp tmp; WriteTmp tmp (json_dumps data) true;
     Copy2 path b (copy_outcome o); Replace tmp path true].
Proof.
  intros Hok Hm Hb Hne Htp Hold. unfold writer_calls, writer_succeeds in *.
  apply andb_true_iff in Hok as [Ha Hok]. rewrite Ha, Hm in *.
  destruct (write_result o); [discriminate|].
  apply andb_true_iff in Hok as [Hw Hr]. cbv zeta.
  assert (backup_raises o path bp (<[tmp:=json_dumps data]> (<[tmp:=[]]> fs))
          = false) as ->.
  { unfold backup_raises. rewrite Hb, Hw. apply andb_false_r. }
  rewrite Hr, (backup_calls_some _ path bp b _ old Hb Hne); [reflexivity|].
  rewrite !lookup_insert_ne by exact Htp. exact Hold.
Qed.

(** What such a write leaves in the backup file. *)
Lemma writer_succeeds_backup o tmp path data bp b (fs : gmap string pystr) old :
  writer_succeeds o = true -> mkstemp_result o = Some tmp ->
  path_given bp = Some b -> path <> b -> tmp <> path -> tmp <> b ->
  fs !! path = Some old ->
  replay (writer_calls json_dumps o path data bp fs) fs !! b
  = match copy_outcome o with
    | CopyOk => Some old
    | CopyFail (Some c) => Some c
    | CopyFail None => fs !! b
    end.
Proof.
  intros Hok Hm Hb Hne Htp Htb Hold.
  rewrite (writer_succeeds_calls o tmp path data bp b fs old Hok Hm Hb Hne Htp Hold).
  assert ((<[tmp:=json_dumps data]> (<[tmp:=[]]> fs) : gmap string pystr) !! path
          = Some old) as Hp
    by (rewrite !lookup_insert_ne by exact Htp; exact Hold).
  assert (forall (m : gmap string pystr),
             m !! tmp = Some (json_dumps data) ->
             apply_op (Replace tmp path true) m !! b = m !! b) as Hrep.
  { intros m Hmt. simpl. rewrite Hmt.
    rewrite lookup_insert_ne by exact Hne. apply lookup_delete_ne, Htb. }
  cbn [replay foldl].
  change (apply_op (WriteTmp tmp (json_dumps data) true)
            (apply_op (Mkstemp tmp) fs))
    with (<[tmp:=json_dumps data]> (<[tmp:=[]]> fs) : gmap string pystr).
  set (fs1 := <[tmp:=json_dumps data]> (<[tmp:=[]]> fs)) in *.
  assert (fs1 !! b = fs !! b) as Hb1
    by (subst fs1; rewrite !lookup_insert_ne by exact Htb; reflexivity).
  assert (fs1 !! tmp = Some (json_dumps data)) as Ht1
    by (subst fs1; apply lookup_insert_eq).
  destruct (copy_outcome o) as [|[c|]]; rewrite Hrep.
  - simpl. rewrite Hp. apply lookup_insert_eq.
  - simpl. rewrite Hp, lookup_insert_ne by congruence. exact Ht1.
  - simpl. apply lookup_insert_eq.
  - simpl. rewrite lookup_insert_ne by congruence. exact Ht1.
  - simpl. exact Hb1.
  - simpl. exact Ht1.
Qed.

Lemma writer_ok_calls tmp path data bp b (fs : gmap string pystr) old :
  path_given bp = Some b -> path <> b -> tmp <> path ->
  fs !! path = Some old ->
  writer_calls json_dumps (writer_ok tmp) path data bp fs
  = [Mkstemp tmp; WriteTmp tmp (json_dumps data) true;
     Copy2 path b CopyOk; Replace tmp path true].
Proof.
  intros Hb Hne Htp Hold.
  apply (writer_succeeds_calls (writer_ok tmp) tmp path data bp b fs old);
    (reflexivity || assumption).
Qed.

Lemma writer_ok_backup tmp path data bp b (fs : gmap string pystr) old :
  path_given bp = Some b -> path <> b -> tmp <> path -> tmp <> b ->
  fs !! path = Some old ->
  replay (writer_calls json_dumps (writer_ok tmp) path data bp fs) fs !! b
  = Some old.
Proof.
  intros Hb Hne Htp Htb Hold.
  apply (writer_succeeds_backup (writer_ok tmp) tmp path data bp b fs old);
    (reflexivity || assumption).
Qed.

Lemma writer_succeeds_tmp o :
  writer_succeeds o = true -> exists tmp, mkstemp_result o = Some tmp.
Proof.
  unfold writer_succeeds. intros H. apply andb_true_iff in H as [_ H].
  destruct (mkstemp_result o) as [tmp|]; [eauto | discriminate].
Qed.

(** C4 (as amended).  Take two or more writes in which no step up to
    the rename raises (the backup copy apart: it may fail, with its
    warning printed), each of a non-empty snapshot and with a temporary
    name distinct from the two target paths; [earlier] holds the writes
    before the last two.  After the last write the primary file holds
    the most recent snapshot, whatever the copy did.  When the copy of
    the last write succeeded, the backup file holds the snapshot written
    just before the most recent one; when it failed, the backup file is
    what the failed copy left: its partial contents, or the backup as it
    was before the write.  The last write copies the primary to the
    backup before it renames the temporary file over the primary. *)
Theorem backup_holds_previous_snapshot path bp b
    (earlier : list (writer_oracle * pydata))
    (prev last : writer_oracle * pydata) w :
  path_given bp = Some b -> path <> b ->
  Forall (fun x => truthy x.2 = true /\ fresh_tmp x.1 path bp = true
                   /\ writer_succeeds x.1 = true)
         (earlier ++ [prev; last]) ->
  let before := save_all json_dumps path bp (earlier ++ [prev]) w in
  let w' := save_all json_dumps path bp (earlier ++ [prev; last]) w in
  w_fs w' !! path = Some (json_dumps last.2)
  /\ (copy_outcome last.1 = CopyOk -> w_fs w' !! b = Some (json_dumps prev.2))
  /\ (forall left_behind, copy_outcome last.1 = CopyFail left_behind ->
        w_fs w' !! b = match left_behind with
                       | Some c => Some c
                       | None => w_fs before !! b
                       end)
  /\ (forall tmp, mkstemp_result last.1 = Some tmp ->
        calls_of (save_json_atomic json_dumps last.1 path last.2 bp) before
        = [Mkstemp tmp; WriteTmp tmp (json_dumps last.2) true;
           Copy2 path b (copy_outcome last.1); Replace tmp path true]).
Proof.
  intros Hb Hne Hall before w'.
  apply Forall_app in Hall as [_ Hall].
  apply Forall_cons in Hall as [(Htp & Hfp & Hsp) Hall].
  apply Forall_cons in Hall as [(Htl & Hfl & Hsl) _].
  destruct prev as [o1 d1], last as [o2 d2]. simpl in *.
  assert (w_fs before !! path = Some (json_dumps d1)) as Hprim.
  { subst before. rewrite save_all_app. simpl.
    destruct (save_json_atomic_calls json_dumps o1 path d1 bp
                (save_all json_dumps path bp earlier w) Htp) as [_ ->].
    apply writer_calls_succeeded_primary; assumption. }
  assert (w' = snd (save_json_atomic json_dumps o2 path d2 bp before)) as ->.
  { subst w' before.
    change [(o1, d1); (o2, d2)] with ([(o1, d1)] ++ [(o2, d2)]).
    rewrite app_assoc, (save_all_app path bp (earlier ++ [(o1, d1)])).
    reflexivity. }
  destruct (save_json_atomic_calls json_dumps o2 path d2 bp before Htl) as [-> ->].
  destruct (writer_succeeds_tmp o2 Hsl) as (tmp2 & Hm2).
  destruct (fresh_tmp_spec o2 path bp tmp2 Hfl Hm2) as [Htp2 Htb2].
  rewrite Hb in Htb2.
  assert (tmp2 <> b) as Htb2' by congruence.
  pose proof (writer_succeeds_backup o2 tmp2 path d2 bp b (w_fs before)
                (json_dumps d1) Hsl Hm2 Hb Hne Htp2 Htb2' Hprim) as Hback.
  split; [|split; [|split]].
  - apply writer_calls_succeeded_primary; assumption.
  - intros Hc. rewrite Hback, Hc. reflexivity.
  - intros l Hc. rewrite Hback, Hc. reflexivity.
  - intros tmp Hm. rewrite Hm in Hm2. injection Hm2 as ->.
    apply (writer_succeeds_calls o2 tmp2 path d2 bp b _ (json_dumps d1));
      assumption.
Qed.
End BackupClaims.
(** ** The acquisition loop *)

Lemma silent_nil : silent [].
Proof. repeat split. Qed.

Lemma silent_app evs1 evs2 : silent evs1 -> silent evs2 -> silent (evs1 ++ evs2).
Proof.
  intros (A1 & B1 & C1) (A2 & B2 & C2). unfold silent.
  rewrite assigns_app, backoff_delays_app, io_ops_app, A1, A2, B1, B2, C1, C2.
  repeat split.
Qed.

Lemma runs_poll_wait signal ticks k w :
  exists evs, runs (poll_wait signal ticks k) w (Ret tt) evs /\ silent evs.
Proof.
  revert k w. induction ticks as [|ticks IH]; intros k w.
  - exists []. split; [apply runs_ret | apply silent_nil].
  - assert (exists evs0,
        runs (match signal with
              | Some n => if (n <=? k)%nat then set_stop else ret tt
              | None => ret tt
              end) w (Ret tt) evs0 /\ silent evs0) as (evs0 & H0 & S0).
    { destruct signal as [n|]; [destruct (n <=? k)%nat|].
      - exists [EvStop]. split; [apply runs_emit | repeat split].
      - exists []. split; [apply runs_ret | apply silent_nil].
      - exists []. split; [apply runs_ret | apply silent_nil]. }
    cbn [poll_wait].
    destruct (stop_event (advance w evs0)) eqn:Hstop.
    + exists (evs0 ++ [] ++ []). split.
      * eapply runs_bind; [exact H0|].
        eapply runs_bind; [apply runs_is_set|].
        rewrite advance_nil, Hstop. apply runs_ret.
      * rewrite !app_nil_r. exact S0.
    + destruct (IH (S k) (advance (advance (advance w evs0) []) [EvSleep Tick]))
        as (evs1 & H1 & S1).
      exists (evs0 ++ [] ++ [EvSleep Tick] ++ evs1). split.
      * eapply runs_bind; [exact H0|].
        eapply runs_bind; [apply runs_is_set|].
        rewrite advance_nil, Hstop.
        eapply runs_bind; [apply runs_emit|].
        rewrite advance_nil in H1. exact H1.
      * apply silent_app; [exact S0|].
        apply (silent_app [EvSleep Tick]); [repeat split | exact S1].
Qed.

(** A step followed by steps that add no event. *)
Lemma runs_bind_tail {A B} (m : M A) (k : M B) w r rk evs :
  runs m w r evs -> (forall w', runs k w' rk []) ->
  runs (m ;;; k) w (match r with Ret _ => rk | Raise e => Raise e end) evs.
Proof.
  intros Hm Hk. destruct r as [a|e].
  - eapply runs_events; [eapply runs_bind; [exact Hm | apply Hk] | apply app_nil_r].
  - apply runs_bind_raise, Hm.
Qed.

Lemma runs_print_ret {B} ok (b : B) w :
  runs (py_print ok ;;; ret b) w
       (if ok then Ret b else Raise UnicodeEncodeError) [].
Proof. destruct ok; reflexivity. Qed.

Section LoopFacts.
Context {Tag : Type}.
Variable soup_select : pystr -> res (list Tag).
Variable get_text : Tag -> pystr.
Variable json_dumps : pydata -> pystr.

(** A save of a snapshot that holds data, followed by a print. *)
Lemma save_print_run ow ok data w :
  truthy data = true ->
  exists r,
    runs (save_json_atomic json_dumps ow JSON_FILE data (Some BACKUP_FILE) ;;;
          py_print ok) w r
         (map EvIO (writer_calls json_dumps ow JSON_FILE data (Some BACKUP_FILE)
                      (w_fs w)))
    /\ (writer_returns ow = true -> ok = true -> r = Ret tt)
    /\ (r = Ret tt ->
        writer_result json_dumps ow JSON_FILE data (Some BACKUP_FILE) (w_fs w)
        = Ret tt /\ ok = true).
Proof.
  intros Ht.
  pose proof (save_json_atomic_run json_dumps ow JSON_FILE data (Some BACKUP_FILE)
                w Ht) as Hsave.
  pose proof (writer_returns_result json_dumps ow JSON_FILE data (Some BACKUP_FILE)
                (w_fs w)) as Hret.
  eexists. split; [|split].
  - apply (runs_bind_tail _ (py_print ok) w _
             (if ok then Ret tt else Raise UnicodeEncodeError) _ Hsave).
    intros w'. apply runs_print.
  - intros Hw ->. rewrite (Hret Hw). reflexivity.
  - destruct (writer_result _ _ _ _ _ _) as [[]|e]; [|discriminate].
    destruct ok; [split; reflexivity | discriminate].
Qed.

(** The handler: the message, the re-save and its message under the
    lock, the sleep, the doubling. *)
Lemma loop_handler_run o st w :
  exists r evs,
    runs (loop_handler json_dumps o st) w r evs
    /\ assigns evs = []
    /\ match r with
       | Ret st' =>
           backoff_delays evs = [py_min_30 (backoff st)]
           /\ st' = mkLocals false (py_double (backoff st))
       | Raise _ => backoff_delays evs = []
       end
    /\ (handler_returns o = true -> is_ret r = true)
    /\ (o_print o PrintCaught = true -> truthy (latest_data w) = false ->
        is_ret r = true).
Proof.
  unfold loop_handler, handler_returns.
  destruct (o_print o PrintCaught) eqn:Hcaught.
  2:{ exists (Raise UnicodeEncodeError), [].
      split; [apply runs_bind_raise, runs_raise|].
      repeat split; discriminate. }
  cbn [py_print andb].
  assert (exists r0 ops,
             runs (with_lock
                     (data <- read_latest_data ;;
                      if truthy data
                      then save_json_atomic json_dumps (o_resave o) JSON_FILE data
                             (Some BACKUP_FILE) ;;;
                           py_print (o_print o PrintAfterError)
                      else ret tt)) w r0
                  (EvAcquire :: map EvIO ops ++ [EvRelease])
             /\ (writer_returns (o_resave o) && o_print o PrintAfterError = true ->
                 r0 = Ret tt)
             /\ (truthy (latest_data w) = false -> r0 = Ret tt))
    as (r0 & ops & Hlock & Hok & Hempty).
  { destruct (truthy (latest_data w)) eqn:Ht.
    - destruct (save_print_run (o_resave o) (o_print o PrintAfterError)
                  (latest_data w) (advance w [EvAcquire]) Ht)
        as (r0 & Hrun & Hgood & _).
      exists r0, (writer_calls json_dumps (o_resave o) JSON_FILE (latest_data w)
                    (Some BACKUP_FILE) (w_fs w)).
      split; [|split; [|discriminate]].
      + apply runs_with_lock. eapply runs_bind_nil; [apply runs_read|].
        change (latest_data (advance w [EvAcquire])) with (latest_data w).
        rewrite Ht. exact Hrun.
      + intros H. apply andb_true_iff in H as [H1 H2]. apply Hgood; assumption.
    - exists (Ret tt), []. split; [|split; reflexivity].
      apply (runs_with_lock _ _ _ []). eapply runs_bind_nil; [apply runs_read|].
      change (latest_data (advance w [EvAcquire])) with (latest_data w).
      rewrite Ht. apply runs_ret. }
  set (evs0 := EvAcquire :: map EvIO ops ++ [EvRelease]) in *.
  assert (assigns evs0 = [] /\ backoff_delays evs0 = []) as [Ha Hb].
  { subst evs0. simpl.
    rewrite assigns_app, backoff_delays_app, assigns_map_io, backoff_delays_map_io.
    split; reflexivity. }
  destruct r0 as [[]|e].
  - exists (Ret (mkLocals false (py_double (backoff st)))),
      (evs0 ++ [EvSleep (Backoff (py_min_30 (backoff st)))] ++ []).
    split; [|split; [|split; [|split]]].
    + eapply runs_bind_nil; [apply runs_ret|].
      eapply runs_bind; [exact Hlock|].
      eapply runs_bind; [apply runs_emit | apply runs_ret].
    + rewrite assigns_app, Ha. reflexivity.
    + rewrite backoff_delays_app, Hb. split; reflexivity.
    + reflexivity.
    + reflexivity.
  - exists (Raise e), evs0.
    split; [|split; [|split; [|split]]].
    + eapply runs_bind_nil; [apply runs_ret|].
      apply runs_bind_raise, Hlock.
    + exact Ha.
    + exact Hb.
    + intros H. specialize (Hok H). discriminate.
    + intros _ Ht. specialize (Hempty Ht). discriminate.
Qed.
End LoopFacts.

Section BodyFacts.
Context {Tag : Type}.
Variable soup_select : pystr -> res (list Tag).
Variable get_text : Tag -> pystr.
Variable json_dumps : pydata -> pystr.

(** The branch of the body taken after an empty extraction. *)
Lemma empty_branch_run o st w :
  exists r evs,
    runs (to_save <- with_lock (data <- read_latest_data ;; ret (py_copy data)) ;;
          (if truthy to_save
           then save_json_atomic json_dumps (o_save o) JSON_FILE to_save
                  (Some BACKUP_FILE) ;;;
                py_print (o_print o PrintResaved)
           else py_print (o_print o PrintNoSnapshot)) ;;;
          ret (backoff st)) w r evs
    /\ assigns evs = [] /\ backoff_delays evs = []
    /\ (forall b, r = Ret b -> b = backoff st).
Proof.
  assert (runs (with_lock (data <- read_latest_data ;; ret (py_copy data))) w
            (Ret (latest_data w)) (EvAcquire :: ([] ++ []) ++ [EvRelease])) as Hcopy.
  { apply runs_with_lock.
    eapply runs_bind; [apply runs_read | apply runs_ret]. }
  simpl in Hcopy.
  assert (exists r0 ops,
             runs (if truthy (latest_data w)
                   then save_json_atomic json_dumps (o_save o) JSON_FILE
                          (latest_data w) (Some BACKUP_FILE) ;;;
                        py_print (o_print o PrintResaved)
                   else py_print (o_print o PrintNoSnapshot))
                  (advance w [EvAcquire; EvRelease]) r0 (map EvIO ops))
    as (r0 & ops & Hstep).
  { destruct (truthy (latest_data w)) eqn:Ht.
    - destruct (save_print_run json_dumps (o_save o) (o_print o PrintResaved)
                  (latest_data w) (advance w [EvAcquire; EvRelease]) Ht)
        as (r0 & Hrun & _).
      eexists _, _. exact Hrun.
    - eexists _, []. apply runs_print. }
  pose proof (runs_bind_tail _ (ret (backoff st)) _ _ (Ret (backoff st)) _ Hstep
                (fun w' => runs_ret (backoff st) w')) as Htail.
  eexists _, ([EvAcquire; EvRelease] ++ map EvIO ops).
  split; [|split; [|split]].
  - eapply runs_bind; [exact Hcopy | exact Htail].
  - rewrite assigns_app, assigns_map_io. reflexivity.
  - rewrite backoff_delays_app, backoff_delays_map_io. reflexivity.
  - intros b. destruct r0; [intros [= <-]; reflexivity | discriminate].
Qed.

(** The branch of the body taken after a non-empty extraction. *)
Lemma full_branch_run o x xs w :
  exists r evs,
    runs (with_lock (assign_latest_data (DList (x :: xs))) ;;;
          data <- read_latest_data ;;
          save_json_atomic json_dumps (o_save o) JSON_FILE data (Some BACKUP_FILE) ;;;
          py_print (o_print o PrintSaved) ;;;
          ret (FFin 1)) w r evs
    /\ assigns evs = [DList (x :: xs)] /\ backoff_delays evs = []
    /\ (forall b, r = Ret b -> b = FFin 1)
    /\ (writer_returns (o_save o) = true -> o_print o PrintSaved = true ->
        is_ret r = true).
Proof.
  set (d := DList (x :: xs)).
  assert (runs (with_lock (assign_latest_data d)) w (Ret tt)
            [EvAcquire; EvAssign d; EvRelease]) as Hassign.
  { apply (runs_with_lock _ _ _ [EvAssign d]), runs_emit. }
  set (w1 := advance w [EvAcquire; EvAssign d; EvRelease]).
  pose proof (save_json_atomic_run json_dumps (o_save o) JSON_FILE d
                (Some BACKUP_FILE) w1 eq_refl) as Hsave.
  pose proof (writer_returns_result json_dumps (o_save o) JSON_FILE d
                (Some BACKUP_FILE) (w_fs w1)) as Hgood.
  set (ops := writer_calls json_dumps (o_save o) JSON_FILE d (Some BACKUP_FILE)
                (w_fs w1)) in *.
  pose proof (runs_bind_tail _ (py_print (o_print o PrintSaved) ;;; ret (FFin 1))
                _ _ _ _ Hsave
                (fun w' => runs_print_ret (o_print o PrintSaved) (FFin 1) w'))
    as Htail.
  eexists _, ([EvAcquire; EvAssign d; EvRelease] ++ map EvIO ops).
  split; [|split; [|split; [|split]]].
  - eapply runs_bind; [exact Hassign|].
    eapply runs_bind_nil; [apply runs_read | exact Htail].
  - rewrite assigns_app, assigns_map_io. reflexivity.
  - rewrite backoff_delays_app, backoff_delays_map_io. reflexivity.
  - intros b. destruct (writer_result _ _ _ _ _ _); [|discriminate].
    destruct (o_print o PrintSaved); [intros [= <-]; reflexivity | discriminate].
  - intros Hw Hp. rewrite (Hgood Hw), Hp. reflexivity.
Qed.
End BodyFacts.

Section IterationFacts.
Context {Tag : Type}.
Variable soup_select : pystr -> res (list Tag).
Variable get_text : Tag -> pystr.
Variable json_dumps : pydata -> pystr.

Abbreviation body := (loop_body soup_select get_text json_dumps).
Abbreviation iteration := (scrape_iteration soup_select get_text json_dumps).
Abbreviation page_ext := (page_extraction soup_select get_text).
Abbreviation ext := (extraction soup_select get_text).

(** A branch of the body followed by the poll wait. *)
Lemma branch_then_poll (branch : M pyfloat) signal w r evs :
  runs branch w r evs -> backoff_delays evs = [] ->
  exists r' evs',
    runs (backoff' <- branch ;;
          poll_wait signal POLL_TICKS 0 ;;;
          ret (mkLocals true backoff')) w r' evs'
    /\ backoff_delays evs' = []
    /\ assigns evs' = assigns evs
    /\ (forall st', r' = Ret st' -> exists b, r = Ret b /\ st' = mkLocals true b)
    /\ is_ret r' = is_ret r.
Proof.
  intros Hrun Hb. destruct r as [b|e].
  - destruct (runs_poll_wait signal POLL_TICKS 0 (advance w evs))
      as (evsP & HP & SaP & SbP & _).
    exists (Ret (mkLocals true b)), (evs ++ evsP ++ []).
    split; [|split; [|split; [|split]]].
    + eapply runs_bind; [exact Hrun|].
      eapply runs_bind; [exact HP | apply runs_ret].
    + rewrite !backoff_delays_app, Hb, SbP. reflexivity.
    + rewrite !assigns_app, SaP, !app_nil_r. reflexivity.
    + intros st' [= <-]. eauto.
    + reflexivity.
  - exists (Raise e), evs.
    split; [|split; [|split; [|split]]].
    + apply runs_bind_raise, Hrun.
    + exact Hb.
    + reflexivity.
    + intros st' [=].
    + reflexivity.
Qed.

(** The body from [html = driver.page_source] on. *)
Lemma body_tail_run o st w :
  exists r evs,
    runs (html <- match o_page_source o with
                  | Some h => ret h
                  | None => raise WebDriverException
                  end ;;
          parsed <- lift (parse_market_from_html soup_select get_text html) ;;
          backoff' <-
            match parsed with
            | _ :: _ =>
                with_lock (assign_latest_data (DList parsed)) ;;;
                data <- read_latest_data ;;
                save_json_atomic json_dumps (o_save o) JSON_FILE data
                  (Some BACKUP_FILE) ;;;
                py_print (o_print o PrintSaved) ;;;
                ret (FFin 1)
            | [] =>
                to_save <- with_lock (data <- read_latest_data ;;
                                      ret (py_copy data)) ;;
                (if truthy to_save
                 then save_json_atomic json_dumps (o_save o) JSON_FILE to_save
                        (Some BACKUP_FILE) ;;;
                      py_print (o_print o PrintResaved)
                 else py_print (o_print o PrintNoSnapshot)) ;;;
                ret (backoff st)
            end ;;
          poll_wait (o_signal o) POLL_TICKS 0 ;;;
          ret (mkLocals true backoff')) w r evs
    /\ backoff_delays evs = []
    /\ assigns evs = turn_assigns (page_ext o)
    /\ (forall st', r = Ret st' ->
                    st' = mkLocals true (turn_backoff (page_ext o) (backoff st)))
    /\ (page_ext o = None -> is_ret r = false)
    /\ (forall x xs, page_ext o = Some (x :: xs) ->
          writer_returns (o_save o) = true -> o_print o PrintSaved = true ->
          is_ret r = true).
Proof.
  unfold page_extraction.
  destruct (o_page_source o) as [h|].
  2:{ exists (Raise WebDriverException), [].
      split; [apply runs_bind_raise, runs_raise|].
      repeat split; (discriminate || reflexivity). }
  destruct (parse_market_from_html soup_select get_text h) as [records|e] eqn:Hparse.
  2:{ exists (Raise e), [].
      split.
      - eapply runs_bind_nil; [apply runs_ret|]. cbv beta. rewrite Hparse.
        apply runs_bind_raise, runs_lift.
      - repeat split; (discriminate || reflexivity). }
  destruct records as [|x xs].
  - destruct (empty_branch_run json_dumps o st w) as (r & evs & Hrun & Ha & Hb & Hr).
    destruct (branch_then_poll _ (o_signal o) w r evs Hrun Hb)
      as (r' & evs' & Hrun' & Hb' & Ha' & Hst & _).
    exists r', evs'. split; [|split; [|split; [|split; [|split]]]].
    + eapply runs_bind_nil; [apply runs_ret|]. cbv beta. rewrite Hparse.
      eapply runs_bind_nil; [apply runs_lift|]. exact Hrun'.
    + exact Hb'.
    + rewrite Ha', Ha. reflexivity.
    + intros st' Hret. destruct (Hst st' Hret) as (b & Hrb & ->).
      rewrite (Hr b Hrb). reflexivity.
    + discriminate.
    + discriminate.
  - destruct (full_branch_run json_dumps o x xs w)
      as (r & evs & Hrun & Ha & Hb & Hr & Hgood).
    destruct (branch_then_poll _ (o_signal o) w r evs Hrun Hb)
      as (r' & evs' & Hrun' & Hb' & Ha' & Hst & Hisret).
    exists r', evs'. split; [|split; [|split; [|split; [|split]]]].
    + eapply runs_bind_nil; [apply runs_ret|]. cbv beta. rewrite Hparse.
      eapply runs_bind_nil; [apply runs_lift|]. exact Hrun'.
    + exact Hb'.
    + rewrite Ha', Ha. reflexivity.
    + intros st' Hret. destruct (Hst st' Hret) as (b & Hrb & ->).
      rewrite (Hr b Hrb). reflexivity.
    + discriminate.
    + intros x' xs' _ Hw Hp. rewrite Hisret. apply Hgood; assumption.
Qed.

Lemma loop_body_run o st w :
  exists r evs,
    runs (body o st) w r evs
    /\ backoff_delays evs = []
    /\ assigns evs = turn_assigns (ext o st)
    /\ (forall st', r = Ret st' ->
                    st' = mkLocals true (turn_backoff (ext o st) (backoff st)))
    /\ (ext o st = None -> is_ret r = false)
    /\ (forall x xs, ext o st = Some (x :: xs) ->
          writer_returns (o_save o) = true -> o_print o PrintSaved = true ->
          is_ret r = true).
Proof.
  unfold loop_body, extraction.
  destruct (body_tail_run o st w) as (r & evs & Hrun & Hb & Ha & Hr & Hnone & Hgood).
  destruct (body_tail_run o st (advance w [EvSleep InitialLoad]))
    as (r1 & evs1 & Hrun1 & Hb1 & Ha1 & Hr1 & Hnone1 & Hgood1).
  destruct (driver st).
  - exists r, evs. split; [|repeat split; assumption].
    eapply runs_bind_nil; [apply runs_ret | exact Hrun].
  - cbn [orb]. destruct (o_print o PrintStarting).
    2:{ exists (Raise UnicodeEncodeError), [].
        split; [apply runs_bind_raise, runs_bind_raise, runs_raise|].
        repeat split; (discriminate || reflexivity). }
    cbn [andb]. destruct (o_create o).
    + exists (Raise WebDriverException), [].
      split.
      * apply runs_bind_raise. eapply runs_bind_nil; [apply runs_ret|].
        apply runs_raise.
      * repeat split; (discriminate || reflexivity).
    + exists (Raise WebDriverException), [].
      split.
      * apply runs_bind_raise. eapply runs_bind_nil; [apply runs_ret|].
        apply runs_raise.
      * repeat split; (discriminate || reflexivity).
    + exists r1, ([EvSleep InitialLoad] ++ evs1).
      split; [|split; [|split; [|split; [|split]]]].
      * eapply runs_bind; [|exact Hrun1].
        eapply runs_bind_nil; [apply runs_ret | apply runs_emit].
      * rewrite backoff_delays_app, Hb1. reflexivity.
      * rewrite assigns_app, Ha1. reflexivity.
      * exact Hr1.
      * exact Hnone1.
      * exact Hgood1.
Qed.

Lemma runs_deliver_signal signal w :
  exists evs, runs (deliver_signal signal) w (Ret tt) evs /\ silent evs.
Proof.
  destruct signal.
  - exists [EvStop]. split; [apply runs_emit | repeat split].
  - exists []. split; [apply runs_ret | apply silent_nil].
Qed.

(** One turn of the loop: what it assigns, how long it backs off and
    which locals it leaves, by what the Extractor returned. *)
Lemma scrape_iteration_run o st w :
  exists r evs,
    runs (iteration o st) w r evs
    /\ assigns evs = turn_assigns (ext o st)
    /\ match r with
       | Ret st' =>
           (backoff_delays evs = []
            /\ st' = mkLocals true (turn_backoff (ext o st) (backoff st)))
           \/ (backoff_delays evs = [py_min_30 (backoff st)]
               /\ st' = mkLocals false (py_double (backoff st)))
       | Raise _ => backoff_delays evs = []
       end
    /\ (forall x xs, ext o st = Some (x :: xs) ->
          writer_returns (o_save o) = true -> o_print o PrintSaved = true ->
          r = Ret (mkLocals true (FFin 1)) /\ backoff_delays evs = [])
    /\ (ext o st = None -> handler_returns o = true ->
        r = Ret (mkLocals false (py_double (backoff st)))
        /\ backoff_delays evs = [py_min_30 (backoff st)])
    /\ (handler_returns o = true -> is_ret r = true).
Proof.
  unfold scrape_iteration.
  destruct (loop_body_run o st w)
    as (rb & evsb & Hbody & Hb & Ha & Hst & Hnone & Hgood).
  destruct rb as [st'|e].
  - destruct (runs_deliver_signal (o_signal o) (advance w evsb))
      as (evsS & HS & SaS & SbS & _).
    exists (Ret st'), (evsb ++ evsS ++ []).
    split; [|split; [|split; [|split; [|split]]]].
    + eapply runs_bind; [apply runs_try, Hbody|].
      eapply runs_bind; [exact HS | apply runs_ret].
    + rewrite !assigns_app, Ha, SaS, !app_nil_r. reflexivity.
    + left. rewrite !backoff_delays_app, Hb, SbS. split; [reflexivity|].
      apply Hst. reflexivity.
    + intros x xs Hext _ _. rewrite (Hst st' eq_refl), Hext.
      rewrite !backoff_delays_app, Hb, SbS. split; reflexivity.
    + intros Hext _. specialize (Hnone Hext). discriminate.
    + reflexivity.
  - destruct (loop_handler_run json_dumps o st (advance w evsb))
      as (rh & evsh & Hh & Hah & Hbh & Hret & _).
    destruct rh as [st'|e'].
    + destruct (runs_deliver_signal (o_signal o) (advance w (evsb ++ evsh)))
        as (evsS & HS & SaS & SbS & _).
      destruct Hbh as [Hbh ->].
      exists (Ret (mkLocals false (py_double (backoff st)))),
        ((evsb ++ evsh) ++ evsS ++ []).
      split; [|split; [|split; [|split; [|split]]]].
      * eapply runs_bind; [eapply runs_try_raise; [exact Hbody | exact Hh]|].
        eapply runs_bind; [exact HS | apply runs_ret].
      * rewrite !assigns_app, Ha, Hah, SaS, !app_nil_r. reflexivity.
      * right. rewrite !backoff_delays_app, Hb, Hbh, SbS. split; reflexivity.
      * intros x xs Hext Hw Hp. specialize (Hgood x xs Hext Hw Hp). discriminate.
      * intros _ _. rewrite !backoff_delays_app, Hb, Hbh, SbS. split; reflexivity.
      * reflexivity.
    + exists (Raise e'), (evsb ++ evsh).
      split; [|split; [|split; [|split; [|split]]]].
      * apply runs_bind_raise. eapply runs_try_raise; [exact Hbody | exact Hh].
      * rewrite assigns_app, Ha, Hah, app_nil_r. reflexivity.
      * rewrite backoff_delays_app, Hb, Hbh. reflexivity.
      * intros x xs Hext Hw Hp. specialize (Hgood x xs Hext Hw Hp). discriminate.
      * intros _ Hr. specialize (Hret Hr). discriminate.
      * exact Hret.
Qed.

(** An exception leaves a turn only from the handler: from its first
    print, from its save (the calls before the [try] of the writer, or
    the print of the writer's own handler) or from the print after the
    save. *)
Lemma scrape_iteration_raises_only_from_handler o st w e :
  fst (iteration o st w) = Raise e -> handler_returns o = false.
Proof.
  destruct (scrape_iteration_run o st w)
    as (r & evs & Hrun & _ & _ & _ & _ & Hcause).
  rewrite (runs_fst _ _ _ _ Hrun). intros ->.
  destruct (handler_returns o); [|reflexivity].
  specialize (Hcause eq_refl). discriminate.
Qed.
End IterationFacts.
(** ** The snapshot store *)

Section StoreClaims.
Context {Tag : Type}.
Variable soup_select : pystr -> res (list Tag).
Variable get_text : Tag -> pystr.
Variable json_dumps : pydata -> pystr.

Abbreviation iteration := (scrape_iteration soup_select get_text json_dumps).
Abbreviation ext := (extraction soup_select get_text).

Lemma turn_assigns_truthy e : Forall (fun d => truthy d = true) (turn_assigns e).
Proof.
  destruct e as [[|x xs]|]; simpl; repeat constructor.
Qed.

Lemma run_step_events s st w :
  exists evs,
    snd (run_step soup_select get_text json_dumps s st w) = advance w evs
    /\ Forall (fun d => truthy d = true) (assigns evs).
Proof.
  unfold run_step. destruct (stop_event w).
  { exists []. split; [reflexivity | constructor]. }
  destruct s as [o|d ok].
  - destruct st as [l|]; [|exists []; split; [reflexivity | constructor]].
    destruct (scrape_iteration_run soup_select get_text json_dumps o l w)
      as (r & evs & Hrun & Ha & _).
    exists evs. rewrite Hrun, Ha. split; [|apply turn_assigns_truthy].
    destruct r; reflexivity.
  - destruct ok.
    + exists [EvAcquire; EvAssign (DDict d); EvRelease; EvSleep Poll].
      split; [reflexivity | repeat constructor].
    + exists [EvAcquire; EvAssign (DDict d); EvRelease].
      split; [reflexivity | repeat constructor].
Qed.

Lemma run_steps_events steps st w :
  exists evs,
    snd (run_steps soup_select get_text json_dumps steps st w) = advance w evs
    /\ Forall (fun d => truthy d = true) (assigns evs).
Proof.
  revert st w. induction steps as [|s steps IH]; intros st w.
  - exists []. split; [reflexivity | constructor].
  - cbn [run_steps].
    destruct (run_step_events s st w) as (evs1 & H1 & F1).
    destruct (run_step soup_select get_text json_dumps s st w) as [st1 w1].
    simpl in H1. subst w1.
    destruct (IH st1 (advance w evs1)) as (evs2 & H2 & F2).
    exists (evs1 ++ evs2). rewrite H2, advance_app. split; [reflexivity|].
    rewrite assigns_app. apply Forall_app. split; assumption.
Qed.

(** C1.  Take any interleaving of turns of the two update loops, with
    any answers of the outside world, started with a store that holds
    data: the store holds data at the end, and every value assigned to
    [latest_data] on the way holds data, so the store is at no point
    replaced by an empty sequence.  A turn of [scrape_loop] whose
    extraction is empty leaves the store exactly as it was. *)
Theorem store_never_regresses :
  (forall steps st w,
      truthy (latest_data w) = true ->
      let w' := snd (run_steps soup_select get_text json_dumps steps st w) in
      truthy (latest_data w') = true
      /\ Forall (fun d => truthy d = true)
                (assigns (drop (length (w_trace w)) (w_trace w'))))
  /\ (forall o st w,
        ext o st = Some [] ->
        latest_data (snd (iteration o st w)) = latest_data w
        /\ assigns (events_of (iteration o st) w) = []).
Proof.
  split.
  - intros steps st w Ht w'. subst w'.
    destruct (run_steps_events steps st w) as (evs & -> & Hall).
    rewrite trace_advance, drop_app_length, latest_advance.
    split; [|exact Hall].
    destruct (last (assigns evs)) as [d|] eqn:Hlast; simpl; [|exact Ht].
    rewrite Forall_forall in Hall. apply Hall.
    apply last_Some_elem_of in Hlast. exact Hlast.
  - intros o st w Hext.
    destruct (scrape_iteration_run soup_select get_text json_dumps o st w)
      as (r & evs & Hrun & Ha & _).
    rewrite Hext in Ha.
    rewrite (runs_events_of _ _ _ _ Hrun), (runs_snd _ _ _ _ Hrun).
    rewrite latest_advance, Ha. split; reflexivity.
Qed.
End StoreClaims.

(** ** The query interface *)

(** C7.  [GET /latest] answers 503 with an error body when the store is
    empty; otherwise it answers 200 with the time stamp, a count equal to
    [len(latest_data)] (for a list of records: their number) and the
    stored snapshot as data.  It reads under the lock and changes neither
    the store nor the files. *)
Theorem get_latest_contract now w :
  (truthy (latest_data w) = false ->
     fst (get_latest now w) = Ret (503, ErrorBody (py "No data yet")))
  /\ (truthy (latest_data w) = true ->
        fst (get_latest now w)
        = Ret (200, LatestBody now (py_len (latest_data w)) (latest_data w)))
  /\ (forall x xs, latest_data w = DList (x :: xs) ->
        fst (get_latest now w)
        = Ret (200, LatestBody now (Z.of_nat (length (x :: xs))) (DList (x :: xs))))
  /\ snd (get_latest now w) = advance w [EvAcquire; EvRelease].
Proof.
  unfold get_latest, with_lock, bind, read_latest_data.
  change (latest_data (effect EvAcquire w)) with (latest_data w).
  split; [|split; [|split]].
  - intros ->. reflexivity.
  - intros ->. reflexivity.
  - intros x xs ->. reflexivity.
  - destruct (truthy (latest_data w)); reflexivity.
Qed.

(** ** Back-off *)

Lemma py_min_30_pow2 k : py_min_30 (float_pow2 k) = nth_delay k.
Proof.
  unfold py_min_30, float_pow2, nth_delay.
  destruct (Z.of_nat k <? 1024) eqn:Hk.
  - destruct (30 <? 2 ^ Z.of_nat k) eqn:Hc.
    + apply Z.ltb_lt in Hc. lia.
    + apply Z.ltb_ge in Hc. lia.
  - apply Z.ltb_ge in Hk.
    assert (2 ^ 5 <= 2 ^ Z.of_nat k) by (apply Z.pow_le_mono_r; lia).
    change (2 ^ 5) with 32 in *. lia.
Qed.

Lemma py_double_pow2 k : py_double (float_pow2 k) = float_pow2 (S k).
Proof.
  unfold py_double, float_pow2.
  replace (Z.of_nat (S k)) with (Z.of_nat k + 1) by lia.
  rewrite Z.pow_add_r by lia. change (2 ^ 1) with 2.
  destruct (Z.of_nat k <? 1024) eqn:Hk.
  - apply Z.ltb_lt in Hk.
    destruct (Z.of_nat k + 1 <? 1024) eqn:Hk1.
    + apply Z.ltb_lt in Hk1.
      assert (2 ^ (Z.of_nat k + 1) < 2 ^ 1024) as Hlt
        by (apply Z.pow_lt_mono_r; lia).
      rewrite Z.pow_add_r in Hlt by lia. change (2 ^ 1) with 2 in Hlt.
      rewrite (proj2 (Z.ltb_lt _ _)) by lia.
      f_equal. lia.
    + apply Z.ltb_ge in Hk1. assert (Z.of_nat k = 1023) as -> by lia.
      rewrite (proj2 (Z.ltb_ge _ _)); [reflexivity|].
      change 1024 with (1023 + 1). rewrite Z.pow_add_r by lia.
      change (2 ^ 1) with 2. lia.
  - apply Z.ltb_ge in Hk. rewrite (proj2 (Z.ltb_ge _ _)) by lia. reflexivity.
Qed.

Lemma nth_delay_bounds k : 1 <= nth_delay k <= 30.
Proof.
  unfold nth_delay.
  assert (0 < 2 ^ Z.of_nat k) by (apply Z.pow_pos_nonneg; lia). lia.
Qed.

Lemma nth_delay_mono k : nth_delay k <= nth_delay (S k).
Proof.
  unfold nth_delay.
  assert (2 ^ Z.of_nat k <= 2 ^ Z.of_nat (S k)) by (apply Z.pow_le_mono_r; lia).
  lia.
Qed.

Lemma nth_delay_mono_le j k : (j <= k)%nat -> nth_delay j <= nth_delay k.
Proof.
  induction 1 as [|k _ IH]; [lia|].
  pose proof (nth_delay_mono k). lia.
Qed.

Lemma delays_sorted k n :
  Sorted Z.le (map (fun i => nth_delay (k + i)) (seq 0 n)).
Proof.
  assert (forall s, Sorted Z.le (map (fun i => nth_delay (k + i)) (seq s n))) as H.
  { induction n as [|n IH]; intros s; simpl; constructor.
    - apply IH.
    - destruct n; simpl; constructor. apply nth_delay_mono_le. lia. }
  apply H.
Qed.

Lemma delays_shift k n :
  nth_delay k :: map (fun i => nth_delay (S k + i)) (seq 0 n)
  = map (fun i => nth_delay (k + i)) (seq 0 (S n)).
Proof.
  cbn [seq map]. rewrite Nat.add_0_r. f_equal.
  rewrite <- seq_shift, map_map. apply map_ext. intros i. f_equal. lia.
Qed.

Section BackoffClaims.
Context {Tag : Type}.
Variable soup_select : pystr -> res (list Tag).
Variable get_text : Tag -> pystr.
Variable json_dumps : pydata -> pystr.

Abbreviation iteration := (scrape_iteration soup_select get_text json_dumps).
Abbreviation loop_from := (scrape_loop_from soup_select get_text json_dumps).
Abbreviation page_ext := (page_extraction soup_select get_text).
Abbreviation ext := (extraction soup_select get_text).

Lemma quiet_page_quiet_turn o st :
  page_ext o = None \/ page_ext o = Some [] ->
  turn_backoff (ext o st) (backoff st) = backoff st.
Proof.
  unfold extraction. intros Hq.
  destruct (driver st || _); [|reflexivity].
  destruct Hq as [-> | ->]; reflexivity.
Qed.

Lemma no_page_no_extraction o st : page_ext o = None -> ext o st = None.
Proof.
  unfold extraction. intros ->. destruct (driver st || _); reflexivity.
Qed.

(** A run of the loop in which the Extractor never returns a record:
    the delays follow the doubling sequence from where [backoff] is,
    one delay at most for each turn. *)
Lemma scrape_loop_delays os k st w :
  backoff st = float_pow2 k ->
  Forall (fun o => page_ext o = None \/ page_ext o = Some []) os ->
  exists r evs n,
    runs (loop_from os st) w r evs
    /\ backoff_delays evs = map (fun i => nth_delay (k + i)) (seq 0 n)
    /\ (n <= length os)%nat.
Proof.
  revert k st w. induction os as [|o os IH]; intros k st w Hk Hquiet.
  - exists (Ret (if stop_event w then Stopped else Running st)), [], 0%nat.
    split; [|split; [reflexivity | simpl; lia]].
    unfold runs. simpl. unfold bind, is_set.
    destruct (stop_event w); reflexivity.
  - apply Forall_cons in Hquiet as [Hq Hquiet].
    cbn [scrape_loop_from].
    destruct (stop_event w) eqn:Hstop.
    { exists (Ret Stopped), ([] ++ []), 0%nat.
      split; [|split; [reflexivity | simpl; lia]].
      eapply runs_bind; [apply runs_is_set|]. rewrite Hstop. apply runs_ret. }
    destruct (scrape_iteration_run soup_select get_text json_dumps o st w)
      as (r & evs & Hrun & _ & Hshape & _).
    destruct r as [st'|e].
    + destruct Hshape as [[Hd ->] | [Hd ->]].
      * destruct (IH k (mkLocals true (turn_backoff (ext o st) (backoff st)))
                    (advance w evs)) as (r2 & evs2 & n & Hrun2 & Hd2 & Hn).
        { simpl. rewrite quiet_page_quiet_turn by exact Hq. exact Hk. }
        { exact Hquiet. }
        exists r2, ([] ++ evs ++ evs2), n. split; [|split].
        -- eapply runs_bind; [apply runs_is_set|]. rewrite Hstop.
           eapply runs_bind; [exact Hrun | exact Hrun2].
        -- simpl. rewrite backoff_delays_app, Hd, Hd2. reflexivity.
        -- simpl. lia.
      * destruct (IH (S k) (mkLocals false (py_double (backoff st)))
                    (advance w evs)) as (r2 & evs2 & n & Hrun2 & Hd2 & Hn).
        { simpl. rewrite Hk. apply py_double_pow2. }
        { exact Hquiet. }
        exists r2, ([] ++ evs ++ evs2), (S n). split; [|split].
        -- eapply runs_bind; [apply runs_is_set|]. rewrite Hstop.
           eapply runs_bind; [exact Hrun | exact Hrun2].
        -- simpl app. rewrite backoff_delays_app, Hd, Hd2, Hk, py_min_30_pow2.
           apply delays_shift.
        -- simpl. lia.
    + exists (Raise e), ([] ++ evs), 0%nat. split; [|split].
      * eapply runs_bind; [apply runs_is_set|]. rewrite Hstop.
        apply runs_bind_raise, Hrun.
      * exact Hshape.
      * lia.
Qed.

End BackoffClaims.

(** * The model on concrete inputs *)

Section Worked.
Import Toy.

Abbreviation toy_save := (save_json_atomic json_dumps).
Abbreviation toy_iteration := (scrape_iteration soup_select get_text json_dumps).
Abbreviation toy_loop := (scrape_loop soup_select get_text json_dumps).
Abbreviation toy_loop_from := (scrape_loop_from soup_select get_text json_dumps).

Example parse_two_rows :
  parse_market_from_html soup_select get_text page2 = Ret [btc; eth].
Proof. vm_compute. reflexivity. Qed.

Example three_failures_then_a_fourth_attempt :
  backoff_delays
    (events_of (toy_loop [turn_fetch_raises; turn_fetch_raises; turn_fetch_raises;
                          turn_one_record] true) empty_world)
  = [1; 2; 4].
Proof. vm_compute. reflexivity. Qed.

Example latest_after_one_record :
  fst (get_latest (py "2024-01-01 00:00:00")
         (snd (toy_loop [turn_one_record] true empty_world)))
  = Ret (200, LatestBody (py "2024-01-01 00:00:00") 1 (DList [btc])).
Proof. vm_compute. reflexivity. Qed.

(** With a standard output that cannot encode the warning sign, a page
    without rows ends the loop: the print of line 167 raises in the
    [try] body, the print of line 176 raises in the handler. *)
Example ascii_stdout_ends_the_loop :
  toy_loop [turn_no_row_ascii; turn_one_record] true empty_world
  = (Raise UnicodeEncodeError,
     advance empty_world [EvSleep InitialLoad; EvAcquire; EvRelease]).
Proof. vm_compute. reflexivity. Qed.

(** ** Where the code departs from a claim *)

(** C2, the claim as first stated fails: a failure before the rename
    can leave the temporary file behind.  A crash right after
    [mkstemp] leaves the empty temporary file (the rename has not been
    made); and when the dump raises and [os.remove] raises too, the
    writer returns with the half-written temporary file still there. *)
Lemma temp_file_left_behind :
  (rename_done JSON_FILE
     (take 1 (calls_of (toy_save (writer_ok tmp1) JSON_FILE (DList [btc])
                          (Some BACKUP_FILE)) warm_world)) = false
   /\ replay (take 1 (calls_of (toy_save (writer_ok tmp1) JSON_FILE (DList [btc])
                                 (Some BACKUP_FILE)) warm_world))
             (w_fs warm_world) !! tmp1 = Some [])
  /\ (rename_done JSON_FILE
        (calls_of (toy_save writer_stuck JSON_FILE (DList [btc])
                     (Some BACKUP_FILE)) warm_world) = false
      /\ toy_save writer_stuck JSON_FILE (DList [btc]) (Some BACKUP_FILE)
           warm_world
         = (Ret tt,
            advance warm_world
              [EvIO (Mkstemp tmp1); EvIO (WriteTmp tmp1 (py "[") false);
               EvIO (Remove tmp1 false)])
      /\ w_fs (snd (toy_save writer_stuck JSON_FILE (DList [btc])
                      (Some BACKUP_FILE) warm_world)) !! tmp1 = Some (py "[")).
Proof. vm_compute. repeat split; reflexivity. Qed.

(** C4, the claim as first stated fails: two writes that both replace
    the primary file, the copy of the second one failing, leave no
    backup file at all; and after a third write whose copy fails the
    backup still holds the first snapshot, not the second. *)
Lemma failed_copy_leaves_backup_behind :
  (writer_succeeds (writer_ok tmp1) = true
   /\ writer_succeeds (writer_copy_fails tmp2) = true)
  /\ (w_fs (save_all json_dumps JSON_FILE (Some BACKUP_FILE)
              [(writer_ok tmp1, DList [btc]);
               (writer_copy_fails tmp2, DList [btc; eth])] empty_world)
        !! JSON_FILE = Some (json_dumps (DList [btc; eth]))
      /\ w_fs (save_all json_dumps JSON_FILE (Some BACKUP_FILE)
                 [(writer_ok tmp1, DList [btc]);
                  (writer_copy_fails tmp2, DList [btc; eth])] empty_world)
           !! BACKUP_FILE = None)
  /\ (w_fs (save_all json_dumps JSON_FILE (Some BACKUP_FILE)
              [(writer_ok tmp1, DList [btc]);
               (writer_ok tmp2, DList [btc; eth]);
               (writer_copy_fails tmp1, DList [eth])] empty_world)
        !! JSON_FILE = Some (json_dumps (DList [eth]))
      /\ w_fs (save_all json_dumps JSON_FILE (Some BACKUP_FILE)
                 [(writer_ok tmp1, DList [btc]);
                  (writer_ok tmp2, DList [btc; eth]);
                  (writer_copy_fails tmp1, DList [eth])] empty_world)
           !! BACKUP_FILE = Some (json_dumps (DList [btc]))
      /\ json_dumps (DList [btc]) <> json_dumps (DList [btc; eth])).
Proof. vm_compute. repeat split; (reflexivity || discriminate). Qed.

(** C9, the claim as first stated fails: the Extractor raises on a page
    that the parser rejects; with the cap set to the integer 0 it
    returns both records of a page with two rows, and with the cap set
    to -1 it returns one. *)
Lemma parse_market_raises_and_exceeds_cap :
  parse_market_from_html soup_select get_text rejected_page
  = Raise ParserRejectedMarkup
  /\ (parse_market_from_html_with soup_select get_text (Some 0) page2
      = Ret [btc; eth]
      /\ ~ Z.of_nat (length [btc; eth]) <= 0)
  /\ (parse_market_from_html_with soup_select get_text (Some (-1)) page2
      = Ret [btc]
      /\ ~ Z.of_nat (length [btc]) <= -1).
Proof. vm_compute. repeat split; (reflexivity || (intros H; apply H; reflexivity)). Qed.

(** C5, the code at the failing input.  A non-empty extraction does
    not reset the delay when the save that follows it raises.  With
    [backoff] at 4, the page shows one record, [mkstemp] raises in the
    save of the body: the turn goes through the handler, sleeps 4 and
    leaves [backoff] at 8. *)
Theorem backoff_not_reset_when_save_raises :
  extraction soup_select get_text turn_save_raises (mkLocals true (FFin 4))
  = Some [btc]
  /\ fst (toy_iteration turn_save_raises (mkLocals true (FFin 4)) warm_world)
     = Ret (mkLocals false (FFin 8))
  /\ backoff_delays
       (events_of (toy_iteration turn_save_raises (mkLocals true (FFin 4)))
          warm_world) = [4].
Proof. vm_compute. repeat split; reflexivity. Qed.

(** C6, the code at the failing input.  The store holds a record and
    fetching the page raises: the handler takes the lock, makes all the
    system calls of the writer and only then gives the lock back.  The
    branch for an empty extraction, run in the same world, copies
    under the lock and writes after giving it back. *)
Theorem handler_saves_under_lock :
  events_of (toy_iteration turn_fetch_raises (mkLocals true (FFin 1))) warm_world
  = [EvAcquire;
     EvIO (Mkstemp tmp2);
     EvIO (WriteTmp tmp2 (json_dumps (DList [btc])) true);
     EvIO (Copy2 JSON_FILE BACKUP_FILE CopyOk);
     EvIO (Replace tmp2 JSON_FILE true);
     EvRelease;
     EvSleep (Backoff 1)]
  /\ lock_free_io
       (events_of (toy_iteration turn_fetch_raises (mkLocals true (FFin 1)))
          warm_world) = false
  /\ lock_free_io
       (events_of (toy_iteration turn_no_row (mkLocals true (FFin 1)))
          warm_world) = true.
Proof. vm_compute. repeat split; reflexivity. Qed.

(** C8, the code at the failing input.  The page shows one record and
    [mkstemp] raises: the save of the body raises into the handler,
    the handler saves again, outside any [try], and the exception
    leaves [scrape_loop] in its first turn, with [stop_event] not set
    and a second turn never made. *)
Theorem writer_exception_leaves_loop :
  fst (toy_iteration turn_disk_down initial_locals empty_world) = Raise OSError
  /\ fst (toy_loop [turn_disk_down; turn_one_record] true empty_world)
     = Raise OSError
  /\ stop_event (snd (toy_loop [turn_disk_down; turn_one_record] true empty_world))
     = false
  /\ events_of (toy_loop [turn_disk_down; turn_one_record] true) empty_world
     = [EvSleep InitialLoad; EvAcquire; EvAssign (DList [btc]); EvRelease;
        EvIO MkstempFail; EvAcquire; EvIO MkstempFail; EvRelease].
Proof. vm_compute. repeat split; reflexivity. Qed.
End Worked.

(** ** The theorems at concrete inputs *)

Section Instances.
Import Toy ToyMore.

Lemma store_never_regresses_witness :
  truthy (latest_data warm_world) = true
  /\ truthy (latest_data
               (snd (run_steps soup_select get_text json_dumps
                       [ScrapeStep turn_no_row; UpdateStep sim true;
                        ScrapeStep turn_fetch_raises; ScrapeStep turn_one_record]
                       (Some initial_locals) warm_world))) = true
  /\ extraction soup_select get_text turn_no_row initial_locals = Some []
  /\ latest_data (snd (scrape_iteration soup_select get_text json_dumps
                         turn_no_row initial_locals warm_world))
     = latest_data warm_world.
Proof.
  pose proof (store_never_regresses soup_select get_text json_dumps) as [Hrun Hone].
  split; [reflexivity|]. split; [|split; [reflexivity|]].
  - apply (Hrun [ScrapeStep turn_no_row; UpdateStep sim true;
                 ScrapeStep turn_fetch_raises; ScrapeStep turn_one_record]
                (Some initial_locals) warm_world).
    reflexivity.
  - apply (Hone turn_no_row initial_locals warm_world). reflexivity.
Defined.

Lemma save_json_atomic_atomicity_witness :
  (truthy (DList [btc]) = true
   /\ fresh_tmp writer_rename_fails JSON_FILE (Some BACKUP_FILE) = true
   /\ rename_done JSON_FILE
        (calls_of (save_json_atomic json_dumps writer_rename_fails JSON_FILE
                     (DList [btc]) (Some BACKUP_FILE)) warm_world) = false
   /\ w_fs (snd (save_json_atomic json_dumps writer_rename_fails JSON_FILE
                   (DList [btc]) (Some BACKUP_FILE) warm_world)) !! JSON_FILE
      = w_fs warm_world !! JSON_FILE
   /\ w_fs (snd (save_json_atomic json_dumps writer_rename_fails JSON_FILE
                   (DList [btc]) (Some BACKUP_FILE) warm_world)) !! tmp1 = None)
  /\ (fresh_tmp (writer_ok tmp1) JSON_FILE (Some BACKUP_FILE) = true
      /\ writer_succeeds (writer_ok tmp1) = true
      /\ w_fs (snd (save_json_atomic json_dumps (writer_ok tmp1) JSON_FILE
                      (DList [btc; eth]) (Some BACKUP_FILE) warm_world)) !! JSON_FILE
         = Some (json_dumps (DList [btc; eth]))
      /\ rename_done JSON_FILE
           (take 3 (calls_of (save_json_atomic json_dumps (writer_ok tmp1) JSON_FILE
                                (DList [btc; eth]) (Some BACKUP_FILE)) warm_world))
         = false
      /\ replay (take 3 (calls_of (save_json_atomic json_dumps (writer_ok tmp1)
                                     JSON_FILE (DList [btc; eth]) (Some BACKUP_FILE))
                           warm_world)) (w_fs warm_world) !! JSON_FILE
         = w_fs warm_world !! JSON_FILE).
Proof.
  split.
  - split; [reflexivity|]. split; [reflexivity|].
    assert (rename_done JSON_FILE
              (calls_of (save_json_atomic json_dumps writer_rename_fails JSON_FILE
                           (DList [btc]) (Some BACKUP_FILE)) warm_world) = false)
      as Hno by (vm_compute; reflexivity).
    split; [exact Hno|].
    destruct (save_json_atomic_atomicity json_dumps writer_rename_fails JSON_FILE
                (DList [btc]) (Some BACKUP_FILE) warm_world eq_refl eq_refl)
      as (_ & _ & Hfail & _).
    destruct (Hfail Hno) as [Hprim Htmp].
    split; [exact Hprim|].
    apply (Htmp tmp1 eq_refl eq_refl eq_refl eq_refl).
  - split; [reflexivity|]. split; [reflexivity|].
    destruct (save_json_atomic_atomicity json_dumps (writer_ok tmp1) JSON_FILE
                (DList [btc; eth]) (Some BACKUP_FILE) warm_world eq_refl eq_refl)
      as (_ & Hcrash & _ & Hdone & Hsucc).
    split; [apply (Hdone (Hsucc eq_refl))|].
    assert (rename_done JSON_FILE
              (take 3 (calls_of (save_json_atomic json_dumps (writer_ok tmp1)
                                   JSON_FILE (DList [btc; eth]) (Some BACKUP_FILE))
                         warm_world)) = false) as Hno
      by (vm_compute; reflexivity).
    split; [exact Hno | apply (Hcrash 3%nat Hno)].
Defined.

Lemma save_json_atomic_empty_noop_witness :
  truthy (DList []) = false
  /\ save_json_atomic json_dumps (writer_ok tmp1) JSON_FILE (DList [])
       (Some BACKUP_FILE) warm_world = (Ret tt, warm_world).
Proof.
  split; [reflexivity|].
  apply (save_json_atomic_empty_noop json_dumps (writer_ok tmp1) JSON_FILE (DList [])
           (Some BACKUP_FILE) warm_world eq_refl).
Defined.

Lemma backup_holds_previous_snapshot_witness :
  path_given (Some BACKUP_FILE) = Some BACKUP_FILE
  /\ JSON_FILE <> BACKUP_FILE
  /\ (copy_outcome (writer_ok tmp2) = CopyOk
      /\ w_fs (save_all json_dumps JSON_FILE (Some BACKUP_FILE)
                 [(writer_ok tmp1, DList [btc]); (writer_ok tmp2, DList [btc; eth])]
                 empty_world) !! JSON_FILE
         = Some (json_dumps (DList [btc; eth]))
      /\ w_fs (save_all json_dumps JSON_FILE (Some BACKUP_FILE)
                 [(writer_ok tmp1, DList [btc]); (writer_ok tmp2, DList [btc; eth])]
                 empty_world) !! BACKUP_FILE
         = Some (json_dumps (DList [btc])))
  /\ (copy_outcome (writer_copy_fails tmp2) = CopyFail None
      /\ mkstemp_result (writer_copy_fails tmp2) = Some tmp2
      /\ w_fs (save_all json_dumps JSON_FILE (Some BACKUP_FILE)
                 [(writer_ok tmp1, DList [btc]);
                  (writer_copy_fails tmp2, DList [btc; eth])]
                 empty_world) !! BACKUP_FILE
         = w_fs (save_all json_dumps JSON_FILE (Some BACKUP_FILE)
                   ([] ++ [(writer_ok tmp1, DList [btc])]) empty_world)
             !! BACKUP_FILE
      /\ calls_of (save_json_atomic json_dumps (writer_copy_fails tmp2) JSON_FILE
                     (DList [btc; eth]) (Some BACKUP_FILE))
                  (save_all json_dumps JSON_FILE (Some BACKUP_FILE)
                     ([] ++ [(writer_ok tmp1, DList [btc])]) empty_world)
         = [Mkstemp tmp2; WriteTmp tmp2 (json_dumps (DList [btc; eth])) true;
            Copy2 JSON_FILE BACKUP_FILE (CopyFail None);
            Replace tmp2 JSON_FILE true]).
Proof.
  assert (JSON_FILE <> BACKUP_FILE) as Hne by discriminate.
  split; [reflexivity|]. split; [exact Hne|]. split.
  - destruct (backup_holds_previous_snapshot json_dumps JSON_FILE
                (Some BACKUP_FILE) BACKUP_FILE [] (writer_ok tmp1, DList [btc])
                (writer_ok tmp2, DList [btc; eth]) empty_world eq_refl Hne)
      as (Hprim & Hcopied & _).
    { repeat constructor. }
    split; [reflexivity|]. split; [exact Hprim | apply Hcopied; reflexivity].
  - destruct (backup_holds_previous_snapshot json_dumps JSON_FILE
                (Some BACKUP_FILE) BACKUP_FILE [] (writer_ok tmp1, DList [btc])
                (writer_copy_fails tmp2, DList [btc; eth]) empty_world eq_refl Hne)
      as (_ & _ & Hfailed & Hcalls).
    { repeat constructor. }
    split; [reflexivity|]. split; [reflexivity|]. split.
    + apply (Hfailed None). reflexivity.
    + apply (Hcalls tmp2). reflexivity.
Defined.

Lemma get_latest_contract_witness :
  truthy (latest_data empty_world) = false
  /\ fst (get_latest (py "2024-01-01 00:00:00") empty_world)
     = Ret (503, ErrorBody (py "No data yet"))
  /\ fst (get_latest (py "2024-01-01 00:00:00") warm_world)
     = Ret (200, LatestBody (py "2024-01-01 00:00:00") 1 (DList [btc]))
  /\ fst (get_latest (py "2024-01-01 00:00:00")
            (mkWorld ∅ (DDict sim) false []))
     = Ret (200, LatestBody (py "2024-01-01 00:00:00") 3 (DDict sim)).
Proof.
  split; [reflexivity|]. split; [|split].
  - destruct (get_latest_contract (py "2024-01-01 00:00:00") empty_world)
      as (Hempty & _).
    apply Hempty. reflexivity.
  - destruct (get_latest_contract (py "2024-01-01 00:00:00") warm_world)
      as (_ & _ & Hlist & _).
    apply (Hlist btc []). reflexivity.
  - destruct (get_latest_contract (py "2024-01-01 00:00:00")
                (mkWorld ∅ (DDict sim) false []))
      as (_ & Hfull & _).
    apply Hfull. reflexivity.
Defined.

Lemma parse_market_total_and_capped_witness :
  (soup_select page3 = Ret [btc_row; eth_row; btc_row]
   /\ exists records,
        parse_market_from_html_with soup_select get_text (Some 2) page3 = Ret records
        /\ Z.of_nat (length records) <= 2)
  /\ (soup_select [] = Ret []
      /\ exists records,
           parse_market_from_html_with soup_select get_text (Some 0) [] = Ret records
           /\ records = []
           /\ records = omap (row_record get_text) [])
  /\ (soup_select rejected_page = Raise ParserRejectedMarkup
      /\ parse_market_from_html_with soup_select get_text None rejected_page
         = Raise ParserRejectedMarkup).
Proof.
  assert (soup_select page3 = Ret [btc_row; eth_row; btc_row]) as H3
    by (vm_compute; reflexivity).
  assert (soup_select [] = Ret []) as H0 by reflexivity.
  assert (soup_select rejected_page = Raise ParserRejectedMarkup) as Hrej
    by reflexivity.
  split; [|split].
  - split; [exact H3|].
    destruct (parse_market_total_and_capped soup_select get_text (Some 2) page3)
      as [Hok _].
    destruct (Hok _ H3) as (records & Hrun & _ & _ & Hcap & _).
    exists records. split; [exact Hrun|].
    apply (Hcap 2); [reflexivity | lia].
  - split; [exact H0|].
    destruct (parse_market_total_and_capped soup_select get_text (Some 0) [])
      as [Hok _].
    destruct (Hok _ H0) as (records & Hrun & _ & Hnone & _ & Hall).
    exists records. split; [exact Hrun|]. split.
    + apply Hnone. reflexivity.
    + apply Hall. right. reflexivity.
  - split; [exact Hrej|].
    destruct (parse_market_total_and_capped soup_select get_text None rejected_page)
      as [_ Hraise].
    apply Hraise, Hrej.
Defined.

Lemma first_write_leaves_backup_witness :
  (path_given (Some BACKUP_FILE) = Some BACKUP_FILE
   /\ JSON_FILE <> BACKUP_FILE
   /\ fresh_tmp (writer_ok tmp1) JSON_FILE (Some BACKUP_FILE) = true
   /\ w_fs empty_world !! JSON_FILE = None
   /\ copy_attempted BACKUP_FILE
        (calls_of (save_json_atomic json_dumps (writer_ok tmp1) JSON_FILE
                     (DList [btc]) (Some BACKUP_FILE)) empty_world) = false
   /\ w_fs (snd (save_json_atomic json_dumps (writer_ok tmp1) JSON_FILE
                   (DList [btc]) (Some BACKUP_FILE) empty_world)) !! BACKUP_FILE
      = w_fs empty_world !! BACKUP_FILE)
  /\ (copy_attempted BACKUP_FILE
        (calls_of (save_json_atomic json_dumps (writer_ok tmp1) JSON_FILE
                     (DList [btc]) (Some BACKUP_FILE)) warm_world) = true
      /\ is_Some (w_fs warm_world !! JSON_FILE)).
Proof.
  split.
  - split; [reflexivity|]. split; [discriminate|]. split; [reflexivity|].
    split; [reflexivity|].
    destruct (first_write_leaves_backup json_dumps (writer_ok tmp1) JSON_FILE
                (DList [btc]) (Some BACKUP_FILE) BACKUP_FILE empty_world eq_refl)
      as [Hfirst _]; [discriminate | reflexivity |].
    destruct (Hfirst eq_refl) as (Hno & _ & Hsame).
    split; [exact Hno | exact Hsame].
  - assert (copy_attempted BACKUP_FILE
              (calls_of (save_json_atomic json_dumps (writer_ok tmp1) JSON_FILE
                           (DList [btc]) (Some BACKUP_FILE)) warm_world) = true)
      as Hcopy by (vm_compute; reflexivity).
    split; [exact Hcopy|].
    destruct (first_write_leaves_backup json_dumps (writer_ok tmp1) JSON_FILE
                (DList [btc]) (Some BACKUP_FILE) BACKUP_FILE warm_world eq_refl)
      as [_ Honly]; [discriminate | reflexivity |].
    apply (Honly Hcopy).
Defined.
End Instances.
(** * More of the program *)

(** ** Stripping and splitting *)

Lemma py_lstrip_suffix s : py_lstrip s `suffix_of` s.
Proof.
  induction s as [|c s IH]; simpl; [reflexivity|].
  destruct (py_isspace c); [apply suffix_cons_r, IH | reflexivity].
Qed.

Lemma py_lstrip_head s :
  py_lstrip s = [] \/ exists c t, py_lstrip s = c :: t /\ py_isspace c = false.
Proof.
  induction s as [|c s IH]; simpl; [left; reflexivity|].
  destruct (py_isspace c) eqn:Hc; [exact IH | right; eauto].
Qed.

Lemma py_lstrip_fixed c t : py_isspace c = false -> py_lstrip (c :: t) = c :: t.
Proof. intros Hc. simpl. rewrite Hc. reflexivity. Qed.

Lemma py_lstrip_idem s : py_lstrip (py_lstrip s) = py_lstrip s.
Proof.
  destruct (py_lstrip_head s) as [-> | (c & t & -> & Hc)];
    [reflexivity | apply py_lstrip_fixed, Hc].
Qed.

Lemma py_lstrip_app a b :
  py_lstrip (a ++ b)
  = if forallb py_isspace a then py_lstrip b else py_lstrip a ++ b.
Proof.
  induction a as [|c a IH]; simpl; [reflexivity|].
  destruct (py_isspace c); simpl; [exact IH | reflexivity].
Qed.

Lemma py_rstrip_idem s : py_rstrip (py_rstrip s) = py_rstrip s.
Proof. unfold py_rstrip. rewrite rev_involutive, py_lstrip_idem. reflexivity. Qed.

Lemma py_rstrip_cons c t :
  py_isspace c = false ->
  py_rstrip (c :: t) = c :: (if forallb py_isspace (rev t) then [] else py_rstrip t).
Proof.
  intros Hc. unfold py_rstrip. simpl rev. rewrite py_lstrip_app.
  destruct (forallb py_isspace (rev t)).
  - simpl. rewrite Hc. reflexivity.
  - rewrite rev_app_distr. reflexivity.
Qed.

Lemma py_rstrip_elem x s : x ∈ py_rstrip s -> x ∈ s.
Proof.
  unfold py_rstrip. intros Hx.
  apply list_elem_of_In, in_rev, list_elem_of_In in Hx.
  apply (fun H => elem_of_suffix _ _ _ H (py_lstrip_suffix (rev s))) in Hx.
  apply list_elem_of_In, in_rev, list_elem_of_In. exact Hx.
Qed.

Lemma py_strip_elem x s : x ∈ py_strip s -> x ∈ s.
Proof.
  unfold py_strip. intros Hx. apply py_rstrip_elem in Hx.
  exact (elem_of_suffix _ _ _ Hx (py_lstrip_suffix s)).
Qed.

Lemma py_strip_idem s : py_strip (py_strip s) = py_strip s.
Proof.
  unfold py_strip.
  destruct (py_lstrip_head s) as [-> | (c & t & -> & Hc)]; [reflexivity|].
  rewrite (py_rstrip_cons c t Hc), (py_lstrip_fixed c _ Hc).
  rewrite <- (py_rstrip_cons c t Hc). apply py_rstrip_idem.
Qed.

Lemma py_split_pieces sep s p : p ∈ py_split sep s -> sep ∉ p.
Proof.
  revert p. induction s as [|c s IH]; intros p; simpl.
  - intros Hp. apply list_elem_of_singleton in Hp. subst p. apply not_elem_of_nil.
  - destruct (c =? sep)%N eqn:Hc.
    + intros Hp. apply elem_of_cons in Hp as [-> | Hp];
        [apply not_elem_of_nil | apply IH, Hp].
    + apply N.eqb_neq in Hc.
      destruct (py_split sep s) as [|w ws] eqn:Hs.
      * intros Hp. apply list_elem_of_singleton in Hp. subst p.
        intros Hin. apply list_elem_of_singleton in Hin. congruence.
      * intros Hp. apply elem_of_cons in Hp as [-> | Hp].
        -- intros Hin. apply elem_of_cons in Hin as [Heq | Hin]; [congruence|].
           apply (IH w); [left | exact Hin].
        -- apply IH. right. exact Hp.
Qed.

(** ** More on the Extractor *)

Section ExtractorMore.
Context {Tag : Type}.
Variable soup_select : pystr -> res (list Tag).
Variable get_text : Tag -> pystr.

Lemma row_parts_clean row q : q ∈ row_parts get_text row -> clean_field q.
Proof.
  unfold row_parts. intros Hq.
  apply list_elem_of_In, in_map_iff in Hq as (p & <- & Hp).
  apply list_elem_of_In, list_elem_of_filter in Hp as [Hne Hp].
  split; [exact Hne|]. split; [apply py_strip_idem|].
  intros Hnl. apply py_strip_elem in Hnl.
  exact (py_split_pieces newline _ p Hp Hnl).
Qed.

Lemma row_record_clean row r :
  row_record get_text row = Some r ->
  clean_field (pair r) /\ clean_field (price r) /\ clean_field (change_24h r).
Proof.
  unfold row_record.
  pose proof (row_parts_clean row) as Hclean.
  destruct (row_parts get_text row) as [|a [|b [|c l]]]; try discriminate.
  intros [= <-]. simpl.
  split; [|split]; apply Hclean; set_solver.
Qed.

(** X1.  Whatever the page and the cap, every field of every record
    the Extractor returns is a non-empty string without white space at
    either end and without a newline character (U+000A) inside. *)
Theorem parse_market_fields_clean max_rows html records r :
  parse_market_from_html_with soup_select get_text max_rows html = Ret records ->
  r ∈ records ->
  clean_field (pair r) /\ clean_field (price r) /\ clean_field (change_24h r).
Proof.
  unfold parse_market_from_html_with. intros Hrun Hr.
  destruct (soup_select html) as [rows|e]; [|discriminate].
  destruct (parse_rows_prefix get_text max_rows rows []) as (l & Hl & Hpre).
  rewrite Hl in Hrun. injection Hrun as <-. simpl in Hr.
  apply (elem_of_prefix _ _ _ Hr) in Hpre.
  apply list_elem_of_omap in Hpre as (row & _ & Hrow).
  exact (row_record_clean row r Hrow).
Qed.

Lemma parse_rows_take n rows results :
  0 < n -> (length results < Z.to_nat n)%nat ->
  parse_rows get_text (Some n) rows results
  = Ret (results ++ take (Z.to_nat n - length results)
                         (omap (row_record get_text) rows)).
Proof.
  intros Hn. revert results.
  induction rows as [|row rest IH]; intros results Hlen; cbn [parse_rows].
  - simpl. rewrite take_nil, app_nil_r. reflexivity.
  - rewrite parse_row_spec. cbn [omap list_omap].
    change (omap (row_record get_text) (row :: rest))
      with (match row_record get_text row with
            | Some r => r :: omap (row_record get_text) rest
            | None => omap (row_record get_text) rest
            end).
    destruct (row_record get_text row) as [r|]; simpl option_list.
    + unfold cap_reached. rewrite length_app. simpl length.
      replace (Z.to_nat n - length results)%nat
        with (S (Z.to_nat n - S (length results)))%nat by lia.
      simpl take.
      destruct (n <=? Z.of_nat (length results + 1)) eqn:Hcap.
      * apply Z.leb_le in Hcap.
        replace (Z.to_nat n - S (length results))%nat with 0%nat by lia.
        rewrite (proj2 (Z.eqb_neq n 0)) by lia. simpl. reflexivity.
      * apply Z.leb_gt in Hcap. rewrite andb_false_r.
        rewrite IH by (rewrite length_app; simpl; lia).
        rewrite length_app, <- app_assoc. simpl.
        replace (Z.to_nat n - (length results + 1))%nat
          with (Z.to_nat n - S (length results))%nat by lia.
        reflexivity.
    + rewrite app_nil_r. unfold cap_reached.
      rewrite (proj2 (Z.leb_gt n (Z.of_nat (length results)))) by lia.
      rewrite andb_false_r. apply IH, Hlen.
Qed.

(** X2.  A positive cap keeps the head of the list: the Extractor with
    the cap set to [n > 0] returns exactly the first [n] records of what
    it returns without a cap. *)
Theorem parse_market_cap_keeps_first n html all :
  0 < n ->
  parse_market_from_html soup_select get_text html = Ret all ->
  parse_market_from_html_with soup_select get_text (Some n) html
  = Ret (take (Z.to_nat n) all).
Proof.
  unfold parse_market_from_html, parse_market_from_html_with. intros Hn Hall.
  destruct (soup_select html) as [rows|e]; [|discriminate].
  rewrite parse_rows_uncapped in Hall by reflexivity. injection Hall as <-.
  rewrite parse_rows_take by (simpl; lia).
  simpl. rewrite Nat.sub_0_r. reflexivity.
Qed.

(** X3.  A negative cap makes the loop stop after the first row: on a
    page that the parser accepts the Extractor returns the record of
    the first matching row if that row has three parts and nothing
    otherwise, whatever the later rows hold. *)
Theorem parse_market_negative_cap_first_row n html rows :
  soup_select html = Ret rows -> n < 0 ->
  parse_market_from_html_with soup_select get_text (Some n) html
  = Ret (omap (row_record get_text) (take 1 rows)).
Proof.
  unfold parse_market_from_html_with. intros -> Hn.
  destruct rows as [|row rest]; [reflexivity|].
  cbn [parse_rows take]. rewrite parse_row_spec.
  unfold cap_reached.
  rewrite (proj2 (Z.eqb_neq n 0)) by lia.
  rewrite (proj2 (Z.leb_le n _)) by lia.
  simpl. destruct (row_record get_text row); reflexivity.
Qed.
End ExtractorMore.

(** ** More on the Durable Writer *)

Section WriterMore.
Variable json_dumps : pydata -> pystr.

Lemma cleanup_keeps o tmp (fs : gmap string pystr) :
  print_error_ok o = false -> replay (cleanup_calls o tmp) fs = fs.
Proof. unfold cleanup_calls. intros ->. reflexivity. Qed.

(** The temporary file is still there when the outer handler cannot
    print its message. *)
Lemma writer_calls_stranded_tmp o path data bp (fs : gmap string pystr) tmp :
  writer_completes json_dumps o path data bp fs = false ->
  abspath_ok o = true -> mkstemp_result o = Some tmp ->
  print_error_ok o = false ->
  is_Some (replay (writer_calls json_dumps o path data bp fs) fs !! tmp).
Proof.
  unfold writer_calls, writer_completes.
  intros Hfail Ha Hm Hp. rewrite Ha, Hm in Hfail |- *.
  destruct (write_result o) as [c|].
  - rewrite replay_app, cleanup_keeps by exact Hp. simpl.
    rewrite lookup_insert_eq. eauto.
  - cbv zeta. simpl in Hfail.
    set (fs1 := <[tmp:=json_dumps data]> (<[tmp:=[]]> fs)) in *.
    assert (is_Some (replay (backup_calls o path bp fs1) fs1 !! tmp)) as Hkept.
    { apply backup_keeps. subst fs1. rewrite lookup_insert_eq. eauto. }
    change (replay ([Mkstemp tmp; WriteTmp tmp (json_dumps data) true] ++ ?l) fs)
      with (replay l fs1).
    destruct (backup_raises o path bp fs1).
    + rewrite replay_app, cleanup_keeps by exact Hp. exact Hkept.
    + simpl in Hfail. rewrite Hfail.
      rewrite replay_app.
      change (replay (Replace tmp path false :: cleanup_calls o tmp) ?m)
        with (replay (cleanup_calls o tmp) m).
      rewrite cleanup_keeps by exact Hp. exact Hkept.
Qed.

(** X4.  An exception leaves [save_json_atomic] only from outside its
    [try]: from [os.path.abspath] or [mkstemp], which come before it
    (then no file has changed), or from the print of the handler (then
    the temporary file is left behind).  An empty snapshot returns at
    once; a call that gets through the rename returns; a call in which
    a step of the [try] raises returns when the message is printed,
    whatever the removal does. *)
Theorem save_json_atomic_raises_only_outside_try o path data bp w :
  let r := fst (save_json_atomic json_dumps o path data bp w) in
  let w' := snd (save_json_atomic json_dumps o path data bp w) in
  let ops := calls_of (save_json_atomic json_dumps o path data bp) w in
  (truthy data = false -> r = Ret tt)
  /\ (truthy data = true -> abspath_ok o = false \/ mkstemp_result o = None ->
      r = Raise OSError /\ w_fs w' = w_fs w)
  /\ (forall tmp,
        truthy data = true -> abspath_ok o = true -> mkstemp_result o = Some tmp ->
        (rename_done path ops = true -> r = Ret tt)
        /\ (rename_done path ops = false -> print_error_ok o = true -> r = Ret tt)
        /\ (rename_done path ops = false -> print_error_ok o = false ->
            r = Raise UnicodeEncodeError /\ is_Some (w_fs w' !! tmp))).
Proof.
  intros r w' ops. subst r w' ops. split; [|split].
  - intros Ht. rewrite save_json_atomic_skip by exact Ht. reflexivity.
  - intros Ht Hbefore.
    pose proof (save_json_atomic_run json_dumps o path data bp w Ht) as Hrun.
    rewrite Hrun. unfold writer_result, writer_calls.
    destruct (abspath_ok o); [|split; reflexivity].
    destruct Hbefore as [? | ->]; [discriminate | split; reflexivity].
  - intros tmp Ht Ha Hm.
    pose proof (save_json_atomic_run json_dumps o path data bp w Ht) as Hrun.
    destruct (save_json_atomic_calls json_dumps o path data bp w Ht) as [-> ->].
    rewrite (runs_fst _ _ _ _ Hrun), writer_calls_rename_done.
    split; [apply writer_completes_result|]. split.
    + intros _ Hp. apply writer_returns_result. unfold writer_returns.
      rewrite Ha, Hm, Hp. reflexivity.
    + intros Hfail Hp. split.
      * unfold writer_result, writer_completes, cleanup_result in *.
        rewrite Ha, Hm, Hp in *. cbn [andb] in Hfail.
        destruct (write_result o); [reflexivity|]. cbv zeta.
        destruct (backup_raises _ _ _ _); [reflexivity|].
        cbn [negb andb] in Hfail. rewrite Hfail. reflexivity.
      * apply writer_calls_stranded_tmp; assumption.
Qed.

Lemma writer_calls_touch_others o path data bp fs p op :
  p <> path -> path_given bp <> Some p -> mkstemp_result o <> Some p ->
  op ∈ writer_calls json_dumps o path data bp fs ->
  touches p op = false.
Proof.
  intros Hp Hb Hm Hin.
  apply writer_calls_elem in Hin as [-> | (tmp & Hmt & Hin)]; [reflexivity|].
  assert (bool_decide (tmp = p) = false) as Htp
    by (apply bool_decide_eq_false; congruence).
  assert (bool_decide (path = p) = false) as Hpp
    by (apply bool_decide_eq_false; congruence).
  destruct Hin as [-> | [(c & ok & ->) | [Hin | [(ok & ->) | ->]]]]; simpl;
    try assumption.
  - apply backup_calls_elem in Hin as (b & Hbb & _ & _ & ->). simpl.
    apply bool_decide_eq_false. congruence.
  - destruct ok; [|reflexivity]. rewrite Htp, Hpp. reflexivity.
  - destruct (remove_ok o); [assumption | reflexivity].
Qed.

(** X5.  The writer changes no file besides its temporary file, the
    primary path and the backup path: any other path holds the same
    contents (or stays absent) after every prefix of the system calls of
    a call, hence also after a crash, and when the call has ended. *)
Theorem save_json_atomic_touches_three_paths o path data bp w p :
  p <> path -> path_given bp <> Some p -> mkstemp_result o <> Some p ->
  (forall k,
      replay (take k (calls_of (save_json_atomic json_dumps o path data bp) w))
             (w_fs w) !! p = w_fs w !! p)
  /\ w_fs (snd (save_json_atomic json_dumps o path data bp w)) !! p = w_fs w !! p.
Proof.
  intros Hp Hb Hm. destruct (truthy data) eqn:Ht.
  - destruct (save_json_atomic_calls json_dumps o path data bp w Ht) as [-> ->].
    split.
    + intros k. apply replay_untouched. intros op Hin.
      apply (writer_calls_touch_others o path data bp (w_fs w) p op Hp Hb Hm).
      apply (subseteq_take k _ op Hin).
    + apply replay_untouched. intros op Hin.
      apply (writer_calls_touch_others o path data bp (w_fs w) p op Hp Hb Hm Hin).
  - rewrite (save_json_atomic_skip_calls json_dumps o path data bp w Ht).
    rewrite (save_json_atomic_skip json_dumps o path data bp w Ht).
    split; [|reflexivity]. intros k. rewrite take_nil. reflexivity.
Qed.

(** A call that gets through the rename has moved its temporary file
    away. *)
Lemma writer_calls_completed_tmp o path data bp (fs : gmap string pystr) tmp :
  fresh_tmp o path bp = true -> mkstemp_result o = Some tmp ->
  writer_completes json_dumps o path data bp fs = true ->
  replay (writer_calls json_dumps o path data bp fs) fs !! tmp = None.
Proof.
  intros Hfresh Hm Hok.
  destruct (fresh_tmp_spec o path bp tmp Hfresh Hm) as [Hne Hb].
  unfold writer_calls, writer_completes in *.
  apply andb_true_iff in Hok as [Ha Hok]. rewrite Ha, Hm in *.
  destruct (write_result o) as [c|]; [discriminate|].
  apply andb_true_iff in Hok as [Hbk Hr]. apply negb_true_iff in Hbk.
  cbv zeta. rewrite Hbk, Hr, !replay_app.
  set (fs1 := replay [Mkstemp tmp; WriteTmp tmp (json_dumps data) true] fs).
  change (<[tmp:=json_dumps data]> (<[tmp:=[]]> fs)) with fs1.
  assert (replay (backup_calls o path bp fs1) fs1 !! tmp = Some (json_dumps data))
    as Htmp.
  { rewrite backup_calls_untouched by exact Hb. apply lookup_insert_eq. }
  simpl. rewrite Htmp.
  rewrite lookup_insert_ne by congruence. apply lookup_delete_eq.
Qed.

(** X6.  A call that runs to its end leaves no temporary file behind,
    unless a step before the rename fails and the clean-up fails too:
    with a non-empty snapshot, when no step up to the rename raises, or
    when the message of the handler is printed and [os.remove] works,
    the temporary name is absent afterwards. *)
Theorem save_json_atomic_leaves_no_temp o path data bp w tmp :
  truthy data = true -> fresh_tmp o path bp = true ->
  mkstemp_result o = Some tmp ->
  writer_succeeds o = true
  \/ (abspath_ok o = true /\ print_error_ok o = true /\ remove_ok o = true) ->
  w_fs (snd (save_json_atomic json_dumps o path data bp w)) !! tmp = None.
Proof.
  intros Ht Hfresh Hm Hor.
  destruct (save_json_atomic_calls json_dumps o path data bp w Ht) as [_ ->].
  destruct (writer_completes json_dumps o path data bp (w_fs w)) eqn:Hok.
  - apply writer_calls_completed_tmp; assumption.
  - destruct Hor as [Hs | (Ha & Hp & Hrm)].
    + rewrite (writer_succeeds_completes json_dumps o path data bp (w_fs w) Hs)
        in Hok. discriminate.
    + apply writer_calls_failed_tmp; assumption.
Qed.

(** X7.  A write that gets as far as the rename and fails there has
    already overwritten the backup: with the copy succeeding and
    [os.replace] raising, the call ends with the primary file unchanged
    and the backup file equal to it, so the snapshot that the backup
    held before is lost; the call returns when the message of its
    handler is printed. *)
Theorem failed_rename_has_overwritten_backup o path data bp b w tmp old :
  truthy data = true -> fresh_tmp o path bp = true ->
  path_given bp = Some b -> path <> b ->
  abspath_ok o = true ->
  mkstemp_result o = Some tmp -> write_result o = None ->
  copy_outcome o = CopyOk -> replace_ok o = false ->
  w_fs w !! path = Some old ->
  let w' := snd (save_json_atomic json_dumps o path data bp w) in
  (print_error_ok o = true ->
   fst (save_json_atomic json_dumps o path data bp w) = Ret tt)
  /\ w_fs w' !! path = Some old
  /\ w_fs w' !! b = Some old.
Proof.
  intros Ht Hfresh Hb Hne Ha Hm Hw Hc Hr Hold w'. subst w'.
  destruct (fresh_tmp_spec o path bp tmp Hfresh Hm) as [Htp Hbt].
  rewrite Hb in Hbt.
  rewrite (runs_fst _ _ _ _ (save_json_atomic_run json_dumps o path data bp w Ht)).
  destruct (save_json_atomic_calls json_dumps o path data bp w Ht) as [_ ->].
  split.
  { intros Hp. apply writer_returns_result. unfold writer_returns.
    rewrite Ha, Hm, Hp. reflexivity. }
  unfold writer_calls. rewrite Ha, Hm, Hw, Hr. cbv zeta.
  assert (backup_raises o path bp
            (<[tmp:=json_dumps data]> (<[tmp:=[]]> (w_fs w))) = false) as ->.
  { unfold backup_raises. rewrite Hb, Hc.
    rewrite (bool_decide_eq_false_2 _ Hne). cbn [orb].
    rewrite andb_false_r. reflexivity. }
  rewrite (backup_calls_some o path bp b _ old Hb Hne)
    by (rewrite !lookup_insert_ne by exact Htp; exact Hold).
  rewrite Hc. unfold cleanup_calls.
  destruct (print_error_ok o); [destruct (remove_ok o)|]; simpl;
    rewrite !(lookup_insert_ne _ tmp path) by exact Htp; rewrite Hold;
    rewrite ?lookup_delete_ne by congruence;
    rewrite (lookup_insert_ne _ b path) by congruence;
    rewrite !(lookup_insert_ne _ tmp path) by exact Htp;
    rewrite lookup_insert_eq; (split; [exact Hold | reflexivity]).
Qed.
End WriterMore.
(** ** What a computation can add to the trace *)

Section Emits.
Variable P : list event -> Prop.
Hypothesis Pclosed : trace_closed P.

Lemma emits_ret {A} (a : A) : emits P (ret a).
Proof. intros w. exists (Ret a), []. split; [apply runs_ret | apply Pclosed]. Qed.

Lemma emits_raise {A} e : emits P (@raise A e).
Proof. intros w. exists (Raise e), []. split; [apply runs_raise | apply Pclosed]. Qed.

Lemma emits_lift {A} (r : res A) : emits P (lift r).
Proof. intros w. exists r, []. split; [apply runs_lift | apply Pclosed]. Qed.

Lemma emits_print ok : emits P (py_print ok).
Proof.
  intros w. eexists _, []. split; [apply runs_print | apply Pclosed].
Qed.

Lemma emits_read : emits P read_latest_data.
Proof. intros w. eexists _, []. split; [apply runs_read | apply Pclosed]. Qed.

Lemma emits_is_set : emits P is_set.
Proof. intros w. eexists _, []. split; [apply runs_is_set | apply Pclosed]. Qed.

Lemma emits_emit e : P [e] -> emits P (emit e).
Proof. intros He w. exists (Ret tt), [e]. split; [apply runs_emit | exact He]. Qed.

Lemma emits_bind {A B} (m : M A) (k : A -> M B) :
  emits P m -> (forall a, emits P (k a)) -> emits P (bind m k).
Proof.
  intros Hm Hk w. destruct (Hm w) as (r & evs & Hrun & Hp).
  destruct r as [a|e].
  - destruct (Hk a (advance w evs)) as (r2 & evs2 & Hrun2 & Hp2).
    exists r2, (evs ++ evs2). split; [eapply runs_bind; eassumption|].
    apply Pclosed; assumption.
  - exists (Raise e), evs. split; [apply runs_bind_raise, Hrun | exact Hp].
Qed.

Lemma emits_try {A} (body : M A) (h : exn -> M A) :
  emits P body -> (forall e, emits P (h e)) -> emits P (try_except body h).
Proof.
  intros Hb Hh w. destruct (Hb w) as (r & evs & Hrun & Hp).
  destruct r as [a|e].
  - exists (Ret a), evs. split; [apply runs_try, Hrun | exact Hp].
  - destruct (Hh e (advance w evs)) as (r2 & evs2 & Hrun2 & Hp2).
    exists r2, (evs ++ evs2). split; [eapply runs_try_raise; eassumption|].
    apply Pclosed; assumption.
Qed.

Lemma emits_with_lock {A} (Q : list event -> Prop) (body : M A) :
  emits Q body ->
  (forall evs, Q evs -> P (EvAcquire :: evs ++ [EvRelease])) ->
  emits P (with_lock body).
Proof.
  intros Hb Hq w. destruct (Hb (advance w [EvAcquire])) as (r & evs & Hrun & Hp).
  exists r, (EvAcquire :: evs ++ [EvRelease]).
  split; [apply runs_with_lock, Hrun | apply Hq, Hp].
Qed.
End Emits.

Lemma only_io_closed : trace_closed (fun evs => exists ops, evs = map EvIO ops).
Proof.
  split; [exists []; reflexivity|].
  intros evs1 evs2 [ops1 ->] [ops2 ->]. exists (ops1 ++ ops2).
  rewrite map_app. reflexivity.
Qed.

Section EmitsLoop.
Context {Tag : Type}.
Variable soup_select : pystr -> res (list Tag).
Variable get_text : Tag -> pystr.
Variable json_dumps : pydata -> pystr.
Variable P : list event -> Prop.
Hypothesis Pclosed : trace_closed P.
Hypothesis Psleep : forall s, P [EvSleep s].
Hypothesis Pio : forall ops, P (map EvIO ops).
Hypothesis Passign :
  forall x xs, P [EvAcquire; EvAssign (DList (x :: xs)); EvRelease].
Hypothesis Plocked_io : forall ops, P (EvAcquire :: map EvIO ops ++ [EvRelease]).

Lemma emits_save o path data bp :
  emits P (save_json_atomic json_dumps o path data bp).
Proof.
  intros w. destruct (save_json_atomic_io json_dumps o path data bp w)
    as (r & ops & Hrun & _).
  exists r, (map EvIO ops). split; [exact Hrun | apply Pio].
Qed.

Lemma emits_poll_wait signal ticks k :
  (signal <> None -> P [EvStop]) -> emits P (poll_wait signal ticks k).
Proof.
  intros Hstop. revert k. induction ticks as [|ticks IH]; intros k.
  - apply emits_ret, Pclosed.
  - cbn [poll_wait]. apply emits_bind; [exact Pclosed| |].
    + destruct signal as [n|]; [|apply emits_ret, Pclosed].
      destruct (n <=? k)%nat; [|apply emits_ret, Pclosed].
      apply emits_emit, Hstop. discriminate.
    + intros _. apply emits_bind; [exact Pclosed | apply emits_is_set, Pclosed|].
      intros [|]; [apply emits_ret, Pclosed|].
      apply emits_bind; [exact Pclosed | apply emits_emit, Psleep|].
      intros _. apply IH.
Qed.

Lemma emits_loop_body o st :
  (o_signal o <> None -> P [EvStop]) ->
  emits P (loop_body soup_select get_text json_dumps o st).
Proof.
  intros Hstop. unfold loop_body.
  apply emits_bind; [exact Pclosed| |intros _].
  { destruct (driver st); [apply emits_ret, Pclosed|].
    apply emits_bind; [exact Pclosed | apply emits_print, Pclosed | intros _].
    destruct (o_create o);
      [apply emits_raise, Pclosed | apply emits_raise, Pclosed
       | apply emits_emit, Psleep]. }
  apply emits_bind; [exact Pclosed| |intros html].
  { destruct (o_page_source o); [apply emits_ret | apply emits_raise];
      exact Pclosed. }
  apply emits_bind; [exact Pclosed | apply emits_lift, Pclosed | intros parsed].
  apply emits_bind; [exact Pclosed| |intros b].
  - destruct parsed as [|x xs].
    + apply emits_bind; [exact Pclosed| |intros to_save].
      * apply (emits_with_lock P (fun evs => evs = [])).
        -- intros w. eexists _, ([] ++ []). split; [|reflexivity].
           eapply runs_bind; [apply runs_read | apply runs_ret].
        -- intros evs ->. apply (Plocked_io []).
      * apply emits_bind; [exact Pclosed| |intros _; apply emits_ret, Pclosed].
        destruct (truthy to_save); [|apply emits_print, Pclosed].
        apply emits_bind; [exact Pclosed | apply emits_save|].
        intros _. apply emits_print, Pclosed.
    + apply emits_bind; [exact Pclosed| |intros _].
      * apply (emits_with_lock P (fun evs => evs = [EvAssign (DList (x :: xs))])).
        -- intros w. eexists _, _. split; [apply runs_emit | reflexivity].
        -- intros evs ->. apply Passign.
      * apply emits_bind; [exact Pclosed | apply emits_read, Pclosed | intros data].
        apply emits_bind; [exact Pclosed | apply emits_save|].
        intros _. apply emits_bind; [exact Pclosed | apply emits_print, Pclosed|].
        intros _. apply emits_ret, Pclosed.
  - apply emits_bind; [exact Pclosed | apply emits_poll_wait, Hstop|].
    intros _. apply emits_ret, Pclosed.
Qed.

Lemma emits_loop_handler o st :
  emits P (loop_handler json_dumps o st).
Proof.
  unfold loop_handler.
  apply emits_bind; [exact Pclosed | apply emits_print, Pclosed | intros _].
  apply emits_bind; [exact Pclosed| |intros _].
  - apply (emits_with_lock P (fun evs => exists ops, evs = map EvIO ops)).
    + apply emits_bind; [apply only_io_closed | apply emits_read, only_io_closed|].
      intros data. destruct (truthy data); [|apply emits_ret, only_io_closed].
      apply emits_bind; [apply only_io_closed| |].
      * intros w. destruct (save_json_atomic_io json_dumps (o_resave o) JSON_FILE
                              data (Some BACKUP_FILE) w) as (r & ops & Hrun & _).
        exists r, (map EvIO ops). split; [exact Hrun | exists ops; reflexivity].
      * intros _. apply emits_print, only_io_closed.
    + intros evs [ops ->]. apply Plocked_io.
  - apply emits_bind; [exact Pclosed | apply emits_emit, Psleep|].
    intros _. apply emits_ret, Pclosed.
Qed.

Lemma emits_scrape_iteration o st :
  (o_signal o <> None -> P [EvStop]) ->
  emits P (scrape_iteration soup_select get_text json_dumps o st).
Proof.
  intros Hstop. unfold scrape_iteration.
  apply emits_bind; [exact Pclosed| |intros st'].
  - apply emits_try; [exact Pclosed | apply emits_loop_body, Hstop|].
    intros _. apply emits_loop_handler.
  - apply emits_bind; [exact Pclosed| |intros _; apply emits_ret, Pclosed].
    unfold deliver_signal. destruct (o_signal o); [|apply emits_ret, Pclosed].
    apply emits_emit, Hstop. discriminate.
Qed.

Lemma emits_scrape_loop_from os st :
  Forall (fun o => o_signal o <> None -> P [EvStop]) os ->
  emits P (scrape_loop_from soup_select get_text json_dumps os st).
Proof.
  revert st. induction os as [|o os IH]; intros st Hall; cbn [scrape_loop_from].
  - apply emits_bind; [exact Pclosed | apply emits_is_set, Pclosed|].
    intros [|]; apply emits_ret, Pclosed.
  - apply Forall_cons in Hall as [Ho Hall].
    apply emits_bind; [exact Pclosed | apply emits_is_set, Pclosed|].
    intros [|]; [apply emits_ret, Pclosed|].
    apply emits_bind; [exact Pclosed | apply emits_scrape_iteration, Ho|].
    intros st'. apply IH, Hall.
Qed.
End EmitsLoop.

(** ** The lock *)

Lemma lock_trace_app held evs1 evs2 :
  lock_trace held (evs1 ++ evs2)
  = match lock_trace held evs1 with
    | Some held' => lock_trace held' evs2
    | None => None
    end.
Proof.
  revert held. induction evs1 as [|e evs1 IH]; intros held; [reflexivity|].
  destruct e; simpl; try apply IH; destruct held; try reflexivity; apply IH.
Qed.

Lemma lock_trace_io held ops : lock_trace held (map EvIO ops) = Some held.
Proof. induction ops as [|op ops IH]; simpl; [reflexivity | exact IH]. Qed.

Lemma lock_balanced_closed :
  trace_closed (fun evs => lock_trace false evs = Some false).
Proof.
  split; [reflexivity|]. intros evs1 evs2 H1 H2.
  rewrite lock_trace_app, H1. exact H2.
Qed.

Lemma lock_balanced_locked_io ops :
  lock_trace false (EvAcquire :: map EvIO ops ++ [EvRelease]) = Some false.
Proof. simpl. rewrite lock_trace_app, lock_trace_io. reflexivity. Qed.

Lemma emits_update_data_loop P supply :
  trace_closed P ->
  (forall d, P [EvAcquire; EvAssign (DDict d); EvRelease]) ->
  P [EvSleep Poll] ->
  emits P (update_data_loop supply).
Proof.
  intros Pclosed Pturn Psleep.
  induction supply as [|[d ok] rest IH]; cbn [update_data_loop].
  - apply emits_bind; [exact Pclosed | apply emits_is_set, Pclosed|].
    intros [|]; apply emits_ret, Pclosed.
  - apply emits_bind; [exact Pclosed | apply emits_is_set, Pclosed|].
    intros [|]; [apply emits_ret, Pclosed|].
    apply emits_bind; [exact Pclosed| |intros _; exact IH].
    unfold update_data_iteration.
    apply emits_bind; [exact Pclosed| |intros _].
    + intros w. eexists _, _. split; [|apply (Pturn d)].
      apply (runs_with_lock _ _ _ [EvAssign (DDict d)]), runs_emit.
    + apply emits_bind; [exact Pclosed | apply emits_print, Pclosed|].
      intros _. apply emits_emit, Psleep.
Qed.

Lemma emits_events_of {A} P (m : M A) w : emits P m -> P (events_of m w).
Proof.
  intros Hm. destruct (Hm w) as (r & evs & Hrun & Hp).
  rewrite (runs_events_of _ _ _ _ Hrun). exact Hp.
Qed.

Section LockMore.
Context {Tag : Type}.
Variable soup_select : pystr -> res (list Tag).
Variable get_text : Tag -> pystr.
Variable json_dumps : pydata -> pystr.

(** X8.  The lock is always given back and never taken twice.  In
    every run of [scrape_loop], whatever the outside world answers and
    also when an exception leaves the loop, the trace never takes
    [latest_data_lock] while it is held (the lock is not reentrant) and
    ends with the lock free; the same holds of [update_data_loop] and of
    the two views that read the store. *)
Theorem lock_always_released os st supply now w :
  lock_trace false
    (events_of (scrape_loop_from soup_select get_text json_dumps os st) w)
  = Some false
  /\ lock_trace false (events_of (update_data_loop supply) w) = Some false
  /\ lock_trace false (events_of (get_latest now) w) = Some false
  /\ lock_trace false (events_of (get_html_page now) w) = Some false.
Proof.
  split; [|split; [|split]].
  - apply (emits_events_of (fun evs => lock_trace false evs = Some false)).
    apply emits_scrape_loop_from.
    + apply lock_balanced_closed.
    + intros s. reflexivity.
    + intros ops. apply lock_trace_io.
    + intros x xs. reflexivity.
    + apply lock_balanced_locked_io.
    + apply Forall_forall. intros o _ _. reflexivity.
  - apply (emits_events_of (fun evs => lock_trace false evs = Some false)).
    apply emits_update_data_loop;
      [apply lock_balanced_closed | intros d; reflexivity | reflexivity].
  - assert (runs (get_latest now) w (fst (get_latest now w))
              [EvAcquire; EvRelease]) as Hrun.
    { unfold runs, get_latest, with_lock, bind, read_latest_data.
      change (latest_data (effect EvAcquire w)) with (latest_data w).
      destruct (truthy (latest_data w)); reflexivity. }
    rewrite (runs_events_of _ _ _ _ Hrun). reflexivity.
  - assert (runs (get_html_page now) w (fst (get_html_page now w))
              [EvAcquire; EvRelease]) as Hrun.
    { unfold runs, get_html_page, with_lock, bind, read_latest_data.
      change (latest_data (effect EvAcquire w)) with (latest_data w).
      destruct (truthy (latest_data w)); [|reflexivity].
      destruct (latest_data w); reflexivity. }
    rewrite (runs_events_of _ _ _ _ Hrun). reflexivity.
Qed.
End LockMore.

(** ** Stopping *)

Lemma stop_set_app evs1 evs2 : stop_set (evs1 ++ evs2) = stop_set evs1 || stop_set evs2.
Proof. apply existsb_app. Qed.

Lemma stop_effect e w : stop_event (effect e w) = stop_event w || stop_set [e].
Proof. destruct e; simpl; rewrite ?orb_false_r, ?orb_true_r; reflexivity. Qed.

Lemma stop_advance w evs : stop_event (advance w evs) = stop_event w || stop_set evs.
Proof.
  induction evs as [|e evs IH] using rev_ind; [simpl; rewrite orb_false_r; reflexivity|].
  rewrite advance_snoc, stop_effect, IH, stop_set_app, orb_assoc. reflexivity.
Qed.

Lemma no_stop_closed : trace_closed (fun evs => stop_set evs = false).
Proof.
  split; [reflexivity|]. intros evs1 evs2 H1 H2.
  rewrite stop_set_app, H1, H2. reflexivity.
Qed.

Lemma stop_set_io ops : stop_set (map EvIO ops) = false.
Proof. induction ops as [|op ops IH]; simpl; [reflexivity | exact IH]. Qed.

Lemma ticks_slept_app evs1 evs2 :
  ticks_slept (evs1 ++ evs2) = (ticks_slept evs1 + ticks_slept evs2)%nat.
Proof.
  induction evs1 as [|e evs1 IH]; [reflexivity|].
  destruct e as [| | |[]| |]; simpl; rewrite IH; reflexivity.
Qed.

(** The poll wait of a turn, started with [stop_event] not set. *)
Lemma poll_wait_ticks signal ticks k w :
  stop_event w = false ->
  (forall n, signal = Some n -> (k <= n)%nat) ->
  exists evs,
    runs (poll_wait signal ticks k) w (Ret tt) evs
    /\ ticks_slept evs
       = match signal with
         | None => ticks
         | Some n => Nat.min (n - k) ticks
         end
    /\ stop_set evs
       = match signal with
         | None => false
         | Some n => (n <? k + ticks)%nat
         end.
Proof.
  revert k w. induction ticks as [|ticks IH]; intros k w Hstop Hk.
  - exists []. split; [apply runs_ret|]. split.
    + destruct signal; [rewrite Nat.min_0_r|]; reflexivity.
    + destruct signal as [n|]; [|reflexivity].
      symmetry. apply Nat.ltb_ge. specialize (Hk n eq_refl). lia.
  - cbn [poll_wait].
    destruct signal as [n|].
    + specialize (Hk n eq_refl).
      destruct (n <=? k)%nat eqn:Hnk.
      * apply Nat.leb_le in Hnk.
        exists ([EvStop] ++ [] ++ []). split; [|split].
        -- eapply runs_bind; [apply runs_emit|].
           eapply runs_bind; [apply runs_is_set | apply runs_ret].
        -- simpl. replace (n - k)%nat with 0%nat by lia. reflexivity.
        -- simpl. symmetry. apply Nat.ltb_lt. lia.
      * apply Nat.leb_gt in Hnk.
        destruct (IH (S k) (advance (advance (advance w []) []) [EvSleep Tick]))
          as (evs & Hrun & Ht & Hs); [exact Hstop | intros ? [= <-]; lia|].
        exists ([] ++ [] ++ [EvSleep Tick] ++ evs). split; [|split].
        -- eapply runs_bind; [apply runs_ret|].
           eapply runs_bind; [apply runs_is_set|].
           rewrite !advance_nil, Hstop.
           eapply runs_bind; [apply runs_emit|].
           rewrite !advance_nil in Hrun. exact Hrun.
        -- simpl. rewrite Ht.
           replace (n - k)%nat with (S (n - S k))%nat by lia. reflexivity.
        -- simpl. rewrite Hs. replace (k + S ticks)%nat with (S k + ticks)%nat by lia.
           reflexivity.
    + destruct (IH (S k) (advance (advance (advance w []) []) [EvSleep Tick]))
        as (evs & Hrun & Ht & Hs); [exact Hstop | discriminate|].
      exists ([] ++ [] ++ [EvSleep Tick] ++ evs). split; [|split].
      * eapply runs_bind; [apply runs_ret|].
        eapply runs_bind; [apply runs_is_set|].
        rewrite !advance_nil, Hstop.
        eapply runs_bind; [apply runs_emit|].
        rewrite !advance_nil in Hrun. exact Hrun.
      * simpl. rewrite Ht. reflexivity.
      * simpl. exact Hs.
Qed.

(** X9.  The poll wait between two fetches: started with [stop_event]
    not set, it sleeps 20 ticks of a tenth of a second when no signal
    comes, and exactly [n] ticks when [stop_event] is found set at its
    [n]-th check ([n < 20]), which leaves [stop_event] set; started with
    [stop_event] set it does not sleep at all. *)
Theorem poll_wait_sleeps_until_signal signal w :
  (stop_event w = false ->
     ticks_slept (events_of (poll_wait signal POLL_TICKS 0) w)
     = match signal with
       | None => 20%nat
       | Some n => Nat.min n 20
       end
     /\ stop_event (snd (poll_wait signal POLL_TICKS 0 w))
        = match signal with
          | None => false
          | Some n => (n <? 20)%nat
          end)
  /\ (stop_event w = true ->
        ticks_slept (events_of (poll_wait signal POLL_TICKS 0) w) = 0%nat).
Proof.
  split.
  - intros Hstop.
    destruct (poll_wait_ticks signal POLL_TICKS 0 w Hstop) as (evs & Hrun & Ht & Hs);
      [intros; lia|].
    rewrite (runs_events_of _ _ _ _ Hrun), (runs_snd _ _ _ _ Hrun).
    rewrite stop_advance, Hstop, Ht, Hs. simpl orb.
    destruct signal as [n|]; [rewrite Nat.sub_0_r|]; split; reflexivity.
  - intros Hstop.
    assert (exists evs, runs (poll_wait signal POLL_TICKS 0) w (Ret tt) evs
                        /\ ticks_slept evs = 0%nat) as (evs & Hrun & Ht).
    { change POLL_TICKS with (S 19). cbn [poll_wait].
      destruct signal as [[|n]|].
      - exists ([EvStop] ++ [] ++ []). split; [|reflexivity].
        eapply runs_bind; [apply runs_emit|].
        eapply runs_bind; [apply runs_is_set | apply runs_ret].
      - exists ([] ++ [] ++ []). split; [|reflexivity].
        eapply runs_bind; [apply runs_ret|].
        eapply runs_bind; [apply runs_is_set|].
        rewrite !advance_nil, Hstop. apply runs_ret.
      - exists ([] ++ [] ++ []). split; [|reflexivity].
        eapply runs_bind; [apply runs_ret|].
        eapply runs_bind; [apply runs_is_set|].
        rewrite !advance_nil, Hstop. apply runs_ret. }
    rewrite (runs_events_of _ _ _ _ Hrun). exact Ht.
Qed.

Section StopMore.
Context {Tag : Type}.
Variable soup_select : pystr -> res (list Tag).
Variable get_text : Tag -> pystr.
Variable json_dumps : pydata -> pystr.

Abbreviation iteration := (scrape_iteration soup_select get_text json_dumps).
Abbreviation loop_from := (scrape_loop_from soup_select get_text json_dumps).
Abbreviation page_ext := (page_extraction soup_select get_text).
Abbreviation ext := (extraction soup_select get_text).

Lemma loop_from_stopped os st w :
  stop_event w = true -> loop_from os st w = (Ret Stopped, w).
Proof.
  intros Hstop. destruct os; cbn [scrape_loop_from]; unfold bind, is_set;
    rewrite Hstop; reflexivity.
Qed.

Lemma update_data_loop_stopped supply w :
  stop_event w = true -> update_data_loop supply w = (Ret tt, w).
Proof.
  intros Hstop. destruct supply as [|[d ok] rest]; cbn [update_data_loop];
    unfold bind, is_set; rewrite Hstop; reflexivity.
Qed.

Lemma signalled_turn_sets_stop o st w st' n :
  o_signal o = Some n -> fst (iteration o st w) = Ret st' ->
  stop_event (snd (iteration o st w)) = true.
Proof.
  unfold scrape_iteration, bind, deliver_signal. intros ->.
  destruct (try_except _ _ w) as [[a|e] w1]; simpl; [reflexivity | discriminate].
Qed.

(** A turn during which no signal arrives leaves [stop_event] alone. *)
Lemma quiet_turn_keeps_stop o st w :
  o_signal o = None ->
  stop_event (snd (iteration o st w)) = stop_event w.
Proof.
  intros Hsig.
  destruct (emits_scrape_iteration soup_select get_text json_dumps
              (fun evs => stop_set evs = false) no_stop_closed
              (fun s => eq_refl) stop_set_io (fun x xs => eq_refl)
              (fun ops => eq_trans (stop_set_app [EvAcquire] _)
                 (eq_trans (stop_set_app (map EvIO ops) [EvRelease])
                    (f_equal (fun b => b || false) (stop_set_io ops))))
              o st (fun H => False_ind _ (H Hsig)) w)
    as (r & evs & Hrun & Hno).
  rewrite (runs_snd _ _ _ _ Hrun), stop_advance, Hno. apply orb_false_r.
Qed.

(** X10.  Once the signal handler has run to its end, neither loop
    makes another turn: called with [stop_event] just set by
    [handle_signal], both return at once and leave the world as it is.
    The print of the handler comes before [stop_event.set()]: when it
    raises, the handler leaves the world as it was, [stop_event]
    included.  And when the signal arrives during a turn of
    [scrape_loop] that returns, the loop ends right after that turn,
    whatever turns were still to come. *)
Theorem signal_ends_the_loops :
  (forall os st w,
      loop_from os st (snd (handle_signal true w))
      = (Ret Stopped, snd (handle_signal true w)))
  /\ (forall supply w,
        update_data_loop supply (snd (handle_signal true w))
        = (Ret tt, snd (handle_signal true w)))
  /\ (forall w, handle_signal false w = (Raise UnicodeEncodeError, w))
  /\ (forall o rest st w st' n,
        stop_event w = false -> o_signal o = Some n ->
        fst (iteration o st w) = Ret st' ->
        loop_from (o :: rest) st w = (Ret Stopped, snd (iteration o st w))).
Proof.
  split; [|split; [|split]].
  - intros os st w. apply loop_from_stopped. reflexivity.
  - intros supply w. apply update_data_loop_stopped. reflexivity.
  - intros w. reflexivity.
  - intros o rest st w st' n Hstop Hsig Hret.
    pose proof (signalled_turn_sets_stop o st w st' n Hsig Hret) as Hset.
    cbn [scrape_loop_from]. unfold bind at 1. unfold is_set at 1. rewrite Hstop.
    unfold bind at 1.
    destruct (iteration o st w) as [r w1]. simpl in Hret, Hset. subst r.
    apply loop_from_stopped, Hset.
Qed.

(** X11.  The loop keeps running when the handler can do its work:
    started with [stop_event] not set, over any supply of turns in which
    no signal arrives and the handler's prints and save return (for the
    save: [os.path.abspath] and [mkstemp] succeed and the writer can
    print its own message), [scrape_loop] makes every turn without
    raising, whatever Selenium, the Extractor, the prints of the [try]
    body and the other system calls do, and is still running, with
    [stop_event] not set, when the supply is used up. *)
Theorem scrape_loop_keeps_running os st w :
  stop_event w = false ->
  Forall (fun o => o_signal o = None /\ handler_returns o = true) os ->
  exists st',
    fst (scrape_loop_from soup_select get_text json_dumps os st w)
    = Ret (Running st')
    /\ stop_event (snd (scrape_loop_from soup_select get_text json_dumps os st w))
       = false.
Proof.
  revert st w. induction os as [|o os IH]; intros st w Hstop Hall.
  - exists st. cbn [scrape_loop_from]. unfold bind, is_set. rewrite Hstop.
    split; [reflexivity | exact Hstop].
  - apply Forall_cons in Hall as [[Hsig Hh] Hall].
    cbn [scrape_loop_from]. unfold bind at 1 3. unfold is_set at 1 2.
    rewrite Hstop. unfold bind at 1 2.
    pose proof (quiet_turn_keeps_stop o st w Hsig) as Hkeep.
    pose proof (scrape_iteration_raises_only_from_handler soup_select get_text
                  json_dumps o st w) as Hcause.
    destruct (iteration o st w) as [r w1]. simpl in Hcause, Hkeep.
    destruct r as [st1|e]; [|specialize (Hcause e eq_refl); congruence].
    apply IH; [|exact Hall]. rewrite Hkeep. exact Hstop.
Qed.

(** X12.  A turn of [scrape_loop] that returns ends in one of two
    ways: its body ran through, then it keeps the webdriver and sleeps no
    back-off; or an exception was handled, then it has dropped the
    webdriver (the next turn creates a new one), slept exactly one
    back-off of [min(backoff, 30)] and doubled [backoff]. *)
Theorem turn_keeps_driver_or_backs_off o st w st' :
  fst (iteration o st w) = Ret st' ->
  (driver st' = true
   /\ backoff_delays (events_of (iteration o st) w) = []
   /\ backoff st' = turn_backoff (extraction soup_select get_text o st) (backoff st))
  \/ (driver st' = false
      /\ backoff_delays (events_of (iteration o st) w) = [py_min_30 (backoff st)]
      /\ backoff st' = py_double (backoff st)).
Proof.
  destruct (scrape_iteration_run soup_select get_text json_dumps o st w)
    as (r & evs & Hrun & _ & Hshape & _).
  rewrite (runs_fst _ _ _ _ Hrun), (runs_events_of _ _ _ _ Hrun).
  intros ->. destruct Hshape as [[Hd ->] | [Hd ->]];
    [left | right]; repeat split; assumption.
Qed.

(** *** Back-off over a run of failed turns *)

Lemma failed_loop_delays os k st w :
  backoff st = float_pow2 k -> stop_event w = false ->
  Forall (fun o => page_ext o = None /\ o_signal o = None
                   /\ handler_returns o = true) os ->
  exists st' evs,
    runs (loop_from os st) w (Ret (Running st')) evs
    /\ backoff_delays evs = map (fun i => nth_delay (k + i)) (seq 0 (length os))
    /\ backoff st' = float_pow2 (k + length os).
Proof.
  revert k st w. induction os as [|o os IH]; intros k st w Hk Hstop Hall.
  - exists st, ([] ++ []). split; [|split].
    + cbn [scrape_loop_from]. eapply runs_bind; [apply runs_is_set|].
      rewrite advance_nil, Hstop. apply runs_ret.
    + reflexivity.
    + rewrite Nat.add_0_r. exact Hk.
  - apply Forall_cons in Hall as [(Hpage & Hsig & Hh) Hall].
    destruct (scrape_iteration_run soup_select get_text json_dumps o st w)
      as (r & evs & Hrun & _ & _ & _ & Hfail & _).
    destruct (Hfail (no_page_no_extraction soup_select get_text o st Hpage) Hh)
      as [-> Hd].
    pose proof (quiet_turn_keeps_stop o st w Hsig) as Hkeep.
    rewrite (runs_snd _ _ _ _ Hrun), Hstop in Hkeep.
    destruct (IH (S k) (mkLocals false (py_double (backoff st))) (advance w evs))
      as (st' & evs2 & Hrun2 & Hd2 & Hb2).
    { simpl. rewrite Hk. apply py_double_pow2. }
    { exact Hkeep. }
    { exact Hall. }
    exists st', ([] ++ evs ++ evs2). split; [|split].
    + cbn [scrape_loop_from]. eapply runs_bind; [apply runs_is_set|].
      rewrite advance_nil, Hstop.
      eapply runs_bind; [exact Hrun | exact Hrun2].
    + simpl app. rewrite backoff_delays_app, Hd, Hd2, Hk, py_min_30_pow2.
      apply delays_shift.
    + rewrite Hb2. f_equal. simpl. lia.
Qed.

(** X19.  The back-off of consecutive failures.  Take a run of
    [scrape_loop] from a point where [backoff] is [2.0 ** k], with
    [stop_event] not set.  When every turn fails (the page cannot be
    fetched or parsed), no signal arrives and the handler does its
    work, each turn sleeps once, the delays are [min(2 ** (k + i), 30)]
    for [i = 0, 1, ..] up to the number of turns, and [backoff] has
    been doubled once a turn.  In any run in which the Extractor never
    returns a record, the delays are an initial part of that sequence
    (one delay at most for each turn), hence never decrease and lie
    between 1 and 30.  A turn whose extraction is non-empty, whose save
    returns and whose print returns, sleeps no back-off and leaves
    [backoff] at the floor [1.0]. *)
Theorem failed_turns_back_off_exponentially :
  (forall os k st w,
      backoff st = float_pow2 k -> stop_event w = false ->
      Forall (fun o => page_extraction soup_select get_text o = None
                       /\ o_signal o = None /\ handler_returns o = true) os ->
      backoff_delays
        (events_of (scrape_loop_from soup_select get_text json_dumps os st) w)
      = map (fun i => nth_delay (k + i)) (seq 0 (length os))
      /\ exists st',
           fst (scrape_loop_from soup_select get_text json_dumps os st w)
           = Ret (Running st')
           /\ backoff st' = float_pow2 (k + length os))
  /\ (forall os k st w,
        backoff st = float_pow2 k ->
        Forall (fun o => page_extraction soup_select get_text o = None
                         \/ page_extraction soup_select get_text o = Some []) os ->
        let delays :=
          backoff_delays
            (events_of (scrape_loop_from soup_select get_text json_dumps os st) w) in
        (exists n, (n <= length os)%nat
                   /\ delays = map (fun i => nth_delay (k + i)) (seq 0 n))
        /\ Sorted Z.le delays
        /\ Forall (fun d => 1 <= d <= 30) delays)
  /\ (forall o st w x xs,
        extraction soup_select get_text o st = Some (x :: xs) ->
        writer_returns (o_save o) = true -> o_print o PrintSaved = true ->
        fst (scrape_iteration soup_select get_text json_dumps o st w)
        = Ret (mkLocals true (FFin 1))
        /\ backoff_delays
             (events_of (scrape_iteration soup_select get_text json_dumps o st) w)
           = []).
Proof.
  split; [|split].
  - intros os k st w Hk Hstop Hall.
    destruct (failed_loop_delays os k st w Hk Hstop Hall)
      as (st' & evs & Hrun & Hd & Hb).
    rewrite (runs_events_of _ _ _ _ Hrun), (runs_fst _ _ _ _ Hrun).
    split; [exact Hd | exists st'; split; [reflexivity | exact Hb]].
  - intros os k st w Hk Hquiet delays. subst delays.
    destruct (scrape_loop_delays soup_select get_text json_dumps os k st w Hk Hquiet)
      as (r & evs & n & Hrun & Hd & Hn).
    rewrite (runs_events_of _ _ _ _ Hrun), Hd.
    split; [exists n; split; [exact Hn | reflexivity]|]. split.
    + apply delays_sorted.
    + apply Forall_forall. intros d Hin.
      apply list_elem_of_fmap in Hin as (i & -> & _). apply nth_delay_bounds.
  - intros o st w x xs Hext Hw Hp.
    destruct (scrape_iteration_run soup_select get_text json_dumps o st w)
      as (r & evs & Hrun & _ & _ & Hreset & _).
    destruct (Hreset x xs Hext Hw Hp) as [-> Hd].
    rewrite (runs_events_of _ _ _ _ Hrun), (runs_fst _ _ _ _ Hrun).
    split; [reflexivity | exact Hd].
Qed.
End StopMore.

(** ** The simulated updater *)

Lemma update_data_iteration_run d ok w :
  runs (update_data_iteration d ok) w
       (if ok then Ret tt else Raise UnicodeEncodeError)
       ([EvAcquire; EvAssign (DDict d); EvRelease]
        ++ if ok then [EvSleep Poll] else []).
Proof. destruct ok; reflexivity. Qed.

Lemma update_data_loop_run supply w :
  stop_event w = false ->
  exists evs,
    runs (update_data_loop supply) w
         (if forallb snd supply then Ret tt else Raise UnicodeEncodeError) evs
    /\ io_ops evs = []
    /\ assigns evs = map DDict (turns_made supply).
Proof.
  revert w. induction supply as [|[d ok] rest IH]; intros w Hstop;
    cbn [update_data_loop].
  - exists ([] ++ []). split; [|split; reflexivity].
    eapply runs_bind; [apply runs_is_set|].
    rewrite advance_nil, Hstop. apply runs_ret.
  - pose proof (update_data_iteration_run d ok w) as Hturn.
    destruct ok.
    + destruct (IH (advance w ([EvAcquire; EvAssign (DDict d); EvRelease]
                                ++ [EvSleep Poll])) Hstop)
        as (evs & Hrun & Hio & Ha).
      exists ([] ++ ([EvAcquire; EvAssign (DDict d); EvRelease] ++ [EvSleep Poll])
                ++ evs).
      split; [|split].
      * eapply runs_bind; [apply runs_is_set|].
        rewrite advance_nil, Hstop.
        eapply runs_bind; [exact Hturn | exact Hrun].
      * simpl. exact Hio.
      * simpl. rewrite Ha. reflexivity.
    + exists ([] ++ [EvAcquire; EvAssign (DDict d); EvRelease] ++ []).
      split; [|split; reflexivity].
      eapply runs_bind; [apply runs_is_set|].
      rewrite advance_nil, Hstop.
      apply runs_bind_raise. exact Hturn.
Qed.

(** X13.  [update_data_loop] itself makes no system call and leaves
    every file as it is, whatever values it generates.  Started with
    [stop_event] not set, it assigns the generated dicts in order, up to
    and including the first turn whose print raises; that exception
    leaves the function, and the store is left with the dict assigned
    last. *)
Theorem update_data_loop_makes_no_system_call supply w :
  calls_of (update_data_loop supply) w = []
  /\ w_fs (snd (update_data_loop supply w)) = w_fs w
  /\ (stop_event w = false ->
      assigns (events_of (update_data_loop supply) w)
      = map DDict (turns_made supply)
      /\ is_ret (fst (update_data_loop supply w)) = forallb snd supply
      /\ forall d, last (turns_made supply) = Some d ->
                   latest_data (snd (update_data_loop supply w)) = DDict d).
Proof.
  destruct (stop_event w) eqn:Hstop.
  - rewrite (update_data_loop_stopped supply w Hstop).
    unfold calls_of, events_of. rewrite (update_data_loop_stopped supply w Hstop).
    simpl. rewrite drop_all.
    split; [reflexivity|]. split; [reflexivity | discriminate].
  - destruct (update_data_loop_run supply w Hstop) as (evs & Hrun & Hio & Ha).
    rewrite (runs_calls _ _ _ _ Hrun), (runs_snd _ _ _ _ Hrun),
      (runs_events_of _ _ _ _ Hrun), (runs_fst _ _ _ _ Hrun).
    rewrite fs_advance, latest_advance, Hio, Ha.
    split; [reflexivity|]. split; [reflexivity|]. intros _.
    split; [reflexivity|]. split.
    + destruct (forallb snd supply); reflexivity.
    + intros d Hlast.
      change (map DDict (turns_made supply)) with (DDict <$> turns_made supply).
      rewrite fmap_last, Hlast. reflexivity.
Qed.
(** ** The disk mirror after a turn *)

Lemma hoare_any {A} P (m : M A) (Q : res A -> world -> Prop) :
  (forall r w, Q r w) -> hoare P m Q.
Proof. intros HQ w _. apply HQ. Qed.

Lemma hoare_ret {A} (P : world -> Prop) (a : A) (Q : res A -> world -> Prop) :
  (forall w, P w -> Q (Ret a) w) -> hoare P (ret a) Q.
Proof. intros H w Hp. apply H, Hp. Qed.

Lemma hoare_bind {A B} P (Pmid : A -> world -> Prop) (m : M A) (k : A -> M B) Q :
  hoare P m (fun r w => match r with
                        | Ret a => Pmid a w
                        | Raise e => Q (Raise e) w
                        end) ->
  (forall a, hoare (Pmid a) (k a) Q) ->
  hoare P (bind m k) Q.
Proof.
  intros Hm Hk w Hp. specialize (Hm w Hp). unfold bind.
  destruct (m w) as [[a|e] w1]; simpl in Hm |- *; [apply Hk, Hm | exact Hm].
Qed.

Lemma hoare_try {A} P (Pmid : exn -> world -> Prop) (body : M A) h Q :
  hoare P body (fun r w => match r with
                           | Ret a => Q (Ret a) w
                           | Raise e => Pmid e w
                           end) ->
  (forall e, hoare (Pmid e) (h e) Q) ->
  hoare P (try_except body h) Q.
Proof.
  intros Hb Hh w Hp. specialize (Hb w Hp). unfold try_except.
  destruct (body w) as [[a|e] w1]; simpl in Hb |- *; [exact Hb | apply Hh, Hb].
Qed.

Lemma hoare_with_lock {A} P (body : M A) Q :
  hoare (fun w => exists w0, P w0 /\ w = effect EvAcquire w0) body
        (fun r w => Q r (effect EvRelease w)) ->
  hoare P (with_lock body) Q.
Proof.
  intros Hb w Hp. specialize (Hb (effect EvAcquire w) (ex_intro _ w (conj Hp eq_refl))).
  unfold with_lock. destruct (body (effect EvAcquire w)) as [r w1]. exact Hb.
Qed.

Lemma hoare_assume {A} (fact : Prop) P (m : M A) Q :
  (fact -> hoare P m Q) -> hoare (fun w => fact /\ P w) m Q.
Proof. intros H w [Hf Hp]. apply (H Hf), Hp. Qed.

Lemma hoare_assume_r {A} (fact : Prop) P (m : M A) Q :
  (fact -> hoare P m Q) -> hoare (fun w => P w /\ fact) m Q.
Proof. intros H w [Hp Hf]. apply (H Hf), Hp. Qed.

Section Mirror.
Context {Tag : Type}.
Variable soup_select : pystr -> res (list Tag).
Variable get_text : Tag -> pystr.
Variable json_dumps : pydata -> pystr.

Abbreviation save := (save_json_atomic json_dumps).
Abbreviation mirror := (mirrored json_dumps).

Lemma mirrored_advance w evs :
  io_ops evs = [] -> assigns evs = [] -> mirror w -> mirror (advance w evs).
Proof.
  intros Hio Ha Hm. unfold mirrored.
  rewrite fs_advance, latest_advance, Hio, Ha. exact Hm.
Qed.

Lemma hoare_save_mirrors o d :
  writer_succeeds o = true ->
  fresh_tmp o JSON_FILE (Some BACKUP_FILE) = true ->
  truthy d = true ->
  hoare (fun w => latest_data w = d)
        (save o JSON_FILE d (Some BACKUP_FILE))
        (fun r w => r = Ret tt /\ mirror w).
Proof.
  intros Hok Hfresh Ht w Hl.
  pose proof (save_json_atomic_run json_dumps o JSON_FILE d (Some BACKUP_FILE) w Ht)
    as Hrun.
  rewrite (runs_fst _ _ _ _ Hrun), (runs_snd _ _ _ _ Hrun). split.
  - apply writer_succeeds_result, Hok.
  - unfold mirrored.
    rewrite fs_advance, latest_advance, io_ops_map_io, assigns_map_io. simpl.
    rewrite Hl. intros _. apply writer_calls_succeeded_primary; assumption.
Qed.

(** A save that succeeds, then a print: the disk mirrors the store
    whether the print returns or raises. *)
Lemma hoare_save_print o ok d :
  writer_succeeds o = true ->
  fresh_tmp o JSON_FILE (Some BACKUP_FILE) = true ->
  truthy d = true ->
  hoare (fun w => latest_data w = d)
        (save o JSON_FILE d (Some BACKUP_FILE) ;;; py_print ok)
        (fun r w => mirror w /\ is_ret r = ok).
Proof.
  intros Hok Hfresh Ht w Hl.
  destruct (hoare_save_mirrors o d Hok Hfresh Ht w Hl) as [Hr Hm].
  unfold bind.
  destruct (save o JSON_FILE d (Some BACKUP_FILE) w) as [r w1].
  simpl in Hr, Hm. subst r. destruct ok; split; (exact Hm || reflexivity).
Qed.

(** The turn whose two saves succeed; [at_start] says whether the disk
    mirrors the store when the turn starts. *)
Variable o : iter_oracle.
Hypothesis Hsave : writer_succeeds (o_save o) = true.
Hypothesis Hsave_fresh : fresh_tmp (o_save o) JSON_FILE (Some BACKUP_FILE) = true.
Hypothesis Hresave : writer_succeeds (o_resave o) = true.
Hypothesis Hresave_fresh :
  fresh_tmp (o_resave o) JSON_FILE (Some BACKUP_FILE) = true.
Variable at_start : Prop.

Abbreviation kept := (fun w : world => at_start -> mirror w).
Abbreviation turn_post :=
  (fun (r : res locals) (w : world) =>
     match r with Ret _ => mirror w | Raise _ => at_start -> mirror w end).

Lemma hoare_poll_then_ret b :
  hoare mirror
        (poll_wait (o_signal o) POLL_TICKS 0 ;;; ret (mkLocals true b))
        turn_post.
Proof.
  apply (hoare_bind _ (fun _ w => mirror w)).
  - intros w Hm.
    destruct (runs_poll_wait (o_signal o) POLL_TICKS 0 w) as (evs & Hrun & Ha & _ & Hio).
    rewrite (runs_fst _ _ _ _ Hrun), (runs_snd _ _ _ _ Hrun).
    apply mirrored_advance; assumption.
  - intros _. apply hoare_ret. intros w Hm. exact Hm.
Qed.

Lemma hoare_loop_body st :
  hoare kept (loop_body soup_select get_text json_dumps o st) turn_post.
Proof.
  pose proof Hsave as Hok. pose proof Hsave_fresh as Hfresh.
  unfold loop_body.
  apply (hoare_bind _ (fun _ w => kept w)).
  { intros w Hk. destruct (driver st); [exact Hk|].
    destruct (o_print o PrintStarting); [|exact Hk].
    destruct (o_create o); exact Hk. }
  intros _.
  apply (hoare_bind _ (fun _ w => kept w)).
  { intros w Hk. destruct (o_page_source o); exact Hk. }
  intros html.
  apply (hoare_bind _ (fun _ w => kept w)).
  { intros w Hk. unfold lift. simpl.
    destruct (parse_market_from_html soup_select get_text html); exact Hk. }
  intros parsed.
  apply (hoare_bind _ (fun _ w => mirror w)); [|intros b; apply hoare_poll_then_ret].
  destruct parsed as [|x xs].
  - apply (hoare_bind _ (fun to_save w => to_save = latest_data w)).
    { intros w _. reflexivity. }
    intros to_save.
    apply (hoare_bind _ (fun _ w => mirror w)).
    + destruct (truthy to_save) eqn:Ht.
      * intros w Hl.
        destruct (hoare_save_print (o_save o) (o_print o PrintResaved) to_save
                    Hok Hfresh Ht w (eq_sym Hl)) as [Hm _].
        destruct (fst _); [exact Hm | intros _; exact Hm].
      * intros w Hl.
        assert (mirror w) as Hm
          by (unfold mirrored; rewrite <- Hl, Ht; discriminate).
        destruct (o_print o PrintNoSnapshot); [exact Hm | intros _; exact Hm].
    + intros _. apply hoare_ret. intros w Hm. exact Hm.
  - set (d := DList (x :: xs)).
    apply (hoare_bind _ (fun _ w => latest_data w = d)).
    { intros w _. reflexivity. }
    intros _.
    apply (hoare_bind _ (fun data w => data = d /\ latest_data w = d)).
    { intros w Hl. simpl. split; exact Hl. }
    intros data.
    apply (hoare_bind _ (fun _ w => mirror w)).
    + intros w [-> Hl].
      pose proof (hoare_save_mirrors (o_save o) d Hok Hfresh eq_refl w Hl) as [Hr Hm].
      rewrite Hr. exact Hm.
    + intros _. apply (hoare_bind _ (fun _ w => mirror w)).
      * intros w Hm.
        destruct (o_print o PrintSaved); [exact Hm | intros _; exact Hm].
      * intros _. apply hoare_ret. intros w Hm. exact Hm.
Qed.

Lemma hoare_loop_handler st :
  hoare kept (loop_handler json_dumps o st)
        (fun r w =>
           turn_post r w
           /\ (o_print o PrintCaught = true -> o_print o PrintAfterError = true ->
               is_ret r = true)).
Proof.
  pose proof Hresave as Hok. pose proof Hresave_fresh as Hfresh.
  unfold loop_handler.
  destruct (o_print o PrintCaught).
  2:{ intros w Hk. split; [exact Hk | discriminate]. }
  apply (hoare_bind _ (fun _ w => kept w)).
  { intros w Hk. exact Hk. }
  intros _.
  apply (hoare_bind _ (fun _ w => mirror w)).
  - apply hoare_with_lock.
    apply (hoare_bind _ (fun data w => data = latest_data w)).
    { intros w _. reflexivity. }
    intros data. destruct (truthy data) eqn:Ht.
    + intros w Hl.
      destruct (hoare_save_print (o_resave o) (o_print o PrintAfterError) data
                  Hok Hfresh Ht w (eq_sym Hl)) as [Hm Hr].
      assert (mirror (effect EvRelease
                        (snd ((save (o_resave o) JSON_FILE data (Some BACKUP_FILE) ;;;
                               py_print (o_print o PrintAfterError)) w)))) as Hm'
        by (apply (mirrored_advance _ [EvRelease]);
              [reflexivity | reflexivity | exact Hm]).
      destruct (fst _); [exact Hm'|].
      split; [intros _; exact Hm'|].
      intros _ Hp. rewrite Hp in Hr. discriminate.
    + apply hoare_ret. intros w Hl. unfold mirrored. simpl.
      rewrite <- Hl, Ht. discriminate.
  - intros _. apply (hoare_bind _ (fun _ w => mirror w)).
    + intros w Hm. simpl.
      apply (mirrored_advance _ [EvSleep _]); [reflexivity | reflexivity | exact Hm].
    + intros _. apply hoare_ret. intros w Hm. split; [exact Hm | reflexivity].
Qed.

Lemma hoare_scrape_iteration st :
  hoare kept (scrape_iteration soup_select get_text json_dumps o st)
        (fun r w =>
           turn_post r w
           /\ (o_print o PrintCaught = true -> o_print o PrintAfterError = true ->
               is_ret r = true)).
Proof.
  unfold scrape_iteration.
  apply (hoare_bind _ (fun _ w => mirror w)).
  - apply (hoare_try _ (fun _ w => kept w)).
    + intros w Hp. pose proof (hoare_loop_body st w Hp) as H.
      destruct (fst (loop_body soup_select get_text json_dumps o st w)); exact H.
    + intros e w Hp. destruct (hoare_loop_handler st w Hp) as [Hm Hr].
      destruct (fst (loop_handler json_dumps o st w));
        [exact Hm | split; [exact Hm | exact Hr]].
  - intros st'. apply (hoare_bind _ (fun _ w => mirror w)).
    + intros w Hm.
      destruct (runs_deliver_signal (o_signal o) w) as (evs & Hrun & Ha & _ & Hio).
      rewrite (runs_fst _ _ _ _ Hrun), (runs_snd _ _ _ _ Hrun).
      apply mirrored_advance; assumption.
    + intros _. apply hoare_ret. intros w Hm. split; [exact Hm | reflexivity].
Qed.
End Mirror.

Section MirrorClaim.
Context {Tag : Type}.
Variable soup_select : pystr -> res (list Tag).
Variable get_text : Tag -> pystr.
Variable json_dumps : pydata -> pystr.

(** X15.  After a turn the disk mirrors the store.  Take a turn whose
    saves succeed in their system calls (the copy to the backup apart).
    When the turn returns, the primary file holds exactly the
    serialized store, if the store holds data: after a fresh extraction,
    after an empty one over a store that holds data, and after a
    handled exception alike.  When an exception leaves the turn (a
    print of the handler raised), the primary file still mirrors the
    store if it did when the turn started.  The turn returns when the
    two prints of the handler return. *)
Theorem turn_leaves_disk_mirroring_store o st w :
  writer_succeeds (o_save o) = true ->
  fresh_tmp (o_save o) JSON_FILE (Some BACKUP_FILE) = true ->
  writer_succeeds (o_resave o) = true ->
  fresh_tmp (o_resave o) JSON_FILE (Some BACKUP_FILE) = true ->
  let r := fst (scrape_iteration soup_select get_text json_dumps o st w) in
  let w' := snd (scrape_iteration soup_select get_text json_dumps o st w) in
  (is_ret r = true -> mirrored json_dumps w')
  /\ (mirrored json_dumps w -> mirrored json_dumps w')
  /\ (o_print o PrintCaught = true -> o_print o PrintAfterError = true ->
      is_ret r = true).
Proof.
  intros H1 H2 H3 H4 r w'. subst r w'.
  destruct (hoare_scrape_iteration soup_select get_text json_dumps o H1 H2 H3 H4
              (mirrored json_dumps w) st w (fun H => H)) as [Hpost Hret].
  destruct (fst (scrape_iteration soup_select get_text json_dumps o st w)) as [st'|e].
  - split; [intros _; exact Hpost|]. split; [intros _; exact Hpost | exact Hret].
  - split; [discriminate|]. split; [exact Hpost | exact Hret].
Qed.
End MirrorClaim.

(** ** The store, the disk and the readers across a turn *)

Lemma view_advance w evs :
  io_ops evs = [] -> assigns evs = [] ->
  w_fs (advance w evs) = w_fs w /\ latest_data (advance w evs) = latest_data w.
Proof.
  intros Hio Ha. rewrite fs_advance, latest_advance, Hio, Ha. split; reflexivity.
Qed.

Lemma get_latest_of_list now w x xs :
  latest_data w = DList (x :: xs) ->
  fst (get_latest now w)
  = Ret (200, LatestBody now (Z.of_nat (length (x :: xs))) (DList (x :: xs))).
Proof.
  intros Hl. unfold get_latest, with_lock, bind, read_latest_data.
  change (latest_data (effect EvAcquire w)) with (latest_data w).
  rewrite Hl. reflexivity.
Qed.

Section TurnMore.
Context {Tag : Type}.
Variable soup_select : pystr -> res (list Tag).
Variable get_text : Tag -> pystr.
Variable json_dumps : pydata -> pystr.

Abbreviation iteration := (scrape_iteration soup_select get_text json_dumps).
Abbreviation loop_from := (scrape_loop_from soup_select get_text json_dumps).
Abbreviation ext := (extraction soup_select get_text).
Abbreviation page_ext := (page_extraction soup_select get_text).

(** X16.  What the Extractor found is served at once: after a turn
    whose extraction is non-empty the store holds exactly the extracted
    records and [GET /latest] answers 200 with them and their number,
    whatever the writer and the prints do afterwards, also when the
    save fails or an exception leaves the loop. *)
Theorem fresh_extraction_is_served o st w x xs now :
  extraction soup_select get_text o st = Some (x :: xs) ->
  let w' := snd (scrape_iteration soup_select get_text json_dumps o st w) in
  latest_data w' = DList (x :: xs)
  /\ fst (get_latest now w')
     = Ret (200, LatestBody now (Z.of_nat (length (x :: xs))) (DList (x :: xs))).
Proof.
  intros Hext w'. subst w'.
  destruct (scrape_iteration_run soup_select get_text json_dumps o st w)
    as (r & evs & Hrun & Ha & _).
  rewrite Hext in Ha.
  assert (latest_data (snd (iteration o st w)) = DList (x :: xs)) as Hl.
  { rewrite (runs_snd _ _ _ _ Hrun), latest_advance, Ha. reflexivity. }
  split; [exact Hl | apply get_latest_of_list, Hl].
Qed.

(** *** A turn with an empty extraction over a mirrored store *)

Lemma ext_empty_inv o st :
  ext o st = Some [] ->
  (driver st = true \/ (o_print o PrintStarting = true /\ o_create o = Created))
  /\ exists h, o_page_source o = Some h
               /\ parse_market_from_html soup_select get_text h = Ret [].
Proof.
  unfold extraction, page_extraction. intros Hext. split.
  - destruct (driver st); [left; reflexivity|].
    destruct (o_print o PrintStarting); [|discriminate].
    destruct (o_create o); simpl in Hext; try discriminate.
    right. split; reflexivity.
  - destruct (driver st || _); [|discriminate].
    destruct (o_page_source o) as [h|]; [|discriminate].
    exists h. split; [reflexivity|].
    destruct (parse_market_from_html soup_select get_text h) as [l|]; [|discriminate].
    congruence.
Qed.

Lemma settled_advance L b w evs :
  io_ops evs = [] -> assigns evs = [] ->
  settled json_dumps L b w -> settled json_dumps L b (advance w evs).
Proof.
  intros Hio Ha (H1 & H2 & H3).
  destruct (view_advance w evs Hio Ha) as [Hfs Hl].
  unfold settled. rewrite Hfs, Hl. repeat split; assumption.
Qed.

Lemma settled_weaken L w : settled json_dumps L true w -> settled json_dumps L false w.
Proof. intros (H1 & H2 & _). repeat split; (assumption || discriminate). Qed.

(** A save of the stored snapshot in which nothing fails, then a print:
    the primary file is as before and the backup file is equal to it. *)
Lemma hoare_resave_settles L tmp ok :
  truthy L = true -> tmp <> JSON_FILE -> tmp <> BACKUP_FILE ->
  hoare (settled json_dumps L false)
        (save_json_atomic json_dumps (writer_ok tmp) JSON_FILE L (Some BACKUP_FILE) ;;;
         py_print ok)
        (fun r w => settled json_dumps L true w /\ is_ret r = ok).
Proof.
  intros Ht Htp Htb w (Hl & Hf & _).
  pose proof (save_json_atomic_run json_dumps (writer_ok tmp) JSON_FILE L
                (Some BACKUP_FILE) w Ht) as Hrun.
  assert (writer_result json_dumps (writer_ok tmp) JSON_FILE L (Some BACKUP_FILE)
            (w_fs w) = Ret tt) as Hres
    by (apply writer_succeeds_result; reflexivity).
  rewrite Hres in Hrun.
  assert (settled json_dumps L true (snd (save_json_atomic json_dumps (writer_ok tmp) JSON_FILE L
                                 (Some BACKUP_FILE) w))) as Hs.
  { rewrite (runs_snd _ _ _ _ Hrun). unfold settled.
    rewrite fs_advance, latest_advance, io_ops_map_io, assigns_map_io.
    simpl default. split; [exact Hl|]. split.
    - apply writer_calls_succeeded_primary; [|reflexivity].
      apply (fresh_tmp_ok tmp JSON_FILE (Some BACKUP_FILE) BACKUP_FILE);
        [reflexivity | exact Htp | exact Htb].
    - intros _.
      apply (writer_ok_backup json_dumps tmp JSON_FILE L (Some BACKUP_FILE)
               BACKUP_FILE (w_fs w) (json_dumps L));
        [reflexivity | discriminate | exact Htp | exact Htb | exact Hf]. }
  unfold bind. rewrite Hrun in Hs |- *. simpl in Hs.
  destruct ok; split; (exact Hs || reflexivity).
Qed.

(** X17.  The defensive re-save overwrites the backup with the current
    snapshot.  Take a store that holds data and a primary file that
    mirrors it, and a turn whose extraction is empty and whose saves
    succeed in every system call.  After the turn the store and the
    primary file are as before and the backup file is equal to the
    primary file: what the backup held before, the snapshot written
    before the current one, is gone.  This holds whatever the prints
    do, also when an exception leaves the loop; the turn returns when
    the print that follows the save returns. *)
Theorem empty_turn_overwrites_backup o st w tmp tmp' :
  extraction soup_select get_text o st = Some [] ->
  o_save o = writer_ok tmp -> tmp <> JSON_FILE -> tmp <> BACKUP_FILE ->
  o_resave o = writer_ok tmp' -> tmp' <> JSON_FILE -> tmp' <> BACKUP_FILE ->
  truthy (latest_data w) = true ->
  w_fs w !! JSON_FILE = Some (json_dumps (latest_data w)) ->
  let w' := snd (scrape_iteration soup_select get_text json_dumps o st w) in
  latest_data w' = latest_data w
  /\ w_fs w' !! JSON_FILE = Some (json_dumps (latest_data w))
  /\ w_fs w' !! BACKUP_FILE = Some (json_dumps (latest_data w))
  /\ (o_print o PrintResaved = true ->
      is_ret (fst (scrape_iteration soup_select get_text json_dumps o st w)) = true).
Proof.
  intros Hext Hsave Htp Htb Hresave Htp' Htb' Ht Hmirror.
  destruct (ext_empty_inv o st Hext) as (Hdrv & h & Hpage & Hparse).
  set (L := latest_data w) in *.
  set (PR := o_print o PrintResaved).
  set (post := fun (A : Type) (r : res A) (w1 : world) =>
                 settled json_dumps L true w1 /\ (PR = true -> is_ret r = true)).
  assert (hoare (settled json_dumps L false) (iteration o st) (post locals)) as Hturn.
  { unfold scrape_iteration.
    apply (hoare_bind _ (fun _ w1 => settled json_dumps L true w1)).
    - apply (hoare_try _ (fun _ w1 => settled json_dumps L true w1 /\ PR = false)).
      + (* the body *)
        assert (hoare (settled json_dumps L false)
                  (loop_body soup_select get_text json_dumps o st)
                  (post locals)) as Hbody.
        { unfold loop_body.
          apply (hoare_bind _ (fun _ w1 => settled json_dumps L false w1)).
          { intros w1 Hs.
            destruct (driver st); [exact Hs|].
            destruct Hdrv as [? | [-> ->]]; [discriminate|]. exact Hs. }
          intros _. rewrite Hpage.
          apply (hoare_bind _ (fun html w1 => html = h /\ settled json_dumps L false w1)).
          { intros w1 Hs. split; [reflexivity | exact Hs]. }
          intros html. apply hoare_assume. intros ->. rewrite Hparse.
          apply (hoare_bind _ (fun parsed w1 => parsed = [] /\ settled json_dumps L false w1)).
          { intros w1 Hs. split; [reflexivity | exact Hs]. }
          intros parsed. apply hoare_assume. intros ->.
          apply (hoare_bind _ (fun _ w1 => settled json_dumps L true w1)).
          - apply (hoare_bind _ (fun to_save w1 => to_save = L /\ settled json_dumps L false w1)).
            { intros w1 Hs. simpl. split; [apply Hs|].
              apply (settled_advance L false w1 [EvAcquire; EvRelease]);
                [reflexivity | reflexivity | exact Hs]. }
            intros to_save. apply hoare_assume. intros ->. rewrite Ht, Hsave.
            apply (hoare_bind _ (fun _ w1 => settled json_dumps L true w1)).
            + intros w1 Hs.
              destruct (hoare_resave_settles L tmp PR Ht Htp Htb w1 Hs) as [Hs' Hr].
              fold PR. destruct (fst _); [exact Hs'|].
              split; [exact Hs' | intros Hp; rewrite Hp in Hr; discriminate].
            + intros _. apply hoare_ret. intros w1 Hs. exact Hs.
          - intros b. apply (hoare_bind _ (fun _ w1 => settled json_dumps L true w1)).
            + intros w1 Hs.
              destruct (runs_poll_wait (o_signal o) POLL_TICKS 0 w1)
                as (evs & Hrun & Ha & _ & Hio).
              rewrite (runs_fst _ _ _ _ Hrun), (runs_snd _ _ _ _ Hrun).
              apply settled_advance; assumption.
            + intros _. apply hoare_ret. intros w1 Hs.
              split; [exact Hs | reflexivity]. }
        intros w1 Hs. destruct (Hbody w1 Hs) as [Hs' Hr].
        destruct (fst _); [exact Hs'|].
        split; [exact Hs'|]. destruct PR; [specialize (Hr eq_refl); discriminate|].
        reflexivity.
      + (* the handler, reached only when the print after the save raised *)
        intros e. apply hoare_assume_r. intros Hpr.
        unfold loop_handler.
        assert (forall (A : Type) (r : res A) w1, settled json_dumps L true w1 -> post A r w1)
          as Hpost.
        { intros A r w1 Hs. split; [exact Hs|]. rewrite Hpr. discriminate. }
        apply (hoare_bind _ (fun _ w1 => settled json_dumps L true w1)).
        { intros w1 Hs. destruct (o_print o PrintCaught);
            [exact Hs | apply Hpost, Hs]. }
        intros _.
        apply (hoare_bind _ (fun _ w1 => settled json_dumps L true w1)).
        * apply hoare_with_lock.
          apply (hoare_bind _ (fun data w1 => data = L /\ settled json_dumps L true w1)).
          { intros w1 (w0 & Hs & ->). simpl. split; [apply Hs|].
            apply (settled_advance L true w0 [EvAcquire]);
              [reflexivity | reflexivity | exact Hs]. }
          intros data. apply hoare_assume. intros ->. rewrite Ht, Hresave.
          intros w1 Hs.
          destruct (hoare_resave_settles L tmp' (o_print o PrintAfterError)
                      Ht Htp' Htb' w1 (settled_weaken L w1 Hs)) as [Hs' _].
          assert (settled json_dumps L true
                    (effect EvRelease
                       (snd ((save_json_atomic json_dumps (writer_ok tmp') JSON_FILE L
                                (Some BACKUP_FILE) ;;;
                              py_print (o_print o PrintAfterError)) w1)))) as Hs''
            by (apply (settled_advance L true _ [EvRelease]);
                  [reflexivity | reflexivity | exact Hs']).
          destruct (fst _); [exact Hs'' | apply Hpost, Hs''].
        * intros _. apply (hoare_bind _ (fun _ w1 => settled json_dumps L true w1)).
          -- intros w1 Hs. simpl.
             apply (settled_advance L true w1 [EvSleep _]);
               [reflexivity | reflexivity | exact Hs].
          -- intros _. apply hoare_ret. intros w1 Hs. exact Hs.
    - intros st'. apply (hoare_bind _ (fun _ w1 => settled json_dumps L true w1)).
      + intros w1 Hs.
        destruct (runs_deliver_signal (o_signal o) w1) as (evs & Hrun & Ha & _ & Hio).
        rewrite (runs_fst _ _ _ _ Hrun), (runs_snd _ _ _ _ Hrun).
        apply settled_advance; assumption.
      + intros _. apply hoare_ret. intros w1 Hs. split; [exact Hs | reflexivity]. }
  intros w'. subst w'.
  destruct (Hturn w) as ((Hl & Hp & Hb) & Hr).
  { repeat split; (reflexivity || assumption || discriminate). }
  repeat split; auto.
Qed.
End TurnMore.

(** ** Before the first extraction *)

Section ColdStart.
Context {Tag : Type}.
Variable soup_select : pystr -> res (list Tag).
Variable get_text : Tag -> pystr.
Variable json_dumps : pydata -> pystr.
(** The system calls recorded so far. *)
Variable T : list fsop.

Abbreviation iteration := (scrape_iteration soup_select get_text json_dumps).
Abbreviation loop_from := (scrape_loop_from soup_select get_text json_dumps).
Abbreviation page_ext := (page_extraction soup_select get_text).
Abbreviation cold := (cold_after T).

Lemma cold_advance w evs :
  io_ops evs = [] -> assigns evs = [] -> cold w -> cold (advance w evs).
Proof.
  intros Hio Ha [Ht Hc]. unfold cold_after.
  rewrite latest_advance, trace_advance, io_ops_app, Ha, Hio, app_nil_r.
  split; assumption.
Qed.

Lemma cold_effect e w :
  io_ops [e] = [] -> assigns [e] = [] -> cold w -> cold (effect e w).
Proof. intros Hio Ha. apply (cold_advance w [e] Hio Ha). Qed.

Lemma hoare_cold_body o st :
  page_ext o = None \/ page_ext o = Some [] ->
  hoare cold (loop_body soup_select get_text json_dumps o st) (fun _ w => cold w).
Proof.
  intros Hq. unfold loop_body.
  apply (hoare_bind _ (fun _ w => cold w)).
  { intros w Hc. destruct (driver st); [exact Hc|].
    destruct (o_print o PrintStarting); [|exact Hc].
    destruct (o_create o); try exact Hc.
    apply (cold_effect (EvSleep InitialLoad) w); [reflexivity | reflexivity | exact Hc]. }
  intros _. unfold page_extraction in Hq.
  destruct (o_page_source o) as [h|]; [|intros w Hc; exact Hc].
  apply (hoare_bind _ (fun html w => html = h /\ cold w));
    [intros w Hc; split; [reflexivity | exact Hc]|].
  intros html. apply hoare_assume. intros ->.
  destruct (parse_market_from_html soup_select get_text h) as [records|e];
    [|intros w Hc; exact Hc].
  assert (records = []) as -> by (destruct Hq as [Hq | Hq]; congruence).
  apply (hoare_bind _ (fun parsed w => parsed = [] /\ cold w)).
  { intros w Hc. split; [reflexivity | exact Hc]. }
  intros parsed. apply hoare_assume. intros ->.
  apply (hoare_bind _ (fun _ w => cold w)).
  - apply (hoare_bind _ (fun to_save w => to_save = latest_data w /\ cold w)).
    { intros w Hc. simpl. split; [reflexivity|].
      apply (cold_advance w [EvAcquire; EvRelease]); [reflexivity | reflexivity | exact Hc]. }
    intros to_save.
    apply (hoare_bind _ (fun _ w => cold w)).
    + intros w [-> [Ht Hc]]. rewrite Ht.
      destruct (o_print o PrintNoSnapshot); split; assumption.
    + intros _. apply hoare_ret. intros w Hc. exact Hc.
  - intros b. apply (hoare_bind _ (fun _ w => cold w)).
    + intros w Hc.
      destruct (runs_poll_wait (o_signal o) POLL_TICKS 0 w)
        as (evs & Hrun & Ha & _ & Hio).
      rewrite (runs_fst _ _ _ _ Hrun), (runs_snd _ _ _ _ Hrun).
      apply cold_advance; assumption.
    + intros _. apply hoare_ret. intros w Hc. exact Hc.
Qed.

(** Over an empty store the handler saves nothing; it raises only from
    its first print. *)
Lemma hoare_cold_handler o st :
  hoare cold (loop_handler json_dumps o st)
        (fun r w => cold w /\ (o_print o PrintCaught = true -> is_ret r = true)).
Proof.
  unfold loop_handler.
  destruct (o_print o PrintCaught).
  2:{ intros w Hc. split; [exact Hc | discriminate]. }
  apply (hoare_bind _ (fun _ w => cold w)); [intros w Hc; exact Hc|].
  intros _.
  apply (hoare_bind _ (fun _ w => cold w)).
  - apply hoare_with_lock.
    apply (hoare_bind _ (fun data w => data = latest_data w /\ cold w)).
    { intros w (w0 & Hc & ->). simpl. split; [reflexivity|].
      apply (cold_effect EvAcquire w0); [reflexivity | reflexivity | exact Hc]. }
    intros data w [-> [Ht Hc]]. rewrite Ht.
    apply (cold_effect EvRelease); [reflexivity | reflexivity | split; assumption].
  - intros _. apply (hoare_bind _ (fun _ w => cold w)).
    + intros w Hc.
      apply (cold_effect (EvSleep (Backoff (py_min_30 (backoff st)))) w);
        [reflexivity | reflexivity | exact Hc].
    + intros _. apply hoare_ret. intros w Hc. split; [exact Hc | reflexivity].
Qed.

Lemma hoare_cold_iteration o st :
  page_ext o = None \/ page_ext o = Some [] ->
  hoare cold (iteration o st)
        (fun r w => cold w /\ (o_print o PrintCaught = true -> is_ret r = true)).
Proof.
  intros Hq. unfold scrape_iteration.
  apply (hoare_bind _ (fun _ w => cold w)).
  - apply (hoare_try _ (fun _ w => cold w)).
    + intros w Hc. pose proof (hoare_cold_body o st Hq w Hc) as H.
      destruct (fst (loop_body soup_select get_text json_dumps o st w)); exact H.
    + intros e w Hc. destruct (hoare_cold_handler o st w Hc) as [H Hr].
      destruct (fst (loop_handler json_dumps o st w));
        [exact H | split; [exact H | exact Hr]].
  - intros st'. apply (hoare_bind _ (fun _ w => cold w)).
    + intros w Hc.
      destruct (runs_deliver_signal (o_signal o) w) as (evs & Hrun & Ha & _ & Hio).
      rewrite (runs_fst _ _ _ _ Hrun), (runs_snd _ _ _ _ Hrun).
      apply cold_advance; assumption.
    + intros _. apply hoare_ret. intros w Hc. split; [exact Hc | reflexivity].
Qed.

Lemma hoare_cold_loop os st :
  Forall (fun o => page_ext o = None \/ page_ext o = Some []) os ->
  hoare cold (loop_from os st)
        (fun r w => cold w
                    /\ (Forall (fun o => o_print o PrintCaught = true) os ->
                        is_ret r = true)).
Proof.
  revert st. induction os as [|o os IH]; intros st Hall; cbn [scrape_loop_from].
  - apply (hoare_bind _ (fun _ w => cold w)); [intros w Hc; exact Hc|].
    intros [|]; apply hoare_ret; intros w Hc; (split; [exact Hc | reflexivity]).
  - apply Forall_cons in Hall as [Hq Hall].
    apply (hoare_bind _ (fun _ w => cold w)); [intros w Hc; exact Hc|].
    intros [|]; [apply hoare_ret; intros w Hc; (split; [exact Hc | reflexivity])|].
    apply (hoare_bind _ (fun _ w => cold w)).
    + intros w Hc. destruct (hoare_cold_iteration o st Hq w Hc) as [H Hr].
      destruct (fst (iteration o st w)); [exact H|].
      split; [exact H|]. intros Hp. apply Forall_cons in Hp as [Hp _].
      apply Hr, Hp.
    + intros st' w Hc. destruct (IH st' Hall w Hc) as [H Hr].
      split; [exact H|]. intros Hp. apply Forall_cons in Hp as [_ Hp].
      apply Hr, Hp.
Qed.
End ColdStart.

Lemma any_trace_closed : trace_closed (fun _ => True).
Proof. split; [exact I | intros; exact I]. Qed.

Section ColdClaim.
Context {Tag : Type}.
Variable soup_select : pystr -> res (list Tag).
Variable get_text : Tag -> pystr.
Variable json_dumps : pydata -> pystr.

(** X18.  Until something is extracted the loop leaves the disk alone.
    Started with an empty store, over any run of turns in which the
    page cannot be fetched or parsed or the Extractor returns no
    record, [scrape_loop] makes no system call at all, leaves every
    file as it is and the store empty, so [GET /latest] still answers
    503 afterwards; this holds whatever the prints do, also when an
    exception leaves the loop.  The loop does not raise when the first
    print of the handler returns in every turn. *)
Theorem cold_loop_never_touches_disk os st w now :
  truthy (latest_data w) = false ->
  Forall (fun o => page_extraction soup_select get_text o = None
                   \/ page_extraction soup_select get_text o = Some []) os ->
  let w' := snd (scrape_loop_from soup_select get_text json_dumps os st w) in
  calls_of (scrape_loop_from soup_select get_text json_dumps os st) w = []
  /\ w_fs w' = w_fs w
  /\ fst (get_latest now w') = Ret (503, ErrorBody (py "No data yet"))
  /\ (Forall (fun o => o_print o PrintCaught = true) os ->
      is_ret (fst (scrape_loop_from soup_select get_text json_dumps os st w))
      = true).
Proof.
  intros Ht Hall w'. subst w'.
  destruct (hoare_cold_loop soup_select get_text json_dumps (io_ops (w_trace w))
              os st Hall w (conj Ht eq_refl)) as ((Ht' & Hio) & Hr).
  destruct (emits_scrape_loop_from soup_select get_text json_dumps (fun _ => True)
              any_trace_closed (fun _ => I) (fun _ => I) (fun _ _ => I) (fun _ => I)
              os st (proj2 (Forall_forall _ _) (fun _ _ _ => I)) w)
    as (r & evs & Hrun & _).
  rewrite (runs_snd _ _ _ _ Hrun) in Ht', Hio.
  rewrite trace_advance, io_ops_app in Hio.
  assert (io_ops evs = []) as Hnone.
  { apply (app_inv_head (io_ops (w_trace w))). rewrite app_nil_r. exact Hio. }
  rewrite (runs_calls _ _ _ _ Hrun), (runs_snd _ _ _ _ Hrun), fs_advance, Hnone.
  split; [reflexivity|]. split; [reflexivity|]. split; [|exact Hr].
  unfold get_latest, with_lock, bind, read_latest_data.
  change (latest_data (effect EvAcquire (advance w evs)))
    with (latest_data (advance w evs)).
  rewrite Ht'. reflexivity.
Qed.
End ColdClaim.

(** ** These theorems at concrete inputs *)

Section MoreInstances.
Import Toy ToyMore.

Lemma parse_market_fields_clean_witness :
  parse_market_from_html_with soup_select get_text None page2 = Ret [btc; eth]
  /\ eth ∈ [btc; eth]
  /\ clean_field (pair eth) /\ clean_field (price eth)
  /\ clean_field (change_24h eth).
Proof.
  assert (parse_market_from_html_with soup_select get_text None page2
          = Ret [btc; eth]) as Hrun by (vm_compute; reflexivity).
  assert (eth ∈ [btc; eth]) as Hin by (right; left).
  split; [exact Hrun|]. split; [exact Hin|].
  exact (parse_market_fields_clean soup_select get_text None page2 [btc; eth] eth
           Hrun Hin).
Defined.

Lemma parse_market_cap_keeps_first_witness :
  0 < 2
  /\ parse_market_from_html soup_select get_text page3 = Ret [btc; eth; btc]
  /\ parse_market_from_html_with soup_select get_text (Some 2) page3
     = Ret (take (Z.to_nat 2) [btc; eth; btc]).
Proof.
  assert (parse_market_from_html soup_select get_text page3 = Ret [btc; eth; btc])
    as Hall by (vm_compute; reflexivity).
  split; [lia|]. split; [exact Hall|].
  apply (parse_market_cap_keeps_first soup_select get_text 2 page3 _ ltac:(lia) Hall).
Defined.

Lemma parse_market_negative_cap_first_row_witness :
  soup_select page2 = Ret [btc_row; eth_row]
  /\ -1 < 0
  /\ parse_market_from_html_with soup_select get_text (Some (-1)) page2
     = Ret (omap (row_record get_text) (take 1 [btc_row; eth_row])).
Proof.
  assert (soup_select page2 = Ret [btc_row; eth_row]) as Hsoup
    by (vm_compute; reflexivity).
  split; [exact Hsoup|]. split; [lia|].
  apply (parse_market_negative_cap_first_row soup_select get_text (-1) page2 _ Hsoup).
  lia.
Defined.

Lemma save_json_atomic_raises_only_outside_try_witness :
  (truthy (DList []) = false
   /\ fst (save_json_atomic json_dumps writer_down JSON_FILE (DList [])
             (Some BACKUP_FILE) warm_world) = Ret tt)
  /\ (truthy (DList [btc]) = true /\ mkstemp_result writer_down = None
      /\ fst (save_json_atomic json_dumps writer_down JSON_FILE (DList [btc])
                (Some BACKUP_FILE) warm_world) = Raise OSError
      /\ w_fs (snd (save_json_atomic json_dumps writer_down JSON_FILE (DList [btc])
                      (Some BACKUP_FILE) warm_world)) = w_fs warm_world)
  /\ (abspath_ok writer_silenced = true
      /\ mkstemp_result writer_silenced = Some tmp1
      /\ rename_done JSON_FILE
           (calls_of (save_json_atomic json_dumps writer_silenced JSON_FILE
                        (DList [btc]) (Some BACKUP_FILE)) warm_world) = false
      /\ print_error_ok writer_silenced = false
      /\ fst (save_json_atomic json_dumps writer_silenced JSON_FILE (DList [btc])
                (Some BACKUP_FILE) warm_world) = Raise UnicodeEncodeError
      /\ is_Some (w_fs (snd (save_json_atomic json_dumps writer_silenced JSON_FILE
                               (DList [btc]) (Some BACKUP_FILE) warm_world))
                  !! tmp1))
  /\ (rename_done JSON_FILE
        (calls_of (save_json_atomic json_dumps writer_stuck JSON_FILE
                     (DList [btc]) (Some BACKUP_FILE)) warm_world) = false
      /\ print_error_ok writer_stuck = true
      /\ fst (save_json_atomic json_dumps writer_stuck JSON_FILE (DList [btc])
                (Some BACKUP_FILE) warm_world) = Ret tt)
  /\ (rename_done JSON_FILE
        (calls_of (save_json_atomic json_dumps (writer_ok tmp1) JSON_FILE
                     (DList [btc]) (Some BACKUP_FILE)) warm_world) = true
      /\ fst (save_json_atomic json_dumps (writer_ok tmp1) JSON_FILE (DList [btc])
                (Some BACKUP_FILE) warm_world) = Ret tt).
Proof.
  split; [|split; [|split; [|split]]].
  - split; [reflexivity|].
    destruct (save_json_atomic_raises_only_outside_try json_dumps writer_down
                JSON_FILE (DList []) (Some BACKUP_FILE) warm_world) as [Hskip _].
    apply (Hskip eq_refl).
  - split; [reflexivity|]. split; [reflexivity|].
    destruct (save_json_atomic_raises_only_outside_try json_dumps writer_down
                JSON_FILE (DList [btc]) (Some BACKUP_FILE) warm_world)
      as (_ & Hbefore & _).
    apply (Hbefore eq_refl). right. reflexivity.
  - assert (rename_done JSON_FILE
              (calls_of (save_json_atomic json_dumps writer_silenced JSON_FILE
                           (DList [btc]) (Some BACKUP_FILE)) warm_world) = false)
      as Hno by (vm_compute; reflexivity).
    split; [reflexivity|]. split; [reflexivity|]. split; [exact Hno|].
    split; [reflexivity|].
    destruct (save_json_atomic_raises_only_outside_try json_dumps writer_silenced
                JSON_FILE (DList [btc]) (Some BACKUP_FILE) warm_world)
      as (_ & _ & Hin).
    destruct (Hin tmp1 eq_refl eq_refl eq_refl) as (_ & _ & Hsilent).
    apply (Hsilent Hno eq_refl).
  - assert (rename_done JSON_FILE
              (calls_of (save_json_atomic json_dumps writer_stuck JSON_FILE
                           (DList [btc]) (Some BACKUP_FILE)) warm_world) = false)
      as Hno by (vm_compute; reflexivity).
    split; [exact Hno|]. split; [reflexivity|].
    destruct (save_json_atomic_raises_only_outside_try json_dumps writer_stuck
                JSON_FILE (DList [btc]) (Some BACKUP_FILE) warm_world)
      as (_ & _ & Hin).
    destruct (Hin tmp1 eq_refl eq_refl eq_refl) as (_ & Hprinted & _).
    apply (Hprinted Hno eq_refl).
  - assert (rename_done JSON_FILE
              (calls_of (save_json_atomic json_dumps (writer_ok tmp1) JSON_FILE
                           (DList [btc]) (Some BACKUP_FILE)) warm_world) = true)
      as Hyes by (vm_compute; reflexivity).
    split; [exact Hyes|].
    destruct (save_json_atomic_raises_only_outside_try json_dumps (writer_ok tmp1)
                JSON_FILE (DList [btc]) (Some BACKUP_FILE) warm_world)
      as (_ & _ & Hin).
    destruct (Hin tmp1 eq_refl eq_refl eq_refl) as (Hdone & _).
    apply (Hdone Hyes).
Defined.

Lemma save_json_atomic_touches_three_paths_witness :
  notes <> JSON_FILE
  /\ path_given (Some BACKUP_FILE) <> Some notes
  /\ mkstemp_result (writer_ok tmp1) <> Some notes
  /\ w_fs (snd (save_json_atomic json_dumps (writer_ok tmp1) JSON_FILE
                  (DList [btc; eth]) (Some BACKUP_FILE) busy_world)) !! notes
     = w_fs busy_world !! notes.
Proof.
  assert (notes <> JSON_FILE) as H1 by discriminate.
  assert (path_given (Some BACKUP_FILE) <> Some notes) as H2 by discriminate.
  assert (mkstemp_result (writer_ok tmp1) <> Some notes) as H3 by discriminate.
  split; [exact H1|]. split; [exact H2|]. split; [exact H3|].
  apply (save_json_atomic_touches_three_paths json_dumps (writer_ok tmp1) JSON_FILE
           (DList [btc; eth]) (Some BACKUP_FILE) busy_world notes H1 H2 H3).
Defined.

Lemma save_json_atomic_leaves_no_temp_witness :
  truthy (DList [btc]) = true
  /\ fresh_tmp writer_rename_fails JSON_FILE (Some BACKUP_FILE) = true
  /\ mkstemp_result writer_rename_fails = Some tmp1
  /\ (abspath_ok writer_rename_fails = true
      /\ print_error_ok writer_rename_fails = true
      /\ remove_ok writer_rename_fails = true)
  /\ w_fs (snd (save_json_atomic json_dumps writer_rename_fails JSON_FILE
                  (DList [btc]) (Some BACKUP_FILE) warm_world)) !! tmp1 = None.
Proof.
  split; [reflexivity|]. split; [reflexivity|]. split; [reflexivity|].
  split; [repeat split; reflexivity|].
  apply (save_json_atomic_leaves_no_temp json_dumps writer_rename_fails JSON_FILE
           (DList [btc]) (Some BACKUP_FILE) warm_world tmp1 eq_refl eq_refl eq_refl).
  right. repeat split; reflexivity.
Defined.

Lemma failed_rename_has_overwritten_backup_witness :
  w_fs warm_world !! JSON_FILE = Some (json_dumps (DList [btc]))
  /\ replace_ok writer_rename_fails = false
  /\ print_error_ok writer_rename_fails = true
  /\ fst (save_json_atomic json_dumps writer_rename_fails JSON_FILE
            (DList [btc; eth]) (Some BACKUP_FILE) warm_world) = Ret tt
  /\ w_fs (snd (save_json_atomic json_dumps writer_rename_fails JSON_FILE
                  (DList [btc; eth]) (Some BACKUP_FILE) warm_world)) !! JSON_FILE
     = Some (json_dumps (DList [btc]))
  /\ w_fs (snd (save_json_atomic json_dumps writer_rename_fails JSON_FILE
                  (DList [btc; eth]) (Some BACKUP_FILE) warm_world)) !! BACKUP_FILE
     = Some (json_dumps (DList [btc])).
Proof.
  assert (w_fs warm_world !! JSON_FILE = Some (json_dumps (DList [btc]))) as Hold
    by (vm_compute; reflexivity).
  split; [exact Hold|]. split; [reflexivity|]. split; [reflexivity|].
  destruct (failed_rename_has_overwritten_backup json_dumps writer_rename_fails
              JSON_FILE (DList [btc; eth]) (Some BACKUP_FILE) BACKUP_FILE warm_world
              tmp1 (json_dumps (DList [btc])) eq_refl eq_refl eq_refl)
    as (Hret & Hprim & Hback);
    [discriminate | reflexivity | reflexivity | reflexivity | reflexivity
     | reflexivity | exact Hold |].
  split; [apply Hret; reflexivity|]. split; [exact Hprim | exact Hback].
Defined.

Lemma poll_wait_sleeps_until_signal_witness :
  stop_event empty_world = false
  /\ ticks_slept (events_of (poll_wait (Some 3%nat) POLL_TICKS 0) empty_world)
     = Nat.min 3 20
  /\ stop_event (snd (handle_signal true empty_world)) = true
  /\ ticks_slept (events_of (poll_wait None POLL_TICKS 0)
                    (snd (handle_signal true empty_world))) = 0%nat.
Proof.
  split; [reflexivity|]. split; [|split; [reflexivity|]].
  - destruct (poll_wait_sleeps_until_signal (Some 3%nat) empty_world) as [Hrun _].
    apply (Hrun eq_refl).
  - destruct (poll_wait_sleeps_until_signal None
                (snd (handle_signal true empty_world))) as [_ Hstopped].
    apply (Hstopped eq_refl).
Defined.

Lemma signal_ends_the_loops_witness :
  stop_event empty_world = false
  /\ o_signal turn_signalled = Some 3%nat
  /\ fst (scrape_iteration soup_select get_text json_dumps turn_signalled
            initial_locals empty_world) = Ret (mkLocals true (FFin 1))
  /\ scrape_loop_from soup_select get_text json_dumps
       [turn_signalled; turn_one_record] initial_locals empty_world
     = (Ret Stopped,
        snd (scrape_iteration soup_select get_text json_dumps turn_signalled
               initial_locals empty_world)).
Proof.
  assert (fst (scrape_iteration soup_select get_text json_dumps turn_signalled
                 initial_locals empty_world) = Ret (mkLocals true (FFin 1)))
    as Hret by (vm_compute; reflexivity).
  split; [reflexivity|]. split; [reflexivity|]. split; [exact Hret|].
  destruct (signal_ends_the_loops soup_select get_text json_dumps)
    as (_ & _ & _ & Hturn).
  apply (Hturn turn_signalled [turn_one_record] initial_locals empty_world
               (mkLocals true (FFin 1)) 3%nat eq_refl eq_refl Hret).
Defined.

Lemma scrape_loop_keeps_running_witness :
  stop_event empty_world = false
  /\ Forall (fun o => o_signal o = None /\ handler_returns o = true)
            [turn_fetch_raises; turn_save_raises; turn_no_row]
  /\ exists st',
       fst (scrape_loop_from soup_select get_text json_dumps
              [turn_fetch_raises; turn_save_raises; turn_no_row] initial_locals
              empty_world) = Ret (Running st').
Proof.
  assert (Forall (fun o => o_signal o = None /\ handler_returns o = true)
                 [turn_fetch_raises; turn_save_raises; turn_no_row]) as Hall
    by (repeat (constructor; [split; reflexivity|]); constructor).
  split; [reflexivity|]. split; [exact Hall|].
  destruct (scrape_loop_keeps_running soup_select get_text json_dumps
              [turn_fetch_raises; turn_save_raises; turn_no_row] initial_locals
              empty_world eq_refl Hall) as (st' & Hrun & _).
  exists st'. exact Hrun.
Defined.

Lemma turn_keeps_driver_or_backs_off_witness :
  fst (scrape_iteration soup_select get_text json_dumps turn_fetch_raises
         (mkLocals true (FFin 2)) warm_world) = Ret (mkLocals false (FFin 4))
  /\ backoff_delays (events_of (scrape_iteration soup_select get_text json_dumps
                                  turn_fetch_raises (mkLocals true (FFin 2)))
                       warm_world) = [2].
Proof.
  assert (fst (scrape_iteration soup_select get_text json_dumps turn_fetch_raises
                 (mkLocals true (FFin 2)) warm_world)
          = Ret (mkLocals false (FFin 4))) as Hret by (vm_compute; reflexivity).
  split; [exact Hret|].
  destruct (turn_keeps_driver_or_backs_off soup_select get_text json_dumps
              turn_fetch_raises (mkLocals true (FFin 2)) warm_world _ Hret)
    as [(Hd & _) | (_ & Hdelay & _)]; [discriminate | exact Hdelay].
Defined.

Lemma update_data_loop_makes_no_system_call_witness :
  stop_event warm_world = false
  /\ last (turns_made [(sim, true); (sim2, false); (sim, true)]) = Some sim2
  /\ w_fs (snd (update_data_loop [(sim, true); (sim2, false); (sim, true)]
                  warm_world)) = w_fs warm_world
  /\ is_ret (fst (update_data_loop [(sim, true); (sim2, false); (sim, true)]
                    warm_world)) = false
  /\ latest_data (snd (update_data_loop [(sim, true); (sim2, false); (sim, true)]
                         warm_world)) = DDict sim2.
Proof.
  split; [reflexivity|]. split; [reflexivity|].
  destruct (update_data_loop_makes_no_system_call
              [(sim, true); (sim2, false); (sim, true)] warm_world)
    as (_ & Hfs & Hrun).
  destruct (Hrun eq_refl) as (_ & Hret & Hlast).
  split; [exact Hfs|]. split; [exact Hret | apply (Hlast sim2 eq_refl)].
Defined.

(** The dict of [update_data_loop] reaches the disk in the next turn of
    [scrape_loop]. *)
Lemma turn_leaves_disk_mirroring_store_witness :
  writer_succeeds (o_save turn_no_row) = true
  /\ fresh_tmp (o_save turn_no_row) JSON_FILE (Some BACKUP_FILE) = true
  /\ writer_succeeds (o_resave turn_no_row) = true
  /\ fresh_tmp (o_resave turn_no_row) JSON_FILE (Some BACKUP_FILE) = true
  /\ is_ret (fst (scrape_iteration soup_select get_text json_dumps
                    turn_no_row initial_locals dict_world)) = true
  /\ truthy (latest_data (snd (scrape_iteration soup_select get_text json_dumps
                                 turn_no_row initial_locals dict_world))) = true
  /\ w_fs (snd (scrape_iteration soup_select get_text json_dumps
                  turn_no_row initial_locals dict_world)) !! JSON_FILE
     = Some (json_dumps (DDict sim)).
Proof.
  split; [reflexivity|]. split; [reflexivity|]. split; [reflexivity|].
  split; [reflexivity|].
  destruct (turn_leaves_disk_mirroring_store soup_select get_text json_dumps
              turn_no_row initial_locals dict_world eq_refl eq_refl eq_refl eq_refl)
    as (Hmirror & _ & Hret).
  pose proof (Hret eq_refl eq_refl) as Hr.
  assert (truthy (latest_data (snd (scrape_iteration soup_select get_text json_dumps
                                      turn_no_row initial_locals dict_world)))
          = true) as Ht by (vm_compute; reflexivity).
  split; [exact Hr|]. split; [exact Ht|].
  rewrite (Hmirror Hr Ht). vm_compute. reflexivity.
Defined.

Lemma fresh_extraction_is_served_witness :
  extraction soup_select get_text turn_disk_down initial_locals = Some [btc]
  /\ (let w' := snd (scrape_iteration soup_select get_text json_dumps turn_disk_down
                       initial_locals empty_world) in
      latest_data w' = DList [btc]
      /\ fst (get_latest (sim_timestamp sim) w')
         = Ret (200, LatestBody (sim_timestamp sim) (Z.of_nat (length [btc]))
                       (DList [btc]))).
Proof.
  assert (extraction soup_select get_text turn_disk_down initial_locals = Some [btc])
    as Hext by (vm_compute; reflexivity).
  split; [exact Hext|].
  apply (fresh_extraction_is_served soup_select get_text json_dumps turn_disk_down
           initial_locals empty_world btc [] (sim_timestamp sim) Hext).
Defined.

Lemma empty_turn_overwrites_backup_witness :
  extraction soup_select get_text turn_no_row_ascii initial_locals = Some []
  /\ o_save turn_no_row_ascii = writer_ok tmp1
  /\ o_resave turn_no_row_ascii = writer_ok tmp2
  /\ truthy (latest_data warm_world) = true
  /\ w_fs warm_world !! JSON_FILE = Some (json_dumps (latest_data warm_world))
  /\ w_fs warm_world !! BACKUP_FILE = None
  /\ (let w' := snd (scrape_iteration soup_select get_text json_dumps
                       turn_no_row_ascii initial_locals warm_world) in
      latest_data w' = latest_data warm_world
      /\ w_fs w' !! JSON_FILE = Some (json_dumps (latest_data warm_world))
      /\ w_fs w' !! BACKUP_FILE = Some (json_dumps (latest_data warm_world)))
  /\ (o_print turn_no_row PrintResaved = true
      /\ is_ret (fst (scrape_iteration soup_select get_text json_dumps
                        turn_no_row initial_locals warm_world)) = true).
Proof.
  assert (extraction soup_select get_text turn_no_row_ascii initial_locals = Some [])
    as Hext by (vm_compute; reflexivity).
  assert (extraction soup_select get_text turn_no_row initial_locals = Some [])
    as Hext' by (vm_compute; reflexivity).
  assert (tmp1 <> JSON_FILE) as H1 by discriminate.
  assert (tmp1 <> BACKUP_FILE) as H2 by discriminate.
  assert (tmp2 <> JSON_FILE) as H3 by discriminate.
  assert (tmp2 <> BACKUP_FILE) as H4 by discriminate.
  assert (w_fs warm_world !! JSON_FILE = Some (json_dumps (latest_data warm_world)))
    as Hm by (vm_compute; reflexivity).
  split; [exact Hext|]. split; [reflexivity|]. split; [reflexivity|].
  split; [reflexivity|]. split; [exact Hm|].
  split; [vm_compute; reflexivity|]. split.
  - destruct (empty_turn_overwrites_backup soup_select get_text json_dumps
                turn_no_row_ascii initial_locals warm_world tmp1 tmp2 Hext eq_refl
                H1 H2 eq_refl H3 H4 eq_refl Hm) as (Hl & Hp & Hb & _).
    repeat split; assumption.
  - split; [reflexivity|].
    destruct (empty_turn_overwrites_backup soup_select get_text json_dumps
                turn_no_row initial_locals warm_world tmp1 tmp2 Hext' eq_refl
                H1 H2 eq_refl H3 H4 eq_refl Hm) as (_ & _ & _ & Hret).
    apply Hret. reflexivity.
Defined.

Lemma cold_loop_never_touches_disk_witness :
  truthy (latest_data empty_world) = false
  /\ Forall (fun o => page_extraction soup_select get_text o = None
                      \/ page_extraction soup_select get_text o = Some [])
            [turn_no_row; turn_fetch_raises; turn_no_row]
  /\ Forall (fun o => o_print o PrintCaught = true)
            [turn_no_row; turn_fetch_raises; turn_no_row]
  /\ (let w' := snd (scrape_loop_from soup_select get_text json_dumps
                       [turn_no_row; turn_fetch_raises; turn_no_row]
                       initial_locals empty_world) in
      calls_of (scrape_loop_from soup_select get_text json_dumps
                  [turn_no_row; turn_fetch_raises; turn_no_row] initial_locals)
               empty_world = []
      /\ w_fs w' = w_fs empty_world
      /\ fst (get_latest (sim_timestamp sim) w')
         = Ret (503, ErrorBody (py "No data yet")))
  /\ is_ret (fst (scrape_loop_from soup_select get_text json_dumps
                    [turn_no_row; turn_fetch_raises; turn_no_row]
                    initial_locals empty_world)) = true.
Proof.
  assert (Forall (fun o => page_extraction soup_select get_text o = None
                           \/ page_extraction soup_select get_text o = Some [])
                 [turn_no_row; turn_fetch_raises; turn_no_row]) as Hall.
  { constructor; [right; vm_compute; reflexivity|].
    constructor; [left; vm_compute; reflexivity|].
    constructor; [right; vm_compute; reflexivity | constructor]. }
  assert (Forall (fun o => o_print o PrintCaught = true)
                 [turn_no_row; turn_fetch_raises; turn_no_row]) as Hprints
    by (repeat (constructor; [reflexivity|]); constructor).
  split; [reflexivity|]. split; [exact Hall|]. split; [exact Hprints|].
  destruct (cold_loop_never_touches_disk soup_select get_text json_dumps
              [turn_no_row; turn_fetch_raises; turn_no_row] initial_locals
              empty_world (sim_timestamp sim) eq_refl Hall)
    as (Hcalls & Hfs & Hlatest & Hret).
  split; [repeat split; assumption | apply Hret, Hprints].
Defined.

Lemma failed_turns_back_off_exponentially_witness :
  (backoff initial_locals = float_pow2 0
   /\ stop_event empty_world = false
   /\ Forall (fun o => page_extraction soup_select get_text o = None
                       /\ o_signal o = None /\ handler_returns o = true)
             [turn_fetch_raises; turn_fetch_raises; turn_fetch_raises]
   /\ backoff_delays
        (events_of (scrape_loop_from soup_select get_text json_dumps
                      [turn_fetch_raises; turn_fetch_raises; turn_fetch_raises]
                      initial_locals) empty_world)
      = map (fun i => nth_delay (0 + i)) (seq 0 3))
  /\ (Forall (fun o => page_extraction soup_select get_text o = None
                       \/ page_extraction soup_select get_text o = Some [])
             [turn_fetch_raises; turn_no_row; turn_fetch_raises]
      /\ Sorted Z.le
           (backoff_delays
              (events_of (scrape_loop_from soup_select get_text json_dumps
                            [turn_fetch_raises; turn_no_row; turn_fetch_raises]
                            initial_locals) empty_world)))
  /\ (extraction soup_select get_text turn_one_record (mkLocals false (FFin 16))
      = Some [btc]
      /\ writer_returns (o_save turn_one_record) = true
      /\ o_print turn_one_record PrintSaved = true
      /\ fst (scrape_iteration soup_select get_text json_dumps turn_one_record
                (mkLocals false (FFin 16)) empty_world)
         = Ret (mkLocals true (FFin 1))).
Proof.
  pose proof (failed_turns_back_off_exponentially soup_select get_text json_dumps)
    as (Hfailed & Hquiet & Hreset).
  split; [|split].
  - assert (Forall (fun o => page_extraction soup_select get_text o = None
                             /\ o_signal o = None /\ handler_returns o = true)
                   [turn_fetch_raises; turn_fetch_raises; turn_fetch_raises]) as Hall
      by (repeat (constructor; [repeat split; reflexivity|]); constructor).
    split; [reflexivity|]. split; [reflexivity|]. split; [exact Hall|].
    destruct (Hfailed [turn_fetch_raises; turn_fetch_raises; turn_fetch_raises]
                0%nat initial_locals empty_world eq_refl eq_refl Hall) as [Hd _].
    exact Hd.
  - assert (Forall (fun o => page_extraction soup_select get_text o = None
                             \/ page_extraction soup_select get_text o = Some [])
                   [turn_fetch_raises; turn_no_row; turn_fetch_raises]) as Hall.
    { constructor; [left; vm_compute; reflexivity|].
      constructor; [right; vm_compute; reflexivity|].
      constructor; [left; vm_compute; reflexivity | constructor]. }
    split; [exact Hall|].
    destruct (Hquiet [turn_fetch_raises; turn_no_row; turn_fetch_raises]
                0%nat initial_locals empty_world eq_refl Hall) as (_ & Hsorted & _).
    exact Hsorted.
  - assert (extraction soup_select get_text turn_one_record
              (mkLocals false (FFin 16)) = Some [btc]) as Hext
      by (vm_compute; reflexivity).
    split; [exact Hext|]. split; [reflexivity|]. split; [reflexivity|].
    destruct (Hreset turn_one_record (mkLocals false (FFin 16)) empty_world btc []
                Hext eq_refl eq_refl) as [Hret _].
    exact Hret.
Defined.
End MoreInstances.
